(** * The simulated Azure OpenAI generators ([generator/openai.py])

    A shallow embedding of the three default generators of the simulated
    API -- embeddings, completions and chat completions -- together with
    the deployment resolver and the streaming emitter, and the properties
    of them that the specification states.

    Python values are embedded as the type [json]; handlers run in a small
    state-and-exception monad whose state holds what the module mutates:
    the module-level set [missing_deployment_names], the log, the request
    context's [values] dictionary, and the position in the sources of
    randomness, identifiers, time and filler words. *)

From Stdlib Require Import ZArith Ascii String DecimalString.
From Stdlib Require Import PrimFloat SpecFloat FloatOps FloatAxioms.
From stdpp Require Import gmap strings list.

#[local] Set Warnings "-register-all".
Local Open Scope Z_scope.

(** ** Python values *)

(** What [json.loads] produces and [json.dumps] consumes.  A [dict] is kept
    as the list of its items in insertion order; its keys are distinct. *)
Inductive json : Type :=
| JNull
| JBool (b : bool)
| JInt (n : Z)
| JFloat (f : float)
| JStr (s : string)
| JArr (items : list json)
| JObj (fields : list (string * json)).

Inductive exn : Type :=
| KeyError (key : string)
| TypeError
| AttributeError
| ValueError
| OverflowError
| JSONDecodeError
| UnicodeDecodeError
| RecursionError.

Inductive Result (A : Type) : Type :=
| Ok (a : A)
| Raise (e : exn).
Arguments Ok {A} a.
Arguments Raise {A} e.

(** [d.get(key)] on the items of a dict. *)
Fixpoint assoc (key : string) (fields : list (string * json)) : option json :=
  match fields with
  | [] => None
  | (k, v) :: rest => if String.eqb k key then Some v else assoc key rest
  end.

(** [v[key]] with a string key: a [KeyError] on a dict without the key, a
    [TypeError] on every other value. *)
Definition getitem (v : json) (key : string) : Result json :=
  match v with
  | JObj fields =>
      match assoc key fields with
      | Some x => Ok x
      | None => Raise (KeyError key)
      end
  | _ => Raise TypeError
  end.

(** [v.get(key, default)]: only a dict has the method. *)
Definition get_default (v : json) (key : string) (default : json) : Result json :=
  match v with
  | JObj fields =>
      match assoc key fields with
      | Some x => Ok x
      | None => Ok default
      end
  | _ => Raise AttributeError
  end.

(** Python's truth value of an object, as [if x:] tests it. *)
Definition truthy (v : json) : bool :=
  match v with
  | JNull => false
  | JBool b => b
  | JInt n => negb (n =? 0)
  | JFloat f => negb (PrimFloat.eqb f PrimFloat.zero)
  | JStr s => negb (String.eqb s "")
  | JArr items => match items with [] => false | _ => true end
  | JObj fields => match fields with [] => false | _ => true end
  end.

(** Reading a field of a response body, for stating properties. *)
Definition field (key : string) (v : json) : option json :=
  match v with
  | JObj fields => assoc key fields
  | _ => None
  end.

Definition item (i : nat) (v : json) : option json :=
  match v with
  | JArr items => items !! i
  | _ => None
  end.

(** A path into a value: [v["choices"][0]["delta"]] is the path
    [[Key "choices"; Index 0; Key "delta"]]. *)
Inductive step : Type :=
| Key (key : string)
| Index (i : nat).

Fixpoint at_path (p : list step) (v : json) : option json :=
  match p with
  | [] => Some v
  | Key key :: rest =>
      match field key v with
      | Some x => at_path rest x
      | None => None
      end
  | Index i :: rest =>
      match item i v with
      | Some x => at_path rest x
      | None => None
      end
  end.

(** ** Floating point *)

(** Python's [float] is IEEE 754 binary64, as is Rocq's primitive [float]. *)
Definition TOKEN_TO_WORD_FACTOR : float := 0x1.70a3d70a3d70ap-1%float.

(** [float(n)] for an [int]: rounded to the nearest float, ties to even;
    an [OverflowError] when [n] is out of the range of floats. *)
Definition float_of_int (n : Z) : Result float :=
  let f := SF2Prim (binary_normalize prec emax n 0 false) in
  if PrimFloat.is_infinity f then Raise OverflowError else Ok f.

(** [int(x)] for a [float]: truncation towards zero. *)
Definition int_of_float (x : float) : Result Z :=
  match Prim2SF x with
  | S754_zero _ => Ok 0
  | S754_infinity _ => Raise OverflowError
  | S754_nan => Raise ValueError
  | S754_finite s m e =>
      let a := if 0 <=? e then Z.shiftl (Z.pos m) e else Z.shiftr (Z.pos m) (- e) in
      Ok (if s then - a else a)
  end.

(** [x * v] for a float [x]: an [int] (and a [bool], which is one) is
    converted to a float first; nothing else multiplies with a float. *)
Definition float_mul (x : float) (v : json) : Result float :=
  match v with
  | JInt n =>
      match float_of_int n with
      | Ok y => Ok (PrimFloat.mul x y)
      | Raise e => Raise e
      end
  | JBool b => Ok (PrimFloat.mul x (if b then PrimFloat.one else PrimFloat.zero))
  | JFloat y => Ok (PrimFloat.mul x y)
  | _ => Raise TypeError
  end.

(** ** Strings *)

Definition newline : string := String (ascii_of_nat 10) EmptyString.

(** [s.split(sep)] for a separator of one character: the pieces between
    separators; the empty string has one piece, itself. *)
Fixpoint split_on (sep : ascii) (s : string) : list string :=
  match s with
  | EmptyString => [EmptyString]
  | String c rest =>
      if Ascii.eqb c sep then EmptyString :: split_on sep rest
      else match split_on sep rest with
           | w :: ws => String c w :: ws
           | [] => [String c EmptyString]
           end
  end.

Definition split_space (s : string) : list string := split_on " " s.

(** [" ".join(ws)]. *)
Definition join_space (ws : list string) : string := String.concat " " ws.

(** ** The request and its context *)

Record Request : Type := {
  method : string;
  url_path : string;
  (** the body as [await request.json()] parses it; [None] when the body
      is not JSON and parsing raises *)
  body : option json;
  (** the exception [await request.json()] raises on a body it cannot
      parse: [JSONDecodeError] for malformed JSON, [UnicodeDecodeError] for
      bytes that are not UTF-8, [RecursionError] for nesting too deep *)
  body_error : exn;
}.

(** A deployment of the configuration; only its model is read here, and as
    an object it is truthy. *)
Record OpenAIDeployment : Type := {
  model : string;
}.

Record Config : Type := {
  openai_deployments : option (gmap string OpenAIDeployment);
}.

(** The immutable part of [RequestContext]; its [values] dictionary is
    mutated and lives in the state below. *)
Record RequestContext : Type := {
  request : Request;
  config : Config;
}.

(** ** State and effects *)

Record State : Type := {
  (** the module-level [missing_deployment_names] *)
  missing_deployment_names : gset string;
  (** the messages [logger.warning] has emitted, oldest first *)
  warnings : list string;
  (** [context.values] *)
  values : gmap string json;
  (** how many times the request body has been read *)
  body_reads : nat;
  (** how many items have been drawn from the outside sources: random
      numbers, identifiers, clock readings and filler words *)
  draws : nat;
}.

Definition M (A : Type) : Type := State -> Result A * State.

Definition ret {A} (a : A) : M A := fun s => (Ok a, s).

Definition raise {A} (e : exn) : M A := fun s => (Raise e, s).

Definition bind {A B} (c : M A) (k : A -> M B) : M B :=
  fun s =>
    match c s with
    | (Ok a, s') => k a s'
    | (Raise e, s') => (Raise e, s')
    end.

Definition lift {A} (r : Result A) : M A := fun s => (r, s).

Notation "x <- c ;; k" := (bind c (fun x => k))
  (at level 100, c at next level, right associativity).
Notation "c ;;; k" := (bind c (fun _ => k))
  (at level 100, right associativity).

(** The state after [n] more items have been drawn from the outside
    sources. *)
Definition advance (n : nat) (s : State) : State :=
  {| missing_deployment_names := missing_deployment_names s;
     warnings := warnings s;
     values := values s;
     body_reads := body_reads s;
     draws := (n + draws s)%nat |}.

(** One item from an outside source: the source is read at the current
    position, which then advances. *)
Definition draw {A} (source : nat -> A) : M A :=
  fun s => (Ok (source (draws s)), advance 1 s).

(** [context.values[key] = v] *)
Definition set_value (key : string) (v : json) : M unit :=
  fun s =>
    (Ok tt,
     {| missing_deployment_names := missing_deployment_names s;
        warnings := warnings s;
        values := <[key := v]> (values s);
        body_reads := body_reads s;
        draws := draws s |}).

(** [await request.json()]: the parsed body, or the exception the parse
    raises. *)
Definition request_json (r : Request) : M json :=
  fun s =>
    let s' := {| missing_deployment_names := missing_deployment_names s;
                 warnings := warnings s;
                 values := values s;
                 body_reads := S (body_reads s);
                 draws := draws s |} in
    match body r with
    | Some v => (Ok v, s')
    | None => (Raise (body_error r), s')
    end.

(** [missing_deployment_names.add(name)] followed by [logger.warning(...)]. *)
Definition warn_missing (deployment_name default_model : string) : M unit :=
  fun s =>
    (Ok tt,
     {| missing_deployment_names := {[deployment_name]} ∪ missing_deployment_names s;
        warnings := warnings s ++
          ["Deployment " +:+ deployment_name +:+
           " not found in config, using default model " +:+ default_model];
        values := values s;
        body_reads := body_reads s;
        draws := draws s |}).

Definition get_state : M State := fun s => (Ok s, s).

(** ** The deployment resolver *)

(** The lookup of the first lines, [if deployments:] and [if deployment:],
    comes first: a registry that is [None] or empty is falsy, and so is a
    name that [deployments.get] does not find. *)
Definition get_model_name_from_deployment_name
    (context : RequestContext) (deployment_name : string) : M string :=
  let found :=
    match openai_deployments (config context) with
    | Some deployments =>
        if decide (deployments = ∅) then None
        else match deployments !! deployment_name with
             | Some deployment => Some (model deployment)
             | None => None
             end
    | None => None
    end in
  match found with
  | Some m => ret m
  | None =>
      let default_model : string := "gpt-3.5-turbo-0613" in
      s <- get_state ;;
      (if decide (deployment_name ∈ missing_deployment_names s) then ret tt
       else warn_missing deployment_name default_model) ;;;
      ret default_model
  end.

(** ** Collaborators outside this module *)

(** What the module imports and calls but does not define: the route
    matcher of the request context, the tokenizer, [json.dumps], the keys
    of [aoai_simulated_api.constants], and the sources of random numbers
    ([random.random]), identifiers ([nanoid.non_secure_generate]), time
    ([int(time.time())]) and filler words ([lorem]), each read by
    position. *)
Class Externals : Type := {
  is_route_match : Request -> string -> list string -> bool * gmap string string;
  count_text : string -> string -> Z;
  num_tokens_from_messages : json -> string -> Result Z;
  json_dumps : json -> string;
  SIMULATOR_KEY_DEPLOYMENT_NAME : string;
  SIMULATOR_KEY_OPENAI_COMPLETION_TOKENS : string;
  SIMULATOR_KEY_OPENAI_TOTAL_TOKENS : string;
  SIMULATOR_KEY_LIMITER : string;
  SIMULATOR_KEY_OPERATION_NAME : string;
  random_random : nat -> float;
  non_secure_generate : nat -> nat -> string;
  epoch_seconds : nat -> Z;
  lorem_word : nat -> string;
}.

(** The two kinds of response a generator returns.  A streaming response
    holds the generator [send_words()], not yet run: the variables it
    closes over. *)
Record SendWords : Type := {
  closure_words : string;
  closure_model_name : string;
}.

Inductive HTTPResponse : Type :=
| Response (status_code : Z) (content : string) (headers : list (string * string))
| StreamingResponse (content : SendWords).

Definition default_embedding_size : nat := 1536.

(** The four static content-safety categories, as the source writes them
    out in each of its three filter-results blocks. *)
Definition content_filter_results : json :=
  JObj [("hate", JObj [("filtered", JBool false); ("severity", JStr "safe")]);
        ("self_harm", JObj [("filtered", JBool false); ("severity", JStr "safe")]);
        ("sexual", JObj [("filtered", JBool false); ("severity", JStr "safe")]);
        ("violence", JObj [("filtered", JBool false); ("severity", JStr "safe")])].

(** [path_params[key]] *)
Definition param (path_params : gmap string string) (key : string) : Result string :=
  match path_params !! key with
  | Some v => Ok v
  | None => Raise (KeyError key)
  end.

(** The values a [for] loop over [v] visits: the items of a list, the keys
    of a dict, the characters of a string; other values are not iterable. *)
Definition iterate (v : json) : Result (list json) :=
  match v with
  | JArr items => Ok items
  | JObj fields => Ok (map (fun kv => JStr (fst kv)) fields)
  | JStr s => Ok (map (fun c => JStr (String c EmptyString)) (list_ascii_of_string s))
  | _ => Raise TypeError
  end.

(** ["".join(s)] for a string [s]: its characters, joined by nothing. *)
Definition join_chars (s : string) : string :=
  String.concat "" (map (fun c => String c EmptyString) (list_ascii_of_string s)).

Section Generators.

Context `{Externals}.

(** Modelled from the spec: [openai_tokens.num_tokens_from_string] is not
    among the sources; per the specification it is the tokenizer's count of
    a text for a model, [count_text].  Given anything but a string the
    tokenizer raises. *)
Definition num_tokens_from_string (v : json) (model_name : string) : M Z :=
  match v with
  | JStr s => ret (count_text s model_name)
  | _ => raise TypeError
  end.

(** The next [n] words of the filler-word source. *)
Definition draw_words (n : nat) : M (list string) :=
  fun s => (Ok (map lorem_word (seq (draws s) n)), advance n s).

(** [lorem.get_word(count=count)], a call into the [lorem] library: [count]
    filler words joined by single spaces; the library takes them with
    [itertools.islice], which refuses a negative count. *)
Definition lorem_get_word (count : Z) : M string :=
  if count <? 0 then raise ValueError
  else ws <- draw_words (Z.to_nat count) ;; ret (join_space ws).

(** [[(random.random() - 0.5) * 4 for _ in range(n)]] *)
Fixpoint random_vector (n : nat) : M (list json) :=
  match n with
  | O => ret []
  | S k =>
      r <- draw random_random ;;
      rest <- random_vector k ;;
      ret (JFloat (PrimFloat.mul (PrimFloat.sub r 0.5%float) 4%float) :: rest)
  end.

Definition _generate_embedding (index : Z) : M json :=
  embedding <- random_vector default_embedding_size ;;
  ret (JObj [("object", JStr "embedding");
             ("index", JInt index);
             ("embedding", JArr embedding)]).

(** The [for i in request_input] loop of the embeddings generator, with its
    three loop variables. *)
Fixpoint embedding_loop (model_name : string) (request_input : list json)
    (tokens index : Z) (embeddings : list json) : M (Z * list json) :=
  match request_input with
  | [] => ret (tokens, embeddings)
  | i :: rest =>
      n <- num_tokens_from_string i model_name ;;
      e <- _generate_embedding index ;;
      embedding_loop model_name rest (tokens + n) (index + 1) (embeddings ++ [e])
  end.

Definition azure_openai_embedding (context : RequestContext) : M (option HTTPResponse) :=
  let request := request context in
  let '(is_match, path_params) :=
    is_route_match request "/openai/deployments/{deployment}/embeddings" ["POST"%string] in
  if negb is_match then ret None
  else
    deployment_name <- lift (param path_params "deployment") ;;
    request_body <- request_json request ;;
    model_name <- get_model_name_from_deployment_name context deployment_name ;;
    request_input <- lift (getitem request_body "input") ;;
    r <- match request_input with
         | JStr _ =>
             tokens <- num_tokens_from_string request_input model_name ;;
             e <- _generate_embedding 0 ;;
             ret (tokens, [e])
         | _ =>
             items <- lift (iterate request_input) ;;
             embedding_loop model_name items 0 0 []
         end ;;
    let '(tokens, embeddings) := r in
    let response_data :=
      JObj [("object", JStr "list");
            ("data", JArr embeddings);
            ("model", JStr "ada");
            ("usage", JObj [("prompt_tokens", JInt tokens);
                            ("total_tokens", JInt tokens)])] in
    set_value SIMULATOR_KEY_LIMITER (JStr "openai") ;;;
    set_value SIMULATOR_KEY_OPERATION_NAME (JStr "embeddings") ;;;
    set_value SIMULATOR_KEY_DEPLOYMENT_NAME (JStr deployment_name) ;;;
    set_value SIMULATOR_KEY_OPENAI_TOTAL_TOKENS (JInt tokens) ;;;
    ret (Some (Response 200 (json_dumps response_data)
                 [("Content-Type", "application/json")%string])).

(** [int(TOKEN_TO_WORD_FACTOR * max_tokens)] *)
Definition tokens_to_words (max_tokens : json) : Result Z :=
  match float_mul TOKEN_TO_WORD_FACTOR max_tokens with
  | Ok x => int_of_float x
  | Raise e => Raise e
  end.

Definition azure_openai_completion (context : RequestContext) : M (option HTTPResponse) :=
  let request := request context in
  let '(is_match, path_params) :=
    is_route_match request "/openai/deployments/{deployment}/completions" ["POST"%string] in
  if negb is_match then ret None
  else
    deployment_name <- lift (param path_params "deployment") ;;
    model_name <- get_model_name_from_deployment_name context deployment_name ;;
    request_body <- request_json request ;;
    prompt <- lift (getitem request_body "prompt") ;;
    prompt_tokens <- num_tokens_from_string prompt model_name ;;
    max_tokens <- lift (get_default request_body "max_tokens" (JInt 4096)) ;;
    words_to_generate <- lift (tokens_to_words max_tokens) ;;
    words <- lorem_get_word words_to_generate ;;
    let text := join_chars words in
    completion_tokens <- num_tokens_from_string (JStr text) model_name ;;
    let total_tokens := prompt_tokens + completion_tokens in
    id <- draw (non_secure_generate 29) ;;
    created <- draw epoch_seconds ;;
    let response_body :=
      JObj [("id", JStr ("cmpl-" +:+ id));
            ("object", JStr "text_completion");
            ("created", JInt created);
            ("model", JStr model_name);
            ("choices", JArr [JObj [("text", JStr text);
                                    ("index", JInt 0);
                                    ("finish_reason", JStr "length");
                                    ("logprobs", JNull)]]);
            ("usage", JObj [("prompt_tokens", JInt prompt_tokens);
                            ("completion_tokens", JInt completion_tokens);
                            ("total_tokens", JInt total_tokens)])] in
    set_value SIMULATOR_KEY_LIMITER (JStr "openai") ;;;
    set_value SIMULATOR_KEY_OPERATION_NAME (JStr "completions") ;;;
    set_value SIMULATOR_KEY_DEPLOYMENT_NAME (JStr deployment_name) ;;;
    set_value SIMULATOR_KEY_OPENAI_COMPLETION_TOKENS (JInt completion_tokens) ;;;
    set_value SIMULATOR_KEY_OPENAI_TOTAL_TOKENS (JInt total_tokens) ;;;
    ret (Some (Response 200 (json_dumps response_body)
                 [("Content-Type", "application/json")%string])).

(** The dict one chunk of the stream serialises. *)
Definition chunk (id : string) (created : Z) (model_name space word : string) : json :=
  JObj [("id", JStr ("chatcmpl-" +:+ id));
        ("object", JStr "chat.completion.chunk");
        ("created", JInt created);
        ("model_name", JStr model_name);
        ("system_fingerprint", JNull);
        ("choices",
         JArr [JObj [("delta",
                      JObj [("content", JStr (space +:+ word));
                            ("function_call", JNull);
                            ("role", JNull);
                            ("tool_calls", JNull);
                            ("finish_reason", JNull);
                            ("index", JInt 0);
                            ("logprobs", JNull);
                            ("content_filter_results", content_filter_results)]);
                     ("message", JObj [("role", JStr "assistant");
                                       ("content", JStr word)])]])].

(** The body of [send_words()] from its [for] loop on: what it yields, in
    order, when it is run to its end.  The pause between chunks
    ([asyncio.sleep(0.05)]) yields nothing and is left out. *)
Fixpoint send_words_loop (model_name space : string) (ws : list string) : M (list string) :=
  match ws with
  | [] => ret ["[DONE]"%string]
  | word :: rest =>
      id <- draw (non_secure_generate 29) ;;
      created <- draw epoch_seconds ;;
      let chunk_string := json_dumps (chunk id created model_name space word) in
      yielded <- send_words_loop model_name " " rest ;;
      ret (("data: " +:+ chunk_string +:+ newline) :: newline :: yielded)
  end.

Definition send_words (g : SendWords) : M (list string) :=
  send_words_loop (closure_model_name g) "" (split_space (closure_words g)).

Definition azure_openai_chat_completion (context : RequestContext) : M (option HTTPResponse) :=
  let request := request context in
  let '(is_match, path_params) :=
    is_route_match request "/openai/deployments/{deployment}/chat/completions" ["POST"%string] in
  if negb is_match then ret None
  else
    request_body <- request_json request ;;
    deployment_name <- lift (param path_params "deployment") ;;
    model_name <- get_model_name_from_deployment_name context deployment_name ;;
    messages <- lift (getitem request_body "messages") ;;
    prompt_tokens <- lift (num_tokens_from_messages messages model_name) ;;
    max_tokens <- lift (get_default request_body "max_tokens" (JInt 4096)) ;;
    words_to_generate <- lift (tokens_to_words max_tokens) ;;
    words <- lorem_get_word words_to_generate ;;
    stream <- lift (get_default request_body "stream" (JBool false)) ;;
    if truthy stream then
      ret (Some (StreamingResponse
                   {| closure_words := words; closure_model_name := model_name |}))
    else
      let text := join_chars words in
      completion_tokens <- num_tokens_from_string (JStr text) model_name ;;
      let total_tokens := prompt_tokens + completion_tokens in
      id <- draw (non_secure_generate 29) ;;
      created <- draw epoch_seconds ;;
      let response_body :=
        JObj [("id", JStr ("chatcmpl-" +:+ id));
              ("object", JStr "chat.completion");
              ("created", JInt created);
              ("model", JStr model_name);
              ("prompt_filter_results",
               JArr [JObj [("prompt_index", JInt 0);
                           ("content_filter_results", content_filter_results)]]);
              ("choices",
               JArr [JObj [("finish_reason", JStr "length");
                           ("index", JInt 0);
                           ("message", JObj [("role", JStr "assistant");
                                             ("content", JStr text)]);
                           ("content_filter_results", content_filter_results)]]);
              ("usage", JObj [("prompt_tokens", JInt prompt_tokens);
                              ("completion_tokens", JInt completion_tokens);
                              ("total_tokens", JInt total_tokens)])] in
      set_value SIMULATOR_KEY_LIMITER (JStr "openai") ;;;
      set_value SIMULATOR_KEY_OPERATION_NAME (JStr "chat-completions") ;;;
      set_value SIMULATOR_KEY_DEPLOYMENT_NAME (JStr deployment_name) ;;;
      set_value SIMULATOR_KEY_OPENAI_COMPLETION_TOKENS (JInt completion_tokens) ;;;
      set_value SIMULATOR_KEY_OPENAI_TOTAL_TOKENS (JInt total_tokens) ;;;
      ret (Some (Response 200 (json_dumps response_body)
                   [("Content-Type", "application/json")%string])).

End Generators.

(** ** Specification-level notions *)

(** The deployment a name is registered as, if any. *)
Definition registry_lookup (c : Config) (deployment_name : string) : option OpenAIDeployment :=
  match openai_deployments c with
  | Some deployments => deployments !! deployment_name
  | None => None
  end.

Definition default_model : string := "gpt-3.5-turbo-0613".

(** The model a deployment name resolves to. *)
Definition resolved_model (c : Config) (deployment_name : string) : string :=
  match registry_lookup c deployment_name with
  | Some deployment => model deployment
  | None => default_model
  end.

(** The diagnostic emitted for a missing deployment name. *)
Definition missing_warning (deployment_name : string) : string :=
  "Deployment " +:+ deployment_name +:+
  " not found in config, using default model " +:+ default_model.

(** The state the resolver leaves behind. *)
Definition resolved_state (c : Config) (deployment_name : string) (s : State) : State :=
  match registry_lookup c deployment_name with
  | Some _ => s
  | None =>
      if decide (deployment_name ∈ missing_deployment_names s) then s
      else {| missing_deployment_names := {[deployment_name]} ∪ missing_deployment_names s;
              warnings := warnings s ++ [missing_warning deployment_name];
              values := values s;
              body_reads := body_reads s;
              draws := draws s |}
  end.

(** The state after the request body has been read once more. *)
Definition body_read (s : State) : State :=
  {| missing_deployment_names := missing_deployment_names s;
     warnings := warnings s;
     values := values s;
     body_reads := S (body_reads s);
     draws := draws s |}.

(** The state after a list of items has been written to [context.values],
    in order. *)
Definition published (items : list (string * json)) (s : State) : State :=
  {| missing_deployment_names := missing_deployment_names s;
     warnings := warnings s;
     values := foldl (fun m kv => <[fst kv := snd kv]> m) (values s) items;
     body_reads := body_reads s;
     draws := draws s |}.

(** A string without a space in it. *)
Definition spaceless (w : string) : Prop := ~ In " "%char (list_ascii_of_string w).

(** The server-sent-event framing of a list of serialised chunks. *)
Definition sse_frames `{Externals} (chunks : list json) : list string :=
  flat_map (fun c => [("data: " +:+ json_dumps c +:+ newline); newline]) chunks.

(** The content of a chunk's delta. *)
Definition delta_content (c : json) : option json :=
  at_path [Key "choices"; Index 0; Key "delta"; Key "content"] c.

(** The embedding object generated at position [d] of the random source. *)
Definition embedding_object `{Externals} (index : Z) (d : nat) : json :=
  JObj [("object", JStr "embedding");
        ("index", JInt index);
        ("embedding",
         JArr (map (fun k => JFloat (PrimFloat.mul (PrimFloat.sub (random_random k) 0.5%float)
                                       4%float))
                 (seq d default_embedding_size)))].

(** [n] embedding objects in a row, numbered from [index], the first at
    position [d] of the random source. *)
Fixpoint embedding_objects `{Externals} (index : Z) (d : nat) (n : nat) : list json :=
  match n with
  | O => []
  | S n' =>
      embedding_object index d ::
      embedding_objects (index + 1) (default_embedding_size + d) n'
  end.

(** The sum over the inputs of their token counts. *)
Definition total_count `{Externals} (model_name : string) (inputs : list string) : Z :=
  fold_right (fun text acc => count_text text model_name + acc) 0 inputs.

(** The body of an embeddings response. *)
Definition embeddings_body (data : list json) (tokens : Z) : json :=
  JObj [("object", JStr "list");
        ("data", JArr data);
        ("model", JStr "ada");
        ("usage", JObj [("prompt_tokens", JInt tokens);
                        ("total_tokens", JInt tokens)])].

Definition json_headers : list (string * string) :=
  [("Content-Type", "application/json")%string].

(** What each operation writes to [context.values], in the order it
    writes it. *)
Definition embedding_items `{Externals} (deployment_name : string) (tokens : Z)
    : list (string * json) :=
  [(SIMULATOR_KEY_LIMITER, JStr "openai");
   (SIMULATOR_KEY_OPERATION_NAME, JStr "embeddings");
   (SIMULATOR_KEY_DEPLOYMENT_NAME, JStr deployment_name);
   (SIMULATOR_KEY_OPENAI_TOTAL_TOKENS, JInt tokens)].

Definition generation_items `{Externals} (operation deployment_name : string)
    (completion_tokens total_tokens : Z) : list (string * json) :=
  [(SIMULATOR_KEY_LIMITER, JStr "openai");
   (SIMULATOR_KEY_OPERATION_NAME, JStr operation);
   (SIMULATOR_KEY_DEPLOYMENT_NAME, JStr deployment_name);
   (SIMULATOR_KEY_OPENAI_COMPLETION_TOKENS, JInt completion_tokens);
   (SIMULATOR_KEY_OPENAI_TOTAL_TOKENS, JInt total_tokens)].

(** The filler text of [n] words drawn at position [d] of the word source. *)
Definition filler_text `{Externals} (d n : nat) : string :=
  join_space (map lorem_word (seq d n)).

(** The body of a completions response. *)
Definition completion_body (id : string) (created : Z) (model_name text : string)
    (prompt_tokens completion_tokens : Z) : json :=
  JObj [("id", JStr ("cmpl-" +:+ id));
        ("object", JStr "text_completion");
        ("created", JInt created);
        ("model", JStr model_name);
        ("choices", JArr [JObj [("text", JStr text);
                                ("index", JInt 0);
                                ("finish_reason", JStr "length");
                                ("logprobs", JNull)]]);
        ("usage", JObj [("prompt_tokens", JInt prompt_tokens);
                        ("completion_tokens", JInt completion_tokens);
                        ("total_tokens", JInt (prompt_tokens + completion_tokens))])].

(** The body of a chat-completions response that is not streamed. *)
Definition chat_body (id : string) (created : Z) (model_name text : string)
    (prompt_tokens completion_tokens : Z) : json :=
  JObj [("id", JStr ("chatcmpl-" +:+ id));
        ("object", JStr "chat.completion");
        ("created", JInt created);
        ("model", JStr model_name);
        ("prompt_filter_results",
         JArr [JObj [("prompt_index", JInt 0);
                     ("content_filter_results", content_filter_results)]]);
        ("choices",
         JArr [JObj [("finish_reason", JStr "length");
                     ("index", JInt 0);
                     ("message", JObj [("role", JStr "assistant");
                                       ("content", JStr text)]);
                     ("content_filter_results", content_filter_results)]]);
        ("usage", JObj [("prompt_tokens", JInt prompt_tokens);
                        ("completion_tokens", JInt completion_tokens);
                        ("total_tokens", JInt (prompt_tokens + completion_tokens))])].

(** The value of [request_body.get("max_tokens", 4096)]. *)
Definition max_tokens_of (fields : list (string * json)) : json :=
  match assoc "max_tokens" fields with
  | Some v => v
  | None => JInt 4096
  end.

(** The value of [request_body.get("stream", False)]. *)
Definition stream_of (fields : list (string * json)) : json :=
  match assoc "stream" fields with
  | Some v => v
  | None => JBool false
  end.

(** The chunks a stream serialises for a list of words, the first word
    prefixed by [space], the first identifier drawn at position [d]. *)
Fixpoint stream_chunks `{Externals} (model_name space : string) (d : nat)
    (ws : list string) : list json :=
  match ws with
  | [] => []
  | word :: rest =>
      chunk (non_secure_generate 29 d) (epoch_seconds (S d)) model_name space word ::
      stream_chunks model_name " " (S (S d)) rest
  end.

(** [floor (0.72 * n)], in exact arithmetic. *)
Definition floor_072 (n : Z) : Z := (72 * n) `div` 100.

(** The invariant of shifting [M] right by [i] bits with the round and
    sticky flags of [SpecFloat]: twice [M] is the mantissa kept, with the
    round bit below it, times [2 ^ i], plus what the sticky flag stands
    for. *)
Definition shifted (M i : Z) (mrs : shr_record) : Prop :=
  0 <= shr_m mrs /\
  exists T,
    2 * M = (2 * shr_m mrs + Z.b2z (shr_r mrs)) * 2 ^ i + T /\
    0 <= T < 2 ^ i /\
    (shr_s mrs = false <-> T = 0).

(** ** Frames *)

(** The process-wide part of the state that outlives a request. *)
Definition log (s : State) : gset string * list string :=
  (missing_deployment_names s, warnings s).

(** A computation keeps an observation [f] of the state, whatever its
    outcome. *)
Definition keeps {A T} (f : State -> T) (c : M A) : Prop :=
  forall s, f (snd (c s)) = f s.

(** An observation that does not look at how often the body was read or
    how much was drawn from the outside sources. *)
Definition progress_blind {T} (f : State -> T) : Prop :=
  forall s b d,
    f {| missing_deployment_names := missing_deployment_names s;
         warnings := warnings s;
         values := values s;
         body_reads := b;
         draws := d |} = f s.

(** A computation that, when it raises, has written nothing to
    [context.values]. *)
Definition fails_clean {A} (c : M A) : Prop :=
  forall s e s', c s = (Raise e, s') -> values s' = values s.

(** A computation whose effect on the log is that of one run of the
    resolver at most. *)
Definition once {A} (c : Config) (m : M A) : Prop :=
  forall s,
    log (snd (m s)) = log s \/
    exists deployment_name, log (snd (m s)) = log (resolved_state c deployment_name s).

(** The log holds one warning for each name recorded as missing. *)
Definition warned (s : State) : Prop :=
  warnings s ≡ₚ map missing_warning (elements (missing_deployment_names s)).

(** What one request may do to the log: nothing, or record one name that
    was not recorded yet and warn about it. *)
Definition logged_at_most_once (s s' : State) : Prop :=
  (missing_deployment_names s' = missing_deployment_names s /\
   warnings s' = warnings s) \/
  exists deployment_name,
    (deployment_name ∉ missing_deployment_names s) /\
    missing_deployment_names s' = {[deployment_name]} ∪ missing_deployment_names s /\
    warnings s' = warnings s ++ [missing_warning deployment_name].

(** ** Notions for the further properties *)

(** A value Python multiplies by a float: an [int], a [float] or a
    [bool]. *)
Definition numeric (v : json) : bool :=
  match v with
  | JInt _ | JFloat _ | JBool _ => true
  | _ => false
  end.

(** A value a [for] loop cannot iterate over. *)
Definition scalar (v : json) : bool :=
  match v with
  | JNull | JBool _ | JInt _ | JFloat _ => true
  | _ => false
  end.


(** What every chunk of a stream for [model_name] carries besides its
    word. *)
Definition chunk_frame (model_name : string) (c : json) : Prop :=
  (exists id, field "id" c = Some (JStr ("chatcmpl-" +:+ id))) /\
  field "object" c = Some (JStr "chat.completion.chunk") /\
  field "model_name" c = Some (JStr model_name) /\
  field "model" c = None /\
  at_path [Key "choices"; Index 0; Key "delta"; Key "content_filter_results"] c
    = Some content_filter_results /\
  at_path [Key "choices"; Index 0; Key "delta"; Key "finish_reason"] c = Some JNull /\
  at_path [Key "choices"; Index 0; Key "message"; Key "role"] c = Some (JStr "assistant").


(** A float in the range of [random.random()], [0.0 <= r < 1.0]. *)
Definition unit_interval (r : float) : Prop :=
  PrimFloat.leb 0%float r = true /\ PrimFloat.ltb r 1%float = true.

(** A float in [-2.0 <= x < 2.0]. *)
Definition in_range (x : float) : Prop :=
  PrimFloat.leb (-2)%float x = true /\ PrimFloat.ltb x 2%float = true.

(** An embedding object whose vector holds floats in [-2.0 <= x < 2.0]
    only. *)
Definition ranged (e : json) : Prop :=
  exists vector,
    field "embedding" e = Some (JArr vector) /\
    Forall (fun x => exists f, x = JFloat f /\ in_range f) vector.

(** ** Tactics for runs *)

(** One step of a run: the first action of a sequence, whose outcome [E]
    gives, is executed. *)
Ltac step E := unfold bind at 1; rewrite E; cbv beta iota.

(** The run of the writes to [context.values] that end a generator. *)
Ltac publish := unfold bind, set_value, ret, published; reflexivity.

(** ** Reference collaborators

    A concrete instance of [Externals], on which the statements below are
    exercised. *)
Module Reference.

(** [{name}] as a path-template segment names a parameter. *)
Definition placeholder (segment : string) : option string :=
  match segment with
  | String "{" rest =>
      match rev (list_ascii_of_string rest) with
      | "}"%char :: name => Some (string_of_list_ascii (rev name))
      | _ => None
      end
  | _ => None
  end.

Fixpoint match_segments (template path : list string) (params : gmap string string)
    : option (gmap string string) :=
  match template, path with
  | [], [] => Some params
  | t :: ts, p :: ps =>
      match placeholder t with
      | Some name =>
          if String.eqb p "" then None
          else match_segments ts ps (<[name := p]> params)
      | None => if String.eqb t p then match_segments ts ps params else None
      end
  | _, _ => None
  end.

(** Modelled from the spec: the route matcher [RequestContext.is_route_match]
    is not among the sources.  A request matches a route when its method is
    one of the route's and its path fits the template segment by segment, a
    [{name}] placeholder capturing one non-empty segment as a path
    parameter. *)
Definition route_match (r : Request) (path : string) (methods : list string)
    : bool * gmap string string :=
  match match_segments (split_on "/" path) (split_on "/" (url_path r)) ∅ with
  | Some params =>
      if existsb (String.eqb (method r)) methods then (true, params) else (false, ∅)
  | None => (false, ∅)
  end.

Definition show_Z (n : Z) : string := NilZero.string_of_int (Z.to_int n).

Definition show_nat (n : nat) : string := show_Z (Z.of_nat n).

Definition show_float (f : float) : string :=
  match Prim2SF f with
  | S754_zero _ => "0.0"
  | S754_infinity s => if s then "-Infinity" else "Infinity"
  | S754_nan => "NaN"
  | S754_finite s m e =>
      (if s then "-" else "") +:+ show_Z (Z.pos m) +:+ "p" +:+ show_Z e
  end.

Definition commas (parts : list string) : string := String.concat ", " parts.

(** A plain serialiser standing in for [json.dumps]. *)
Fixpoint dumps (v : json) : string :=
  match v with
  | JNull => "null"
  | JBool b => if b then "true" else "false"
  | JInt n => show_Z n
  | JFloat f => show_float f
  | JStr s => "'" +:+ s +:+ "'"
  | JArr items => "[" +:+ commas (map dumps items) +:+ "]"
  | JObj fields =>
      "{" +:+ commas (map (fun kv => "'" +:+ fst kv +:+ "': " +:+ dumps (snd kv)) fields) +:+ "}"
  end.

(** A tokenizer standing in for the real one: one token per character. *)
Definition characters (text model_name : string) : Z := Z.of_nat (String.length text).

Definition message_characters (messages : json) (model_name : string) : Result Z :=
  match messages with
  | JArr items =>
      Ok (fold_right
            (fun m acc =>
               match field "content" m with
               | Some (JStr s) => 3 + characters s model_name + acc
               | _ => 3 + acc
               end) 3 items)
  | _ => Raise TypeError
  end.

Definition filler : list string := ["lorem"; "ipsum"; "dolor"; "sit"; "amet"]%string.

#[export] Instance externals : Externals := {|
  is_route_match := route_match;
  count_text := characters;
  num_tokens_from_messages := message_characters;
  json_dumps := dumps;
  SIMULATOR_KEY_DEPLOYMENT_NAME := "deployment_name";
  SIMULATOR_KEY_OPENAI_COMPLETION_TOKENS := "openai_completion_tokens";
  SIMULATOR_KEY_OPENAI_TOTAL_TOKENS := "openai_total_tokens";
  SIMULATOR_KEY_LIMITER := "limiter";
  SIMULATOR_KEY_OPERATION_NAME := "operation_name";
  random_random := fun k => SF2Prim (binary_normalize prec emax (Z.of_nat (k mod 8)) (-3) false);
  non_secure_generate := fun size k => show_nat k;
  epoch_seconds := fun k => 1700000000 + Z.of_nat k;
  lorem_word := fun k => nth (k mod 5) filler ""%string;
|}.

(** An empty process state. *)
Definition fresh : State :=
  {| missing_deployment_names := ∅;
     warnings := [];
     values := ∅;
     body_reads := 0;
     draws := 0 |}.

Definition no_deployments : Config := {| openai_deployments := None |}.

Definition post (path : string) (v : json) : RequestContext :=
  {| request := {| method := "POST"; url_path := path; body := Some v;
                   body_error := JSONDecodeError |};
     config := no_deployments |}.

(** The requests the statements are exercised on. *)
Definition chat_request (max_tokens : Z) (stream : bool) : RequestContext :=
  post "/openai/deployments/dep-x/chat/completions"
    (JObj [("messages", JArr [JObj [("role", JStr "user"); ("content", JStr "hi")]]);
           ("max_tokens", JInt max_tokens);
           ("stream", JBool stream)]).

Definition completion_request (fields : list (string * json)) : RequestContext :=
  post "/openai/deployments/dep-x/completions" (JObj fields).

Definition embedding_request (input : json) : RequestContext :=
  post "/openai/deployments/dep-x/embeddings" (JObj [("input", input)]).

Definition registered_context : RequestContext :=
  {| request := {| method := "POST"; url_path := "/"; body := None;
                   body_error := JSONDecodeError |};
     config := {| openai_deployments := Some {["gpt4" := {| model := "gpt-4" |}]} |} |}.

End Reference.

(** * Properties *)

(** ** The monad *)

Lemma bind_ok {A B} (c : M A) (k : A -> M B) s a s' :
  c s = (Ok a, s') -> bind c k s = k a s'.
Proof. intros E. unfold bind. now rewrite E. Qed.

Lemma bind_raise {A B} (c : M A) (k : A -> M B) s e s' :
  c s = (Raise e, s') -> bind c k s = (Raise e, s').
Proof. intros E. unfold bind. now rewrite E. Qed.

Lemma bind_ret {A B} (a : A) (k : A -> M B) s : bind (ret a) k s = k a s.
Proof. reflexivity. Qed.

Lemma bind_lift_ok {A B} (a : A) (k : A -> M B) s : bind (lift (Ok a)) k s = k a s.
Proof. reflexivity. Qed.

Lemma advance_advance n m s : advance n (advance m s) = advance (m + n) s.
Proof. unfold advance. simpl. f_equal. lia. Qed.

Lemma advance_0 s : advance 0 s = s.
Proof. now destruct s. Qed.

Lemma lift_run {A} (r : Result A) a s : r = Ok a -> lift r s = (Ok a, s).
Proof. now intros ->. Qed.

Lemma request_json_run r v s : body r = Some v -> request_json r s = (Ok v, body_read s).
Proof. intros E. unfold request_json. now rewrite E. Qed.

Lemma param_run (path_params : gmap string string) key v :
  path_params !! key = Some v -> param path_params key = Ok v.
Proof. intros E. unfold param. now rewrite E. Qed.

Lemma getitem_run fields key v :
  assoc key fields = Some v -> getitem (JObj fields) key = Ok v.
Proof. intros E. unfold getitem. now rewrite E. Qed.

Lemma set_value_run key v s : set_value key v s = (Ok tt, published [(key, v)] s).
Proof. reflexivity. Qed.

Lemma published_app xs ys s : published ys (published xs s) = published (xs ++ ys) s.
Proof. unfold published. cbn. now rewrite foldl_app. Qed.

Lemma bind_inv {A B} (c : M A) (k : A -> M B) s b s' :
  bind c k s = (Ok b, s') -> exists a s1, c s = (Ok a, s1) /\ k a s1 = (Ok b, s').
Proof.
  unfold bind. destruct (c s) as [[a | e] s1]; intros E; [eauto | discriminate].
Qed.

Lemma lift_inv {A} (r : Result A) a s s1 : lift r s = (Ok a, s1) -> r = Ok a /\ s1 = s.
Proof. unfold lift. intros [= -> ->]. now split. Qed.

Lemma param_inv (path_params : gmap string string) key v :
  param path_params key = Ok v -> path_params !! key = Some v.
Proof. unfold param. destruct (path_params !! key); intros [= ->]. reflexivity. Qed.

Lemma request_json_inv r v s s1 :
  request_json r s = (Ok v, s1) -> body r = Some v /\ s1 = body_read s.
Proof.
  unfold request_json. destruct (body r); intros [= <- <-]. now split.
Qed.

Lemma getitem_inv v key x :
  getitem v key = Ok x -> exists fields, v = JObj fields /\ assoc key fields = Some x.
Proof.
  destruct v; try discriminate. cbn. destruct (assoc key fields) eqn:E; intros [= <-].
  eauto.
Qed.

Lemma get_default_run fields key default :
  get_default (JObj fields) key default =
  Ok (match assoc key fields with Some v => v | None => default end).
Proof. cbn. now destruct (assoc key fields). Qed.

Lemma join_chars_id s : join_chars s = s.
Proof.
  unfold join_chars. induction s as [| c s IH]; [reflexivity |].
  cbn [list_ascii_of_string map]. destruct s as [| c' s]; [reflexivity |].
  cbn [list_ascii_of_string map] in *. cbn [String.concat]. cbn [String.concat] in IH.
  rewrite IH. reflexivity.
Qed.

Lemma draw_run {A} (source : nat -> A) s : draw source s = (Ok (source (draws s)), advance 1 s).
Proof. reflexivity. Qed.

Lemma draws_advance n s : draws (advance n s) = (n + draws s)%nat.
Proof. reflexivity. Qed.

Lemma draws_body_read s : draws (body_read s) = draws s.
Proof. reflexivity. Qed.

(** ** The deployment resolver *)

Lemma registry_lookup_absent c deployment_name :
  openai_deployments c = None \/ openai_deployments c = Some ∅ ->
  registry_lookup c deployment_name = None.
Proof.
  unfold registry_lookup. intros [-> | ->]; [reflexivity | apply lookup_empty].
Qed.

(** The resolver never raises: it returns the resolved model and leaves
    the resolved state. *)
Lemma resolver_run context deployment_name s :
  get_model_name_from_deployment_name context deployment_name s =
  (Ok (resolved_model (config context) deployment_name),
   resolved_state (config context) deployment_name s).
Proof.
  unfold get_model_name_from_deployment_name, resolved_model, resolved_state,
    registry_lookup.
  destruct (openai_deployments (config context)) as [deployments |].
  - destruct (decide (deployments = ∅)) as [-> | _].
    + rewrite lookup_empty. cbn.
      destruct (decide (deployment_name ∈ missing_deployment_names s)); reflexivity.
    + destruct (deployments !! deployment_name); [reflexivity |]. cbn.
      destruct (decide (deployment_name ∈ missing_deployment_names s)); reflexivity.
  - cbn. destruct (decide (deployment_name ∈ missing_deployment_names s)); reflexivity.
Qed.

Lemma resolved_state_missing c deployment_name s :
  registry_lookup c deployment_name = None ->
  missing_deployment_names (resolved_state c deployment_name s) =
  {[deployment_name]} ∪ missing_deployment_names s.
Proof.
  intros E. unfold resolved_state. rewrite E.
  destruct (decide (deployment_name ∈ missing_deployment_names s)) as [I | _];
    [| reflexivity].
  symmetry. apply subseteq_union_1_L. now apply singleton_subseteq_l.
Qed.

Lemma resolved_state_idem c deployment_name s :
  resolved_state c deployment_name (resolved_state c deployment_name s) =
  resolved_state c deployment_name s.
Proof.
  unfold resolved_state at 1. destruct (registry_lookup c deployment_name) eqn:E.
  - reflexivity.
  - rewrite resolved_state_missing by exact E.
    destruct (decide (deployment_name ∈ {[deployment_name]} ∪ missing_deployment_names s))
      as [_ | N]; [reflexivity |].
    destruct N. apply elem_of_union_l. now apply elem_of_singleton.
Qed.

Lemma resolved_state_draws c deployment_name s :
  draws (resolved_state c deployment_name s) = draws s.
Proof.
  unfold resolved_state. destruct (registry_lookup c deployment_name); [reflexivity |].
  now destruct (decide (deployment_name ∈ missing_deployment_names s)).
Qed.

(** C2: for a deployment name that the registry does not hold -- the
    registry being absent or empty included -- the resolver returns the
    default model ["gpt-3.5-turbo-0613"] and never raises; afterwards the
    name is in [missing_deployment_names]; the first such call adds the one
    warning, a call for a name already recorded changes nothing, so a second
    call with the same name emits no second diagnostic; and a call with a
    registered name returns its model and leaves the whole state, the set
    included, unchanged. *)
Theorem resolver_default_warns_once context deployment_name s :
  (openai_deployments (config context) = None \/
   openai_deployments (config context) = Some ∅ ->
   registry_lookup (config context) deployment_name = None) /\
  (registry_lookup (config context) deployment_name = None ->
   exists s1,
     get_model_name_from_deployment_name context deployment_name s =
       (Ok "gpt-3.5-turbo-0613"%string, s1) /\
     missing_deployment_names s1 = {[deployment_name]} ∪ missing_deployment_names s /\
     (deployment_name ∉ missing_deployment_names s ->
      warnings s1 = warnings s ++ [missing_warning deployment_name]) /\
     (deployment_name ∈ missing_deployment_names s -> s1 = s) /\
     get_model_name_from_deployment_name context deployment_name s1 =
       (Ok "gpt-3.5-turbo-0613"%string, s1)) /\
  (forall deployment,
     registry_lookup (config context) deployment_name = Some deployment ->
     get_model_name_from_deployment_name context deployment_name s =
       (Ok (model deployment), s)).
Proof.
  split; [apply registry_lookup_absent |]. split.
  - intros E. exists (resolved_state (config context) deployment_name s).
    rewrite !resolver_run, resolved_state_idem.
    unfold resolved_model. rewrite E.
    split; [reflexivity |]. split; [now apply resolved_state_missing |].
    unfold resolved_state. rewrite E.
    destruct (decide (deployment_name ∈ missing_deployment_names s)) as [I | N].
    + split; [intros N; now destruct N | split; reflexivity].
    + split; [reflexivity | split; [intros I; now destruct N | reflexivity]].
  - intros deployment E. rewrite resolver_run.
    unfold resolved_model, resolved_state. now rewrite E.
Qed.

(** ** Routes that do not match *)

Section Properties.

Context `{Externals}.

(** C8: a request that does not match an operation's route makes that
    operation return [None] with the state exactly as it was: the body has
    not been read, nothing has been written to [context.values], and
    [missing_deployment_names] is as before. *)
Theorem route_mismatch_no_work context s :
  (fst (is_route_match (request context)
          "/openai/deployments/{deployment}/embeddings" ["POST"%string]) = false ->
   azure_openai_embedding context s = (Ok None, s)) /\
  (fst (is_route_match (request context)
          "/openai/deployments/{deployment}/completions" ["POST"%string]) = false ->
   azure_openai_completion context s = (Ok None, s)) /\
  (fst (is_route_match (request context)
          "/openai/deployments/{deployment}/chat/completions" ["POST"%string]) = false ->
   azure_openai_chat_completion context s = (Ok None, s)).
Proof.
  unfold azure_openai_embedding, azure_openai_completion, azure_openai_chat_completion.
  repeat split;
    match goal with
    | |- fst ?m = false -> _ => destruct m as [is_match path_params]
    end; cbn [fst]; intros ->; reflexivity.
Qed.

(** ** Embeddings *)

Lemma random_vector_run n s :
  random_vector n s =
  (Ok (map (fun k => JFloat (PrimFloat.mul (PrimFloat.sub (random_random k) 0.5%float)
                               4%float))
         (seq (draws s) n)),
   advance n s).
Proof.
  revert s. induction n as [| n IH]; intros s.
  - cbn. now rewrite advance_0.
  - cbn [random_vector]. unfold bind at 1. unfold draw at 1.
    unfold bind at 1. rewrite IH, advance_advance. reflexivity.
Qed.

Lemma generate_embedding_run index s :
  _generate_embedding index s =
  (Ok (embedding_object index (draws s)), advance default_embedding_size s).
Proof.
  unfold _generate_embedding, bind. now rewrite random_vector_run.
Qed.

Lemma embedding_loop_run model_name inputs : forall tokens index embeddings s,
  embedding_loop model_name (map JStr inputs) tokens index embeddings s =
  (Ok (tokens + total_count model_name inputs,
       embeddings ++ embedding_objects index (draws s) (length inputs)),
   advance (default_embedding_size * length inputs) s).
Proof.
  induction inputs as [| text inputs IH]; intros tokens index embeddings s.
  - cbn [map embedding_loop length embedding_objects total_count fold_right].
    rewrite Nat.mul_0_r, advance_0, Z.add_0_r, app_nil_r. reflexivity.
  - cbn [map embedding_loop length embedding_objects total_count fold_right].
    unfold bind at 1. cbn [num_tokens_from_string ret].
    unfold bind at 1. rewrite generate_embedding_run, IH, advance_advance.
    fold (total_count model_name inputs).
    rewrite <- app_assoc, Z.add_assoc. cbn [app].
    replace (draws (advance default_embedding_size s))
      with (default_embedding_size + draws s)%nat by reflexivity.
    do 2 f_equal. lia.
Qed.

Lemma embedding_objects_length index d n :
  length (embedding_objects index d n) = n.
Proof.
  revert index d. induction n as [| n IH]; intros index d;
    [reflexivity | cbn [embedding_objects length]; now rewrite IH].
Qed.

Lemma embedding_objects_index n : forall index d k,
  (k < n)%nat ->
  match embedding_objects index d n !! k with
  | Some e => field "index" e = Some (JInt (index + Z.of_nat k))
  | None => False
  end.
Proof.
  induction n as [| n IH]; intros index d k L; [lia |].
  destruct k as [| k]; cbn [embedding_objects lookup list_lookup].
  - cbn. now rewrite Z.add_0_r.
  - specialize (IH (index + 1) (default_embedding_size + d)%nat k ltac:(lia)).
    destruct (embedding_objects (index + 1) (default_embedding_size + d) n !! k);
      [| exact IH].
    rewrite IH. do 2 f_equal. lia.
Qed.

Lemma embedding_run_list context s path_params deployment_name fields inputs :
  is_route_match (request context)
    "/openai/deployments/{deployment}/embeddings" ["POST"%string] = (true, path_params) ->
  path_params !! "deployment" = Some deployment_name ->
  body (request context) = Some (JObj fields) ->
  assoc "input" fields = Some (JArr (map JStr inputs)) ->
  let T := total_count (resolved_model (config context) deployment_name) inputs in
  azure_openai_embedding context s =
  (Ok (Some (Response 200
               (json_dumps (embeddings_body (embedding_objects 0 (draws s) (length inputs)) T))
               json_headers)),
   published (embedding_items deployment_name T)
     (advance (default_embedding_size * length inputs)
        (resolved_state (config context) deployment_name (body_read s)))).
Proof.
  intros Hm Hp Hb Hi T. unfold azure_openai_embedding. rewrite Hm.
  cbv beta iota. cbn [negb]. cbv beta iota.
  step (lift_run _ _ s (param_run _ _ _ Hp)).
  step (request_json_run _ _ s Hb).
  step (resolver_run context deployment_name (body_read s)).
  set (st := resolved_state (config context) deployment_name (body_read s)).
  step (lift_run _ _ st (getitem_run _ _ _ Hi)).
  cbn [iterate].
  assert (E : (items <- lift (Ok (map JStr inputs)) ;;
               embedding_loop (resolved_model (config context) deployment_name) items 0 0 []) st
              = (Ok (T, embedding_objects 0 (draws s) (length inputs)),
                 advance (default_embedding_size * length inputs) st)).
  { rewrite (bind_ok _ _ _ _ _ (lift_run _ _ st eq_refl)), embedding_loop_run.
    subst st. now rewrite resolved_state_draws. }
  step E. cbv iota. publish.
Qed.

Lemma embedding_run_string context s path_params deployment_name fields text :
  is_route_match (request context)
    "/openai/deployments/{deployment}/embeddings" ["POST"%string] = (true, path_params) ->
  path_params !! "deployment" = Some deployment_name ->
  body (request context) = Some (JObj fields) ->
  assoc "input" fields = Some (JStr text) ->
  let T := count_text text (resolved_model (config context) deployment_name) in
  azure_openai_embedding context s =
  (Ok (Some (Response 200
               (json_dumps (embeddings_body [embedding_object 0 (draws s)] T))
               json_headers)),
   published (embedding_items deployment_name T)
     (advance default_embedding_size
        (resolved_state (config context) deployment_name (body_read s)))).
Proof.
  intros Hm Hp Hb Hi T. unfold azure_openai_embedding. rewrite Hm.
  cbv beta iota. cbn [negb]. cbv beta iota.
  step (lift_run _ _ s (param_run _ _ _ Hp)).
  step (request_json_run _ _ s Hb).
  step (resolver_run context deployment_name (body_read s)).
  set (st := resolved_state (config context) deployment_name (body_read s)).
  step (lift_run _ _ st (getitem_run _ _ _ Hi)).
  assert (E : (tokens <- num_tokens_from_string (JStr text)
                           (resolved_model (config context) deployment_name) ;;
               e <- _generate_embedding 0 ;; ret (tokens, [e])) st
              = (Ok (T, [embedding_object 0 (draws s)]), advance default_embedding_size st)).
  { cbn [num_tokens_from_string]. rewrite bind_ret.
    rewrite (bind_ok _ _ _ _ _ (generate_embedding_run 0 st)).
    subst st. now rewrite resolved_state_draws. }
  step E. cbv iota. publish.
Qed.

(** C3: an embeddings request whose input is a sequence of [N] strings is
    answered, with status 200, by a body whose [data] array has exactly [N]
    elements, the [k]-th carrying the index [k]; [usage.prompt_tokens] and
    [usage.total_tokens] are both the sum over the inputs of the token count
    of each under the model the deployment resolves to. *)
Theorem embedding_list_response context s path_params deployment_name fields
    (inputs : list string) :
  is_route_match (request context)
    "/openai/deployments/{deployment}/embeddings" ["POST"%string] = (true, path_params) ->
  path_params !! "deployment" = Some deployment_name ->
  body (request context) = Some (JObj fields) ->
  assoc "input" fields = Some (JArr (map JStr inputs)) ->
  exists data s',
    let T := total_count (resolved_model (config context) deployment_name) inputs in
    let response_data :=
      JObj [("object", JStr "list");
            ("data", JArr data);
            ("model", JStr "ada");
            ("usage", JObj [("prompt_tokens", JInt T); ("total_tokens", JInt T)])] in
    azure_openai_embedding context s =
      (Ok (Some (Response 200 (json_dumps response_data)
                   [("Content-Type", "application/json")%string])), s') /\
    length data = length inputs /\
    (forall k, (k < length inputs)%nat ->
       exists e, data !! k = Some e /\ field "index" e = Some (JInt (Z.of_nat k))) /\
    at_path [Key "usage"; Key "prompt_tokens"] response_data =
      Some (JInt (fold_right (fun text acc =>
                    count_text text (resolved_model (config context) deployment_name) + acc)
                  0 inputs)) /\
    at_path [Key "usage"; Key "total_tokens"] response_data =
      at_path [Key "usage"; Key "prompt_tokens"] response_data.
Proof.
  intros Hm Hp Hb Hi.
  eexists (embedding_objects 0 (draws s) (length inputs)), _. cbv zeta.
  split; [exact (embedding_run_list _ s _ _ _ _ Hm Hp Hb Hi) |].
  split; [apply embedding_objects_length |].
  split; [| split; reflexivity].
  intros k L. pose proof (embedding_objects_index (length inputs) 0 (draws s) k L) as I.
  destruct (embedding_objects 0 (draws s) (length inputs) !! k) as [e |]; [| destruct I].
  exists e. split; [reflexivity | exact I].
Qed.

End Properties.

(** ** Completions and chat completions *)

Section Generation.

Context `{Externals}.

Lemma num_tokens_inv v model_name n s s1 :
  num_tokens_from_string v model_name s = (Ok n, s1) ->
  exists text, v = JStr text /\ n = count_text text model_name /\ s1 = s.
Proof.
  destruct v; try discriminate. cbn. unfold ret. intros [= <- <-]. eauto.
Qed.

Lemma lorem_get_word_run w s :
  0 <= w ->
  lorem_get_word w s = (Ok (filler_text (draws s) (Z.to_nat w)), advance (Z.to_nat w) s).
Proof.
  intros L. unfold lorem_get_word. destruct (Z.ltb_spec w 0) as [N | _]; [lia |].
  reflexivity.
Qed.

Lemma lorem_get_word_inv w s ws s1 : lorem_get_word w s = (Ok ws, s1) -> 0 <= w.
Proof.
  unfold lorem_get_word. destruct (Z.ltb_spec w 0) as [N | P]; [discriminate | auto].
Qed.

Lemma completion_run context s path_params deployment_name fields prompt w :
  is_route_match (request context)
    "/openai/deployments/{deployment}/completions" ["POST"%string] = (true, path_params) ->
  path_params !! "deployment" = Some deployment_name ->
  body (request context) = Some (JObj fields) ->
  assoc "prompt" fields = Some (JStr prompt) ->
  tokens_to_words (max_tokens_of fields) = Ok w ->
  0 <= w ->
  let model_name := resolved_model (config context) deployment_name in
  let text := filler_text (draws s) (Z.to_nat w) in
  let P := count_text prompt model_name in
  let C := count_text text model_name in
  azure_openai_completion context s =
  (Ok (Some (Response 200
               (json_dumps
                  (completion_body (non_secure_generate 29 (Z.to_nat w + draws s))
                     (epoch_seconds (S (Z.to_nat w + draws s))) model_name text P C))
               json_headers)),
   published (generation_items "completions" deployment_name C (P + C))
     (advance (Z.to_nat w + 2)
        (body_read (resolved_state (config context) deployment_name s)))).
Proof.
  intros Hm Hp Hb Hi Hw Lw model_name text P C. unfold azure_openai_completion. rewrite Hm.
  cbv beta iota. cbn [negb]. cbv beta iota.
  step (lift_run _ _ s (param_run _ _ _ Hp)).
  step (resolver_run context deployment_name s).
  set (s1 := resolved_state (config context) deployment_name s).
  step (request_json_run _ _ s1 Hb).
  step (lift_run _ _ (body_read s1) (getitem_run _ _ _ Hi)).
  cbn [num_tokens_from_string]. rewrite bind_ret.
  rewrite get_default_run, bind_lift_ok. fold (max_tokens_of fields).
  rewrite Hw, bind_lift_ok.
  step (lorem_get_word_run w (body_read s1) Lw).
  rewrite join_chars_id, bind_ret.
  step (draw_run (non_secure_generate 29) (advance (Z.to_nat w) (body_read s1))).
  step (draw_run epoch_seconds (advance 1 (advance (Z.to_nat w) (body_read s1)))).
  rewrite !advance_advance, !draws_advance, draws_body_read.
  subst s1. rewrite resolved_state_draws, <- !Nat.add_assoc, Nat.add_succ_r.
  cbn [Nat.add]. publish.
Qed.

Lemma completion_inv context s r s' :
  azure_openai_completion context s = (Ok (Some r), s') ->
  exists path_params deployment_name fields prompt w,
    is_route_match (request context)
      "/openai/deployments/{deployment}/completions" ["POST"%string] = (true, path_params) /\
    path_params !! "deployment" = Some deployment_name /\
    body (request context) = Some (JObj fields) /\
    assoc "prompt" fields = Some (JStr prompt) /\
    tokens_to_words (max_tokens_of fields) = Ok w /\
    0 <= w.
Proof.
  unfold azure_openai_completion.
  destruct (is_route_match _ _ _) as [[|] path_params] eqn:Hm;
    cbv beta iota; cbn [negb]; [| discriminate].
  intros E.
  apply bind_inv in E as (deployment_name & s1 & E1 & E).
  apply lift_inv in E1 as [Hp ->]. apply param_inv in Hp.
  apply bind_inv in E as (model_name & s2 & E2 & E).
  rewrite resolver_run in E2. injection E2 as <- <-.
  apply bind_inv in E as (request_body & s3 & E3 & E).
  apply request_json_inv in E3 as [Hb ->].
  apply bind_inv in E as (prompt & s4 & E4 & E).
  apply lift_inv in E4 as [E4 ->]. apply getitem_inv in E4 as (fields & -> & Hi).
  apply bind_inv in E as (P & s5 & E5 & E).
  apply num_tokens_inv in E5 as (text & -> & -> & ->).
  apply bind_inv in E as (max_tokens & s6 & E6 & E).
  apply lift_inv in E6 as [E6 ->]. rewrite get_default_run in E6. injection E6 as <-.
  apply bind_inv in E as (w & s7 & E7 & E).
  apply lift_inv in E7 as [Hw ->].
  apply bind_inv in E as (ws & s8 & E8 & _). apply lorem_get_word_inv in E8.
  exists path_params, deployment_name, fields, text, w. auto 10.
Qed.

Lemma chat_run_stream context s path_params deployment_name fields messages P w :
  is_route_match (request context)
    "/openai/deployments/{deployment}/chat/completions" ["POST"%string]
    = (true, path_params) ->
  path_params !! "deployment" = Some deployment_name ->
  body (request context) = Some (JObj fields) ->
  assoc "messages" fields = Some messages ->
  num_tokens_from_messages messages (resolved_model (config context) deployment_name) = Ok P ->
  tokens_to_words (max_tokens_of fields) = Ok w ->
  0 <= w ->
  truthy (stream_of fields) = true ->
  azure_openai_chat_completion context s =
  (Ok (Some (StreamingResponse
               {| closure_words := filler_text (draws s) (Z.to_nat w);
                  closure_model_name := resolved_model (config context) deployment_name |})),
   advance (Z.to_nat w) (resolved_state (config context) deployment_name (body_read s))).
Proof.
  intros Hm Hp Hb Hi HP Hw Lw Hs. unfold azure_openai_chat_completion. rewrite Hm.
  cbv beta iota. cbn [negb]. cbv beta iota.
  step (request_json_run _ _ s Hb).
  step (lift_run _ _ (body_read s) (param_run _ _ _ Hp)).
  step (resolver_run context deployment_name (body_read s)).
  set (s1 := resolved_state (config context) deployment_name (body_read s)).
  step (lift_run _ _ s1 (getitem_run _ _ _ Hi)).
  rewrite HP, bind_lift_ok.
  rewrite get_default_run, bind_lift_ok. fold (max_tokens_of fields).
  rewrite Hw, bind_lift_ok.
  step (lorem_get_word_run w s1 Lw).
  rewrite get_default_run, bind_lift_ok. fold (stream_of fields). rewrite Hs.
  subst s1. rewrite resolved_state_draws, draws_body_read. reflexivity.
Qed.

Lemma chat_run_plain context s path_params deployment_name fields messages P w :
  is_route_match (request context)
    "/openai/deployments/{deployment}/chat/completions" ["POST"%string]
    = (true, path_params) ->
  path_params !! "deployment" = Some deployment_name ->
  body (request context) = Some (JObj fields) ->
  assoc "messages" fields = Some messages ->
  num_tokens_from_messages messages (resolved_model (config context) deployment_name) = Ok P ->
  tokens_to_words (max_tokens_of fields) = Ok w ->
  0 <= w ->
  truthy (stream_of fields) = false ->
  let model_name := resolved_model (config context) deployment_name in
  let text := filler_text (draws s) (Z.to_nat w) in
  let C := count_text text model_name in
  azure_openai_chat_completion context s =
  (Ok (Some (Response 200
               (json_dumps
                  (chat_body (non_secure_generate 29 (Z.to_nat w + draws s))
                     (epoch_seconds (S (Z.to_nat w + draws s))) model_name text P C))
               json_headers)),
   published (generation_items "chat-completions" deployment_name C (P + C))
     (advance (Z.to_nat w + 2)
        (resolved_state (config context) deployment_name (body_read s)))).
Proof.
  intros Hm Hp Hb Hi HP Hw Lw Hs model_name text C.
  unfold azure_openai_chat_completion. rewrite Hm.
  cbv beta iota. cbn [negb]. cbv beta iota.
  step (request_json_run _ _ s Hb).
  step (lift_run _ _ (body_read s) (param_run _ _ _ Hp)).
  step (resolver_run context deployment_name (body_read s)).
  set (s1 := resolved_state (config context) deployment_name (body_read s)).
  step (lift_run _ _ s1 (getitem_run _ _ _ Hi)).
  rewrite HP, bind_lift_ok.
  rewrite get_default_run, bind_lift_ok. fold (max_tokens_of fields).
  rewrite Hw, bind_lift_ok.
  step (lorem_get_word_run w s1 Lw).
  rewrite get_default_run, bind_lift_ok. fold (stream_of fields). rewrite Hs.
  cbn [num_tokens_from_string]. rewrite join_chars_id, bind_ret.
  step (draw_run (non_secure_generate 29) (advance (Z.to_nat w) s1)).
  step (draw_run epoch_seconds (advance 1 (advance (Z.to_nat w) s1))).
  rewrite !advance_advance, !draws_advance.
  subst s1. rewrite resolved_state_draws, draws_body_read, <- !Nat.add_assoc, Nat.add_succ_r.
  cbn [Nat.add]. publish.
Qed.

Lemma chat_inv context s r s' :
  azure_openai_chat_completion context s = (Ok (Some r), s') ->
  exists path_params deployment_name fields messages P w,
    is_route_match (request context)
      "/openai/deployments/{deployment}/chat/completions" ["POST"%string]
      = (true, path_params) /\
    path_params !! "deployment" = Some deployment_name /\
    body (request context) = Some (JObj fields) /\
    assoc "messages" fields = Some messages /\
    num_tokens_from_messages messages (resolved_model (config context) deployment_name)
      = Ok P /\
    tokens_to_words (max_tokens_of fields) = Ok w /\
    0 <= w.
Proof.
  unfold azure_openai_chat_completion.
  destruct (is_route_match _ _ _) as [[|] path_params] eqn:Hm;
    cbv beta iota; cbn [negb]; [| discriminate].
  intros E.
  apply bind_inv in E as (request_body & s1 & E1 & E).
  apply request_json_inv in E1 as [Hb ->].
  apply bind_inv in E as (deployment_name & s2 & E2 & E).
  apply lift_inv in E2 as [Hp ->]. apply param_inv in Hp.
  apply bind_inv in E as (model_name & s3 & E3 & E).
  rewrite resolver_run in E3. injection E3 as <- <-.
  apply bind_inv in E as (messages & s4 & E4 & E).
  apply lift_inv in E4 as [E4 ->]. apply getitem_inv in E4 as (fields & -> & Hi).
  apply bind_inv in E as (P & s5 & E5 & E).
  apply lift_inv in E5 as [HP ->].
  apply bind_inv in E as (max_tokens & s6 & E6 & E).
  apply lift_inv in E6 as [E6 ->]. rewrite get_default_run in E6. injection E6 as <-.
  apply bind_inv in E as (w & s7 & E7 & E).
  apply lift_inv in E7 as [Hw ->].
  apply bind_inv in E as (ws & s8 & E8 & _). apply lorem_get_word_inv in E8.
  exists path_params, deployment_name, fields, messages, P, w. auto 10.
Qed.

(** C5: whenever the completions operation handles a request to its end,
    the response has status 200 and a JSON body in which
    [usage.total_tokens] is [usage.prompt_tokens + usage.completion_tokens],
    [choices[0].finish_reason] is ["length"], [choices[0].logprobs] is
    null, the id starts with ["cmpl-"], the object type is
    ["text_completion"], and the model is the one the request's deployment
    resolves to. *)
Theorem completion_response context s r s' :
  azure_openai_completion context s = (Ok (Some r), s') ->
  exists response_body path_params deployment_name,
    r = Response 200 (json_dumps response_body)
          [("Content-Type", "application/json")%string] /\
    is_route_match (request context)
      "/openai/deployments/{deployment}/completions" ["POST"%string] = (true, path_params) /\
    path_params !! "deployment" = Some deployment_name /\
    (exists prompt_tokens completion_tokens,
       at_path [Key "usage"; Key "prompt_tokens"] response_body
         = Some (JInt prompt_tokens) /\
       at_path [Key "usage"; Key "completion_tokens"] response_body
         = Some (JInt completion_tokens) /\
       at_path [Key "usage"; Key "total_tokens"] response_body
         = Some (JInt (prompt_tokens + completion_tokens))) /\
    at_path [Key "choices"; Index 0; Key "finish_reason"] response_body
      = Some (JStr "length") /\
    at_path [Key "choices"; Index 0; Key "logprobs"] response_body = Some JNull /\
    (exists id, at_path [Key "id"] response_body = Some (JStr ("cmpl-" +:+ id))) /\
    at_path [Key "object"] response_body = Some (JStr "text_completion") /\
    at_path [Key "model"] response_body
      = Some (JStr (resolved_model (config context) deployment_name)).
Proof.
  intros E.
  destruct (completion_inv _ _ _ _ E)
    as (path_params & deployment_name & fields & prompt & w & Hm & Hp & Hb & Hi & Hw & Lw).
  rewrite (completion_run _ s _ _ _ _ _ Hm Hp Hb Hi Hw Lw) in E.
  injection E as <- _.
  eexists _, path_params, deployment_name.
  split; [reflexivity |]. split; [exact Hm |]. split; [exact Hp |].
  split; [eexists _, _; repeat split |].
  split; [reflexivity |]. split; [reflexivity |].
  split; [eexists; reflexivity |]. split; reflexivity.
Qed.

(** C6: whenever the chat-completions operation answers with a response
    that is not a stream, the body has a single [prompt_filter_results]
    entry and a single [choices] entry; the [content_filter_results] of
    each holds exactly the four categories [hate], [self_harm], [sexual] and
    [violence], every one with [filtered] false and [severity] ["safe"]; the
    choice's [finish_reason] is ["length"]; and [usage.total_tokens] is
    [usage.prompt_tokens + usage.completion_tokens]. *)
Theorem chat_response_safe context s status_code content headers s' :
  azure_openai_chat_completion context s
    = (Ok (Some (Response status_code content headers)), s') ->
  let safe := JObj [("filtered", JBool false); ("severity", JStr "safe")] in
  let four := JObj [("hate", safe); ("self_harm", safe);
                    ("sexual", safe); ("violence", safe)] in
  exists response_body prompt_filter choice,
    status_code = 200 /\
    content = json_dumps response_body /\
    at_path [Key "prompt_filter_results"] response_body = Some (JArr [prompt_filter]) /\
    at_path [Key "content_filter_results"] prompt_filter = Some four /\
    at_path [Key "choices"] response_body = Some (JArr [choice]) /\
    at_path [Key "content_filter_results"] choice = Some four /\
    at_path [Key "finish_reason"] choice = Some (JStr "length") /\
    (exists prompt_tokens completion_tokens,
       at_path [Key "usage"; Key "prompt_tokens"] response_body
         = Some (JInt prompt_tokens) /\
       at_path [Key "usage"; Key "completion_tokens"] response_body
         = Some (JInt completion_tokens) /\
       at_path [Key "usage"; Key "total_tokens"] response_body
         = Some (JInt (prompt_tokens + completion_tokens))).
Proof.
  intros E safe four.
  destruct (chat_inv _ _ _ _ E)
    as (path_params & deployment_name & fields & messages & P & w &
        Hm & Hp & Hb & Hi & HP & Hw & Lw).
  destruct (truthy (stream_of fields)) eqn:Hs.
  - rewrite (chat_run_stream _ s _ _ _ _ _ _ Hm Hp Hb Hi HP Hw Lw Hs) in E.
    discriminate E.
  - rewrite (chat_run_plain _ s _ _ _ _ _ _ Hm Hp Hb Hi HP Hw Lw Hs) in E.
    injection E as <- <- <- _.
    eexists _, _, _.
    split; [reflexivity |]. split; [reflexivity |].
    split; [reflexivity |]. split; [reflexivity |].
    split; [reflexivity |]. split; [reflexivity |]. split; [reflexivity |].
    eexists _, _; repeat split.
Qed.

End Generation.

(** ** The streaming emitter *)

Lemma spaceless_cons c w : spaceless (String c w) -> c <> " "%char /\ spaceless w.
Proof.
  unfold spaceless. cbn [list_ascii_of_string In]. intros N.
  split; intros I; apply N; [left | right]; assumption.
Qed.

Lemma split_on_spaceless w : spaceless w -> split_on " " w = [w].
Proof.
  induction w as [| c w IH]; intros S; [reflexivity |].
  apply spaceless_cons in S as [N S]. cbn [split_on].
  destruct (Ascii.eqb_spec c " ") as [E | _]; [contradiction |].
  now rewrite (IH S).
Qed.

Lemma split_on_app w rest :
  spaceless w -> split_on " " (w +:+ String " " rest) = w :: split_on " " rest.
Proof.
  induction w as [| c w IH]; intros S; [reflexivity |].
  apply spaceless_cons in S as [N S]. simpl.
  destruct (Ascii.eqb_spec c " ") as [E | _]; [contradiction |].
  now rewrite (IH S).
Qed.

(** Splitting on spaces undoes joining by spaces, for one word or more. *)
Lemma split_join ws :
  ws <> [] -> Forall spaceless ws -> split_space (join_space ws) = ws.
Proof.
  unfold split_space, join_space.
  induction ws as [| w ws IH]; intros N F; [contradiction |].
  inversion F as [| ? ? Sw Fws]; subst.
  destruct ws as [| w' ws].
  - now apply split_on_spaceless.
  - change (String.concat " " (w :: w' :: ws))
      with (w +:+ String " " (String.concat " " (w' :: ws))).
    rewrite (split_on_app _ _ Sw), IH; [reflexivity | discriminate | assumption].
Qed.

Section Streaming.

Context `{Externals}.

Lemma send_words_loop_run model_name ws : forall space s,
  send_words_loop model_name space ws s =
  (Ok (sse_frames (stream_chunks model_name space (draws s) ws) ++ ["[DONE]"%string]),
   advance (2 * length ws) s).
Proof.
  induction ws as [| word rest IH]; intros space s.
  - cbn. now rewrite advance_0.
  - cbn [send_words_loop stream_chunks length].
    step (draw_run (non_secure_generate 29) s).
    step (draw_run epoch_seconds (advance 1 s)).
    step (IH " "%string (advance 1 (advance 1 s))).
    rewrite !advance_advance, !draws_advance. cbn [Nat.add].
    unfold ret. do 2 f_equal. lia.
Qed.

Lemma stream_chunks_length model_name ws : forall space d,
  length (stream_chunks model_name space d ws) = length ws.
Proof.
  induction ws as [| word rest IH]; intros space d; [reflexivity |].
  cbn [stream_chunks length]. now rewrite IH.
Qed.

Lemma stream_chunks_content model_name ws : forall space d k word,
  ws !! k = Some word ->
  exists c, stream_chunks model_name space d ws !! k = Some c /\
            delta_content c =
              Some (JStr ((match k with O => space | S _ => " " end) +:+ word)).
Proof.
  induction ws as [| w rest IH]; intros space d k word L; [discriminate |].
  destruct k as [| k].
  - injection L as ->. eexists. split; reflexivity.
  - cbn [stream_chunks]. cbn in L.
    destruct (IH " "%string (S (S d)) k word L) as (c & Lc & Dc).
    exists c. split; [exact Lc |]. rewrite Dc. now destruct k.
Qed.

(** Whatever the text, the stream emits one chunk per piece of the text
    between single spaces, and then ["[DONE]"]. *)
Lemma stream_one_chunk_per_piece model_name text s :
  send_words {| closure_words := text; closure_model_name := model_name |} s =
    (Ok (sse_frames (stream_chunks model_name "" (draws s) (split_space text))
         ++ ["[DONE]"%string]),
     advance (2 * length (split_space text)) s) /\
  length (stream_chunks model_name "" (draws s) (split_space text))
    = length (split_space text).
Proof.
  unfold send_words. cbn [closure_words closure_model_name].
  rewrite send_words_loop_run. split; [reflexivity | apply stream_chunks_length].
Qed.

(** C4, amended: a stream whose filler text consists of [W >= 1] words,
    none with a space in it, emits exactly [W] chunks, each framed as a
    ["data: "] line and a blank line; the delta content of the first is the
    first word, that of every later one its word after a single space; and
    the last thing emitted is the literal ["[DONE]"]. *)
Theorem stream_one_chunk_per_word model_name (ws : list string) s :
  ws <> [] ->
  Forall spaceless ws ->
  exists chunks,
    send_words {| closure_words := join_space ws; closure_model_name := model_name |} s =
      (Ok (sse_frames chunks ++ ["[DONE]"%string]), advance (2 * length ws) s) /\
    length chunks = length ws /\
    (forall k word, ws !! k = Some word ->
       exists c, chunks !! k = Some c /\
                 delta_content c =
                   Some (JStr (match k with O => word | S _ => " " +:+ word end))) /\
    last (sse_frames chunks ++ ["[DONE]"%string]) = Some "[DONE]"%string.
Proof.
  intros N F. exists (stream_chunks model_name "" (draws s) ws).
  unfold send_words. cbn [closure_words closure_model_name].
  rewrite (split_join _ N F), send_words_loop_run.
  split; [reflexivity |]. split; [apply stream_chunks_length |].
  split; [| apply last_snoc].
  intros k word L.
  destruct (stream_chunks_content model_name ws "" (draws s) k word L) as (c & Lc & Dc).
  exists c. split; [exact Lc |]. rewrite Dc. now destruct k.
Qed.

End Streaming.

(** ** Embeddings, continued: every handled request *)

Section Handled.

Context `{Externals}.

Lemma embedding_loop_frame model_name items : forall tokens index embeddings s r s1,
  embedding_loop model_name items tokens index embeddings s = (Ok r, s1) ->
  exists n, s1 = advance n s.
Proof.
  induction items as [| i rest IH]; intros tokens index embeddings s r s1 E.
  - injection E as _ <-. exists 0%nat. now rewrite advance_0.
  - cbn [embedding_loop] in E.
    apply bind_inv in E as (n & s2 & E2 & E).
    apply num_tokens_inv in E2 as (text & -> & -> & ->).
    apply bind_inv in E as (e & s3 & E3 & E).
    rewrite generate_embedding_run in E3. injection E3 as <- <-.
    apply IH in E as (n & ->). rewrite advance_advance. eauto.
Qed.

Lemma embedding_inv context s r s' :
  azure_openai_embedding context s = (Ok (Some r), s') ->
  exists path_params deployment_name fields data T n,
    is_route_match (request context)
      "/openai/deployments/{deployment}/embeddings" ["POST"%string] = (true, path_params) /\
    path_params !! "deployment" = Some deployment_name /\
    body (request context) = Some (JObj fields) /\
    r = Response 200 (json_dumps (embeddings_body data T)) json_headers /\
    s' = published (embedding_items deployment_name T)
           (advance n (resolved_state (config context) deployment_name (body_read s))).
Proof.
  unfold azure_openai_embedding.
  destruct (is_route_match _ _ _) as [[|] path_params] eqn:Hm;
    cbv beta iota; cbn [negb]; [| discriminate].
  intros E.
  apply bind_inv in E as (deployment_name & s1 & E1 & E).
  apply lift_inv in E1 as [Hp ->]. apply param_inv in Hp.
  apply bind_inv in E as (request_body & s2 & E2 & E).
  apply request_json_inv in E2 as [Hb ->].
  apply bind_inv in E as (model_name & s3 & E3 & E).
  rewrite resolver_run in E3. injection E3 as <- <-.
  apply bind_inv in E as (request_input & s4 & E4 & E).
  apply lift_inv in E4 as [E4 ->]. apply getitem_inv in E4 as (fields & -> & Hi).
  apply bind_inv in E as ([T data] & s5 & E5 & E).
  assert (F : exists n, s5 = advance n
                (resolved_state (config context) deployment_name (body_read s))).
  { destruct request_input;
      try (apply bind_inv in E5 as (visited & s6 & E6 & E5);
           apply lift_inv in E6 as [E6 ->]; cbn [iterate] in E6;
           try discriminate E6; injection E6 as <-;
           exact (embedding_loop_frame _ _ _ _ _ _ _ _ E5)).
    apply bind_inv in E5 as (tokens & s6 & E6 & E5).
    apply num_tokens_inv in E6 as (text & _ & _ & ->).
    apply bind_inv in E5 as (e & s7 & E7 & E5).
    rewrite generate_embedding_run in E7. injection E7 as _ <-.
    injection E5 as _ _ <-. eauto. }
  destruct F as (n & ->).
  cbv iota in E. 
  repeat (rewrite (bind_ok _ _ _ _ _ (set_value_run _ _ _)) in E; cbv beta in E;
          rewrite ?published_app in E; cbn [app] in E).
  injection E as <- <-.
  exists path_params, deployment_name, fields, data, T, n. auto 10.
Qed.

Lemma resolved_state_values c deployment_name s :
  values (resolved_state c deployment_name s) = values s.
Proof.
  unfold resolved_state. destruct (registry_lookup c deployment_name); [reflexivity |].
  now destruct (decide (deployment_name ∈ missing_deployment_names s)).
Qed.

Lemma resolved_state_warnings c deployment_name s :
  registry_lookup c deployment_name = None ->
  warnings (resolved_state c deployment_name s) =
  if decide (deployment_name ∈ missing_deployment_names s) then warnings s
  else warnings s ++ [missing_warning deployment_name].
Proof.
  intros E. unfold resolved_state. rewrite E.
  now destruct (decide (deployment_name ∈ missing_deployment_names s)).
Qed.

End Handled.

(** ** Streaming with no words *)

Section Empty.

Context `{Externals}.

(** C10: a streaming chat completion whose word budget is zero -- a
    [max_tokens] of 0 or 1, for instance -- is answered by a stream over the
    empty text, which emits exactly one chunk, its delta content the empty
    string, and then ["[DONE]"]. *)
Theorem stream_zero_words_one_empty_chunk :
  (tokens_to_words (JInt 0) = Ok 0 /\ tokens_to_words (JInt 1) = Ok 0) /\
  forall context s path_params deployment_name fields messages P,
    is_route_match (request context)
      "/openai/deployments/{deployment}/chat/completions" ["POST"%string]
      = (true, path_params) ->
    path_params !! "deployment" = Some deployment_name ->
    body (request context) = Some (JObj fields) ->
    assoc "messages" fields = Some messages ->
    num_tokens_from_messages messages (resolved_model (config context) deployment_name)
      = Ok P ->
    tokens_to_words (max_tokens_of fields) = Ok 0 ->
    truthy (stream_of fields) = true ->
    exists g s' c,
      azure_openai_chat_completion context s = (Ok (Some (StreamingResponse g)), s') /\
      closure_words g = ""%string /\
      send_words g s' =
        (Ok [("data: " +:+ json_dumps c +:+ newline); newline; "[DONE]"%string],
         advance 2 s') /\
      delta_content c = Some (JStr "").
Proof.
  split; [split; vm_compute; reflexivity |].
  intros context s path_params deployment_name fields messages P Hm Hp Hb Hi HP Hw Hs.
  eexists _, _, _. split.
  - exact (chat_run_stream _ s _ _ _ _ _ _ Hm Hp Hb Hi HP Hw (Z.le_refl 0) Hs).
  - split; [reflexivity |]. split; reflexivity.
Qed.

End Empty.

(** ** What is published to the request context *)

Lemma foldl_insert_other (items : list (string * json)) : forall (m : gmap string json) k,
  k ∉ map fst items ->
  foldl (fun m kv => <[fst kv := snd kv]> m) m items !! k = m !! k.
Proof.
  induction items as [| [k0 v0] rest IH]; intros m k N; [reflexivity |].
  cbn [foldl fst snd]. cbn [map fst] in N.
  rewrite IH by (intros I; apply N; now right).
  apply lookup_insert_ne. intros ->. apply N. now left.
Qed.

Lemma foldl_insert_lookup (items : list (string * json)) : forall (m : gmap string json) k v,
  NoDup (map fst items) ->
  (k, v) ∈ items ->
  foldl (fun m kv => <[fst kv := snd kv]> m) m items !! k = Some v.
Proof.
  induction items as [| [k0 v0] rest IH]; intros m k v D I.
  - now apply elem_of_nil in I.
  - cbn [map fst] in D. apply NoDup_cons in D as [N D]. cbn [foldl fst snd].
    apply elem_of_cons in I as [[= -> ->] | I].
    + rewrite foldl_insert_other by exact N. apply lookup_insert_eq.
    + now apply IH.
Qed.

Lemma published_lookup items s k v :
  NoDup (map fst items) -> (k, v) ∈ items -> values (published items s) !! k = Some v.
Proof. intros D I. now apply foldl_insert_lookup. Qed.

Section Published.

Context `{Externals}.

Hypothesis keys_distinct :
  NoDup [SIMULATOR_KEY_LIMITER; SIMULATOR_KEY_OPERATION_NAME;
         SIMULATOR_KEY_DEPLOYMENT_NAME; SIMULATOR_KEY_OPENAI_COMPLETION_TOKENS;
         SIMULATOR_KEY_OPENAI_TOTAL_TOKENS].

Lemma embedding_keys_distinct deployment_name T :
  NoDup (map fst (embedding_items deployment_name T)).
Proof.
  cbn [map fst embedding_items]. refine (sublist_NoDup _ _ keys_distinct _).
  do 3 apply sublist_skip. apply sublist_cons. apply sublist_skip. reflexivity.
Qed.

Lemma generation_keys_distinct operation deployment_name C T :
  NoDup (map fst (generation_items operation deployment_name C T)).
Proof. exact keys_distinct. Qed.

(** The three paths that answer with a JSON body publish the limiter key,
    the operation name, the deployment name and the token counts. *)
Lemma embedding_publishes context s r s' :
  azure_openai_embedding context s = (Ok (Some r), s') ->
  exists deployment_name total_tokens,
    values s' !! SIMULATOR_KEY_LIMITER = Some (JStr "openai") /\
    values s' !! SIMULATOR_KEY_OPERATION_NAME = Some (JStr "embeddings") /\
    values s' !! SIMULATOR_KEY_DEPLOYMENT_NAME = Some (JStr deployment_name) /\
    values s' !! SIMULATOR_KEY_OPENAI_TOTAL_TOKENS = Some (JInt total_tokens).
Proof.
  intros E.
  destruct (embedding_inv _ _ _ _ E)
    as (path_params & deployment_name & fields & data & T & n & Hm & Hp & Hb & -> & ->).
  exists deployment_name, T.
  repeat split; apply published_lookup;
    try apply embedding_keys_distinct; unfold embedding_items;
    repeat first [apply list_elem_of_here | apply list_elem_of_further].
Qed.

Lemma completion_publishes context s r s' :
  azure_openai_completion context s = (Ok (Some r), s') ->
  exists deployment_name completion_tokens total_tokens,
    values s' !! SIMULATOR_KEY_LIMITER = Some (JStr "openai") /\
    values s' !! SIMULATOR_KEY_OPERATION_NAME = Some (JStr "completions") /\
    values s' !! SIMULATOR_KEY_DEPLOYMENT_NAME = Some (JStr deployment_name) /\
    values s' !! SIMULATOR_KEY_OPENAI_COMPLETION_TOKENS = Some (JInt completion_tokens) /\
    values s' !! SIMULATOR_KEY_OPENAI_TOTAL_TOKENS = Some (JInt total_tokens).
Proof.
  intros E.
  destruct (completion_inv _ _ _ _ E)
    as (path_params & deployment_name & fields & prompt & w & Hm & Hp & Hb & Hi & Hw & Lw).
  rewrite (completion_run _ s _ _ _ _ _ Hm Hp Hb Hi Hw Lw) in E.
  injection E as _ <-.
  eexists deployment_name, _, _.
  repeat split; apply published_lookup;
    try apply generation_keys_distinct; unfold generation_items;
    repeat first [apply list_elem_of_here | apply list_elem_of_further].
Qed.

Lemma chat_publishes context s status_code content headers s' :
  azure_openai_chat_completion context s
    = (Ok (Some (Response status_code content headers)), s') ->
  exists deployment_name completion_tokens total_tokens,
    values s' !! SIMULATOR_KEY_LIMITER = Some (JStr "openai") /\
    values s' !! SIMULATOR_KEY_OPERATION_NAME = Some (JStr "chat-completions") /\
    values s' !! SIMULATOR_KEY_DEPLOYMENT_NAME = Some (JStr deployment_name) /\
    values s' !! SIMULATOR_KEY_OPENAI_COMPLETION_TOKENS = Some (JInt completion_tokens) /\
    values s' !! SIMULATOR_KEY_OPENAI_TOTAL_TOKENS = Some (JInt total_tokens).
Proof.
  intros E.
  destruct (chat_inv _ _ _ _ E)
    as (path_params & deployment_name & fields & messages & P & w &
        Hm & Hp & Hb & Hi & HP & Hw & Lw).
  destruct (truthy (stream_of fields)) eqn:Hs.
  - rewrite (chat_run_stream _ s _ _ _ _ _ _ Hm Hp Hb Hi HP Hw Lw Hs) in E.
    discriminate E.
  - rewrite (chat_run_plain _ s _ _ _ _ _ _ Hm Hp Hb Hi HP Hw Lw Hs) in E.
    injection E as _ _ _ <-.
    eexists deployment_name, _, _.
    repeat split; apply published_lookup;
      try apply generation_keys_distinct; unfold generation_items;
      repeat first [apply list_elem_of_here | apply list_elem_of_further].
Qed.

End Published.

Section Unpublished.

Context `{Externals}.

(** The streaming path returns before the writes: neither the operation nor
    the stream it hands back touches [context.values]. *)
Lemma chat_stream_publishes_nothing context s g s' :
  azure_openai_chat_completion context s = (Ok (Some (StreamingResponse g)), s') ->
  values s' = values s /\
  forall yielded s'', send_words g s' = (yielded, s'') -> values s'' = values s.
Proof.
  intros E.
  destruct (chat_inv _ _ _ _ E)
    as (path_params & deployment_name & fields & messages & P & w &
        Hm & Hp & Hb & Hi & HP & Hw & Lw).
  destruct (truthy (stream_of fields)) eqn:Hs.
  - rewrite (chat_run_stream _ s _ _ _ _ _ _ Hm Hp Hb Hi HP Hw Lw Hs) in E.
    injection E as <- <-.
    assert (V : values (advance (Z.to_nat w)
                  (resolved_state (config context) deployment_name (body_read s)))
                = values s).
    { change (values (advance _ ?st)) with (values st).
      now rewrite resolved_state_values. }
    split; [exact V |].
    intros yielded s'' R. unfold send_words in R.
    rewrite send_words_loop_run in R. injection R as _ <-. exact V.
  - rewrite (chat_run_plain _ s _ _ _ _ _ _ Hm Hp Hb Hi HP Hw Lw Hs) in E.
    discriminate E.
Qed.

End Unpublished.


(** ** The word budget

    [int(0.72 * n)] in double precision against [floor (0.72 * n)] in
    exact arithmetic, from the specification of the primitive floats. *)

Lemma digits2_pos_bounds p :
  2 ^ (Z.pos (digits2_pos p) - 1) <= Z.pos p < 2 ^ Z.pos (digits2_pos p).
Proof.
  induction p as [p IH | p IH |]; cbn [digits2_pos].
  - rewrite Pos2Z.inj_succ, Z.pow_succ_r by lia.
    replace (Z.succ (Z.pos (digits2_pos p)) - 1) with (Z.succ (Z.pos (digits2_pos p) - 1)) by lia.
    rewrite Z.pow_succ_r by lia. lia.
  - rewrite Pos2Z.inj_succ, Z.pow_succ_r by lia.
    replace (Z.succ (Z.pos (digits2_pos p)) - 1) with (Z.succ (Z.pos (digits2_pos p) - 1)) by lia.
    rewrite Z.pow_succ_r by lia. lia.
  - cbn. lia.
Qed.

Lemma digits2_pos_unique p k :
  2 ^ (k - 1) <= Z.pos p < 2 ^ k -> Z.pos (digits2_pos p) = k.
Proof.
  intros [L U]. pose proof (digits2_pos_bounds p) as [L' U'].
  set (D := Z.pos (digits2_pos p)) in *.
  assert (0 < D) by (subst D; lia).
  assert (0 < k).
  { destruct (Z.ltb_spec 0 k) as [| N]; [assumption |].
    destruct (Z.eq_dec k 0) as [-> | Nz]; [cbn in U; lia |].
    rewrite Z.pow_neg_r in U by lia. lia. }
  destruct (Z.lt_trichotomy D k) as [Lt | [Eq | Gt]]; [| exact Eq |].
  - assert (2 ^ D <= 2 ^ (k - 1)) by (apply Z.pow_le_mono_r; lia). lia.
  - assert (2 ^ k <= 2 ^ (D - 1)) by (apply Z.pow_le_mono_r; lia). lia.
Qed.

Lemma iter_xO p j : Z.pos (Pos.iter xO p j) = Z.pos p * 2 ^ Z.pos j.
Proof.
  induction j as [| j IH] using Pos.peano_ind.
  - cbn. lia.
  - rewrite Pos.iter_succ, Pos2Z.inj_succ, Z.pow_succ_r by lia.
    rewrite Pos2Z.inj_xO, IH. lia.
Qed.

Lemma shifted_shr_1 M i mrs : 0 <= i -> shifted M i mrs -> shifted M (i + 1) (shr_1 mrs).
Proof.
  intros Li [Lm (T & E & R & S)]. destruct mrs as [m r s]. cbn [shr_m shr_r shr_s] in *.
  assert (P : 0 < 2 ^ i) by (apply Z.pow_pos_nonneg; lia).
  unfold shifted. rewrite Z.pow_add_r, Z.pow_1_r by lia.
  assert (O : orb r s = false <-> Z.b2z r * 2 ^ i + T = 0).
  { destruct r; cbn [orb Z.b2z]; [split; [discriminate | lia] |].
    rewrite Z.mul_0_l, Z.add_0_l. exact S. }
  assert (B : 0 <= Z.b2z r * 2 ^ i + T < 2 ^ i * 2) by (destruct r; cbn [Z.b2z]; lia).
  destruct m as [| [p | p |] | p]; cbn [shr_1 shr_m shr_r shr_s Z.b2z];
    (split; [lia |]); try lia;
    exists (Z.b2z r * 2 ^ i + T); (split; [| split; [exact B | exact O]]).
  - rewrite E. lia.
  - rewrite E, Pos2Z.inj_xI. lia.
  - rewrite E, Pos2Z.inj_xO. lia.
  - rewrite E. lia.
Qed.

Lemma shifted_iter M p : forall i mrs,
  0 <= i -> shifted M i mrs -> shifted M (i + Z.pos p) (SpecFloat.iter_pos shr_1 p mrs).
Proof.
  induction p as [p IH | p IH |]; intros i mrs Li S; cbn [SpecFloat.iter_pos].
  - replace (i + Z.pos p~1) with (i + 1 + Z.pos p + Z.pos p) by lia.
    apply IH; [lia |]. apply IH; [lia |]. now apply shifted_shr_1.
  - replace (i + Z.pos p~0) with (i + Z.pos p + Z.pos p) by lia.
    apply IH; [lia |]. now apply IH.
  - now apply shifted_shr_1.
Qed.

Lemma shifted_start M : 0 <= M -> shifted M 0 {| shr_m := M; shr_r := false; shr_s := false |}.
Proof.
  intros L. split; [exact L |]. exists 0. cbn. split; [lia |]. split; [lia |]. tauto.
Qed.

(** Rounding to nearest, ties to even, is off by at most half a unit. *)
Lemma round_nearest_even_bounds M sh mrs :
  shifted M sh mrs ->
  let m2 := round_nearest_even (shr_m mrs) (loc_of_shr_record mrs) in
  - 2 ^ sh <= 2 * M - 2 * m2 * 2 ^ sh <= 2 ^ sh /\
  shr_m mrs <= m2 <= shr_m mrs + 1.
Proof.
  intros [Lm (T & E & R & S)]. destruct mrs as [m r s]. cbn [shr_m shr_r shr_s] in *.
  destruct r, s; cbn [loc_of_shr_record round_nearest_even Z.b2z] in *.
  - lia.
  - assert (T = 0) by now apply S. destruct (Z.even m); lia.
  - lia.
  - lia.
Qed.

Lemma fexp_normal k : -1021 <= k -> fexp prec emax k = k - 53.
Proof. intros L. unfold fexp, SpecFloat.emin. change prec with 53. change emax with 1024. lia. Qed.

Lemma shr_fexp_none m e l :
  Z.pos (digits2_pos m) = 53 -> -1074 <= e ->
  shr_fexp prec emax (Z.pos m) e l = (shr_record_of_loc (Z.pos m) l, e).
Proof.
  intros D L. unfold shr_fexp. cbn [Zdigits2]. rewrite D, fexp_normal by lia.
  replace (53 + e - 53 - e) with 0 by lia. reflexivity.
Qed.

Lemma binary_round_aux_exact s m e :
  Z.pos (digits2_pos m) = 53 -> -1074 <= e <= 971 ->
  binary_round_aux prec emax s (Z.pos m) e loc_Exact = S754_finite s m e.
Proof.
  intros D [L U]. unfold binary_round_aux.
  rewrite (shr_fexp_none _ _ _ D L). cbn [shr_record_of_loc shr_m loc_of_shr_record round_nearest_even].
  rewrite (shr_fexp_none _ _ _ D L). cbn [shr_record_of_loc shr_m].
  change (emax - prec) with 971. destruct (Z.leb_spec e 971); [reflexivity | lia].
Qed.

(** [float(n)] for a positive [n] of at most 52 bits. *)
Lemma binary_normalize_pos p j :
  Z.pos (digits2_pos p) + Z.pos j = 53 ->
  binary_normalize prec emax (Z.pos p) 0 false =
  S754_finite false (Pos.iter xO p j) (Z.neg j).
Proof.
  intros D. unfold binary_normalize, binary_round.
  rewrite Z.add_0_r, fexp_normal by lia.
  replace (Z.pos (digits2_pos p) - 53) with (- Z.pos j) by lia.
  rewrite Pos2Z.opp_pos. unfold shl_align. cbn [Z.sub Z.opp Z.add].
  apply binary_round_aux_exact; [| pose proof (Pos2Z.neg_is_neg j); rewrite <- Pos2Z.opp_pos; lia].
  apply digits2_pos_unique. rewrite iter_xO.
  pose proof (digits2_pos_bounds p) as [L U].
  assert (E1 : 2 ^ (53 - 1) = 2 ^ (Z.pos (digits2_pos p) - 1) * 2 ^ Z.pos j)
    by (rewrite <- Z.pow_add_r by lia; f_equal; lia).
  assert (E2 : 2 ^ 53 = 2 ^ Z.pos (digits2_pos p) * 2 ^ Z.pos j)
    by (rewrite <- Z.pow_add_r by lia; f_equal; lia).
  rewrite E1, E2.
  assert (0 < 2 ^ Z.pos j) by (apply Z.pow_pos_nonneg; lia).
  split; [apply Z.mul_le_mono_nonneg_r | apply Z.mul_lt_mono_pos_r]; lia.
Qed.

(** Rounding a product of more than 53 bits: the result is a float whose
    integer part is that of a mantissa off by at most half a unit. *)
Lemma binary_round_aux_product M e sh :
  Z.pos (digits2_pos M) = 53 + Z.pos sh ->
  -1074 <= e + Z.pos sh ->
  e + Z.pos sh < -1 ->
  exists m3 e3 m2,
    binary_round_aux prec emax false (Z.pos M) e loc_Exact = S754_finite false m3 e3 /\
    e3 < 0 /\
    Z.pos m3 / 2 ^ (- e3) = m2 / 2 ^ (- (e + Z.pos sh)) /\
    - 2 ^ Z.pos sh <= 2 * Z.pos M - 2 * m2 * 2 ^ Z.pos sh <= 2 ^ Z.pos sh.
Proof.
  intros D L U. unfold binary_round_aux.
  assert (F : shr_fexp prec emax (Z.pos M) e loc_Exact =
              (SpecFloat.iter_pos shr_1 sh {| shr_m := Z.pos M; shr_r := false; shr_s := false |},
               e + Z.pos sh)).
  { unfold shr_fexp. cbn [Zdigits2 shr_record_of_loc]. rewrite D, fexp_normal by lia.
    replace (53 + Z.pos sh + e - 53 - e) with (Z.pos sh) by lia. reflexivity. }
  rewrite F. clear F.
  set (mrs := SpecFloat.iter_pos shr_1 sh _).
  assert (S : shifted (Z.pos M) (Z.pos sh) mrs).
  { change (Z.pos sh) with (0 + Z.pos sh). apply shifted_iter; [lia |].
    apply shifted_start. lia. }
  destruct (round_nearest_even_bounds _ _ _ S) as [B R].
  set (m2 := round_nearest_even (shr_m mrs) (loc_of_shr_record mrs)) in *.
  assert (P : 0 < 2 ^ Z.pos sh) by (apply Z.pow_pos_nonneg; lia).
  assert (G : 2 ^ 52 <= m2 <= 2 ^ 53).
  { pose proof (digits2_pos_bounds M) as [LM UM]. rewrite D in LM, UM.
    replace (53 + Z.pos sh - 1) with (52 + Z.pos sh) in LM by lia.
    rewrite Z.pow_add_r in LM, UM by lia.
    destruct S as [Lm (T & E & RT & _)].
    assert (shr_m mrs * 2 ^ Z.pos sh <= Z.pos M < (shr_m mrs + 1) * 2 ^ Z.pos sh)
      by (destruct (shr_r mrs); cbn [Z.b2z] in E; lia).
    assert (2 ^ 52 < shr_m mrs + 1)
      by (apply (Z.mul_lt_mono_pos_r (2 ^ Z.pos sh)); lia).
    assert (shr_m mrs < 2 ^ 53)
      by (apply (Z.mul_lt_mono_pos_r (2 ^ Z.pos sh)); lia).
    lia. }
  destruct m2 as [| q | q] eqn:Em2; [cbn in G; lia | | cbn in G; lia].
  change (2 ^ 52) with 4503599627370496 in G.
  change (2 ^ 53) with 9007199254740992 in G.
  destruct (Pos.eq_dec q 9007199254740992%positive) as [-> | Ne].
  - exists 4503599627370496%positive, (e + Z.pos sh + 1), 9007199254740992.
    split.
    + unfold shr_fexp. cbn [Zdigits2].
      change (Z.pos (digits2_pos 9007199254740992)) with 54.
      rewrite fexp_normal by lia.
      replace (54 + (e + Z.pos sh) - 53 - (e + Z.pos sh)) with 1 by lia.
      cbn [shr_record_of_loc shr SpecFloat.iter_pos shr_1 shr_m].
      change (emax - prec) with 971.
      destruct (Z.leb_spec (e + Z.pos sh + 1) 971); [reflexivity | lia].
    + split; [lia |]. split; [| exact B].
      replace (- (e + Z.pos sh)) with (1 + - (e + Z.pos sh + 1)) by lia.
      rewrite Z.pow_add_r by lia.
      change 9007199254740992 with (2 ^ 1 * 4503599627370496).
      rewrite Z.div_mul_cancel_l; [reflexivity | | lia].
      apply Z.pow_nonzero; lia.
  - exists q, (e + Z.pos sh), (Z.pos q).
    assert (Dq : Z.pos (digits2_pos q) = 53).
    { apply digits2_pos_unique. change (2 ^ (53 - 1)) with 4503599627370496.
      change (2 ^ 53) with 9007199254740992.
      assert (Z.pos q <> 9007199254740992) by congruence. lia. }
    split.
    + rewrite (shr_fexp_none _ _ _ Dq L). cbn [shr_record_of_loc shr_m].
      change (emax - prec) with 971.
      destruct (Z.leb_spec (e + Z.pos sh) 971); [reflexivity | lia].
    + split; [lia |]. split; [reflexivity | exact B].
Qed.

(** The integer part of a mantissa within half a unit of [0.72 * n], as a
    float holds it, is [floor (0.72 * n)]: the double nearest to 0.72 is
    [6485183463413514 / 2 ^ 53], and [100 * 6485183463413514] is
    [72 * 2 ^ 53 - 24]. *)
Lemma trunc_is_floor n j sh m2 :
  0 < n -> 4 <= j -> 52 <= sh <= 53 ->
  2 ^ 52 <= n * 2 ^ j < 2 ^ 53 ->
  - 2 ^ sh <= 2 * (6485183463413514 * (n * 2 ^ j)) - 2 * m2 * 2 ^ sh <= 2 ^ sh ->
  m2 / 2 ^ (53 + j - sh) = (72 * n) / 100.
Proof.
  intros Ln Lj Rsh RN B.
  set (q := (72 * n) / 100).
  set (A := 2 ^ sh) in *. set (J := 2 ^ j) in *. set (Bt := 2 ^ (53 + j - sh)).
  assert (PA : 2 ^ 52 <= A <= 2 ^ 53) by (subst A; split; apply Z.pow_le_mono_r; lia).
  assert (PJ : 16 <= J) by (subst J; change 16 with (2 ^ 4); apply Z.pow_le_mono_r; lia).
  assert (PB : 0 < Bt) by (subst Bt; apply Z.pow_pos_nonneg; lia).
  assert (AB : A * Bt = 2 ^ 53 * J).
  { subst A Bt J. rewrite <- !Z.pow_add_r by lia. f_equal. lia. }
  assert (Q : 100 * q <= 72 * n <= 100 * q + 96).
  { pose proof (Z.div_mod (72 * n) 100 ltac:(lia)) as E.
    pose proof (Z.mod_pos_bound (72 * n) 100 ltac:(lia)) as R. fold q in E. lia. }
  assert (QJ : 100 * (q * J) <= 72 * (n * J) <= 100 * (q * J) + 96 * J) by nia.
  change (2 ^ 52) with 4503599627370496 in *.
  change (2 ^ 53) with 9007199254740992 in *.
  symmetry. apply (Z.div_unique _ _ _ (m2 - Bt * q)); [| lia].
  assert (q * Bt * A = 9007199254740992 * (q * J)) by (rewrite <- Z.mul_assoc, (Z.mul_comm Bt), AB; lia).
  left. split.
  - destruct (Z.le_gt_cases (Bt * q) m2) as [| C]; [lia | exfalso].
    assert (m2 * A <= (q * Bt - 1) * A) by (apply Z.mul_le_mono_nonneg_r; lia).
    lia.
  - destruct (Z.lt_ge_cases m2 (Bt * q + Bt)) as [| C]; [lia | exfalso].
    assert ((q * Bt + Bt) * A <= m2 * A) by (apply Z.mul_le_mono_nonneg_r; lia).
    lia.
Qed.

Lemma factor_bits : Prim2SF TOKEN_TO_WORD_FACTOR = S754_finite false 6485183463413514 (-53).
Proof. vm_compute. reflexivity. Qed.

Lemma finite_not_infinity x :
  valid_binary x = true ->
  (exists s m e, x = S754_finite s m e) ->
  PrimFloat.is_infinity (SF2Prim x) = false.
Proof.
  intros V (s & m & e & ->). unfold PrimFloat.is_infinity.
  rewrite FloatAxioms.eqb_spec, abs_spec, (Prim2SF_SF2Prim _ V). reflexivity.
Qed.

Lemma tokens_to_words_pos p :
  Z.pos (digits2_pos p) <= 49 ->
  tokens_to_words (JInt (Z.pos p)) = Ok (floor_072 (Z.pos p)).
Proof.
  intros Dk.
  set (j := Z.to_pos (53 - Z.pos (digits2_pos p))).
  assert (Ej : Z.pos (digits2_pos p) + Z.pos j = 53) by (subst j; lia).
  assert (Lj : 4 <= Z.pos j) by lia.
  pose proof (binary_normalize_pos p j Ej) as N.
  set (mz := Pos.iter xO p j) in *.
  assert (Rmz : 2 ^ 52 <= Z.pos p * 2 ^ Z.pos j < 2 ^ 53).
  { pose proof (digits2_pos_bounds p) as [L U].
    assert (E1 : 2 ^ 52 = 2 ^ (Z.pos (digits2_pos p) - 1) * 2 ^ Z.pos j)
      by (rewrite <- Z.pow_add_r by lia; f_equal; lia).
    assert (E2 : 2 ^ 53 = 2 ^ Z.pos (digits2_pos p) * 2 ^ Z.pos j)
      by (rewrite <- Z.pow_add_r by lia; f_equal; lia).
    rewrite E1, E2.
    assert (0 < 2 ^ Z.pos j) by (apply Z.pow_pos_nonneg; lia).
    split; [apply Z.mul_le_mono_nonneg_r | apply Z.mul_lt_mono_pos_r]; lia. }
  assert (Emz : Z.pos mz = Z.pos p * 2 ^ Z.pos j) by apply iter_xO.
  assert (Dmz : Z.pos (digits2_pos mz) = 53) by (apply digits2_pos_unique; lia).
  assert (V : valid_binary (S754_finite false mz (Z.neg j)) = true).
  { cbn [valid_binary]. unfold bounded, canonical_mantissa.
    rewrite <- Pos2Z.opp_pos, Dmz, fexp_normal by lia.
    change (emax - prec) with 971.
    apply andb_true_intro. split; [apply Z.eqb_eq | apply Z.leb_le]; lia. }
  unfold tokens_to_words, float_mul, float_of_int. rewrite N.
  rewrite finite_not_infinity by (eauto).
  unfold int_of_float. rewrite mul_spec, (Prim2SF_SF2Prim _ V), factor_bits.
  unfold SF64mul, SFmul. cbn [xorb].
  set (M := (6485183463413514 * mz)%positive).
  assert (EM : Z.pos M = 6485183463413514 * Z.pos mz) by reflexivity.
  assert (RM : 2 ^ 104 <= Z.pos M < 2 ^ 106).
  { rewrite EM, Emz. change (2 ^ 52) with 4503599627370496 in Rmz.
    change (2 ^ 53) with 9007199254740992 in Rmz.
    change (2 ^ 104) with 20282409603651670423947251286016.
    change (2 ^ 106) with 81129638414606681695789005144064. lia. }
  assert (Sh : exists sh, Z.pos (digits2_pos M) = 53 + Z.pos sh /\ 52 <= Z.pos sh <= 53).
  { destruct (Z.lt_ge_cases (Z.pos M) (2 ^ 105)) as [C | C].
    - exists 52%positive. split; [| lia]. apply digits2_pos_unique. cbn [Z.add Z.sub]. 
      change (53 + 52 - 1) with 104. change (53 + 52) with 105. lia.
    - exists 53%positive. split; [| lia]. apply digits2_pos_unique.
      change (53 + 53 - 1) with 105. change (53 + 53) with 106. lia. }
  destruct Sh as (sh & Dsh & Rsh).
  destruct (binary_round_aux_product M (-53 + Z.neg j) sh Dsh)
    as (m3 & e3 & m2 & R & Le3 & Ediv & B).
  { rewrite <- Pos2Z.opp_pos. lia. }
  { rewrite <- Pos2Z.opp_pos. lia. }
  rewrite R. destruct (Z.leb_spec 0 e3) as [C | _]; [lia |].
  rewrite Z.shiftr_div_pow2 by lia. rewrite Ediv.
  unfold floor_072. f_equal.
  replace (- (-53 + Z.neg j + Z.pos sh)) with (53 + Z.pos j - Z.pos sh)
    by (rewrite <- Pos2Z.opp_pos; lia).
  apply trunc_is_floor; lia.
Qed.

(** For a [max_tokens] of at most 49 bits, [int(0.72 * max_tokens)] is
    [floor (0.72 * max_tokens)]. *)
Lemma tokens_to_words_floor n :
  0 <= n < 2 ^ 49 -> tokens_to_words (JInt n) = Ok (floor_072 n).
Proof.
  intros [L U]. destruct n as [| p | p]; [vm_compute; reflexivity | | lia].
  apply tokens_to_words_pos.
  pose proof (digits2_pos_bounds p) as [Lp _].
  destruct (Z.le_gt_cases (Z.pos (digits2_pos p)) 49) as [| C]; [assumption |].
  assert (2 ^ 49 <= 2 ^ (Z.pos (digits2_pos p) - 1)) by (apply Z.pow_le_mono_r; lia).
  lia.
Qed.

Lemma floor_072_nonneg n : 0 <= n -> 0 <= floor_072 n.
Proof. intros L. unfold floor_072. apply Z.div_pos; lia. Qed.

Section Budget.
Context `{Externals}.

(** C7, amended: for a completions or chat-completions request whose
    [max_tokens] is absent (it is then 4096, and 2949 words are generated)
    or an integer [n] with [0 <= n < 2 ^ 49], the filler text is made of
    exactly [floor (0.72 * n)] words of the word source, joined by single
    spaces: it is the text of the completion, the content of the chat
    message, or the text the stream is made from. *)
Theorem filler_words_floor context s path_params deployment_name fields n :
  body (request context) = Some (JObj fields) ->
  path_params !! "deployment" = Some deployment_name ->
  max_tokens_of fields = JInt n ->
  0 <= n < 2 ^ 49 ->
  let words := map lorem_word (seq (draws s) (Z.to_nat (floor_072 n))) in
  (assoc "max_tokens" fields = None -> n = 4096 /\ length words = 2949%nat) /\
  length words = Z.to_nat (floor_072 n) /\
  (forall prompt,
     is_route_match (request context)
       "/openai/deployments/{deployment}/completions" ["POST"%string]
       = (true, path_params) ->
     assoc "prompt" fields = Some (JStr prompt) ->
     exists response_body s',
       azure_openai_completion context s =
         (Ok (Some (Response 200 (json_dumps response_body)
                      [("Content-Type", "application/json")%string])), s') /\
       at_path [Key "choices"; Index 0; Key "text"] response_body
         = Some (JStr (join_space words))) /\
  (forall messages P,
     is_route_match (request context)
       "/openai/deployments/{deployment}/chat/completions" ["POST"%string]
       = (true, path_params) ->
     assoc "messages" fields = Some messages ->
     num_tokens_from_messages messages (resolved_model (config context) deployment_name)
       = Ok P ->
     (truthy (stream_of fields) = false ->
      exists response_body s',
        azure_openai_chat_completion context s =
          (Ok (Some (Response 200 (json_dumps response_body)
                       [("Content-Type", "application/json")%string])), s') /\
        at_path [Key "choices"; Index 0; Key "message"; Key "content"] response_body
          = Some (JStr (join_space words))) /\
     (truthy (stream_of fields) = true ->
      exists g s',
        azure_openai_chat_completion context s = (Ok (Some (StreamingResponse g)), s') /\
        closure_words g = join_space words)).
Proof.
  intros Hb Hp Hn R words.
  assert (Hw : tokens_to_words (max_tokens_of fields) = Ok (floor_072 n))
    by (rewrite Hn; now apply tokens_to_words_floor).
  assert (Lw : 0 <= floor_072 n) by (apply floor_072_nonneg; lia).
  split.
  { intros A. unfold max_tokens_of in Hn. rewrite A in Hn. injection Hn as <-.
    split; [reflexivity |]. subst words. now rewrite length_map, length_seq. }
  split; [subst words; now rewrite length_map, length_seq |].
  split.
  - intros prompt Hm Hi. eexists _, _.
    split; [exact (completion_run _ s _ _ _ _ _ Hm Hp Hb Hi Hw Lw) | reflexivity].
  - intros messages P Hm Hi HP. split; intros Hs.
    + eexists _, _.
      split; [exact (chat_run_plain _ s _ _ _ _ _ _ Hm Hp Hb Hi HP Hw Lw Hs) | reflexivity].
    + eexists _, _.
      split; [exact (chat_run_stream _ s _ _ _ _ _ _ Hm Hp Hb Hi HP Hw Lw Hs) | reflexivity].
Qed.

End Budget.

(** * Further properties *)

(** ** Frames *)

Lemma keeps_ret {A T} (f : State -> T) (a : A) : keeps f (ret a).
Proof. intros s. reflexivity. Qed.

Lemma keeps_raise {A T} (f : State -> T) e : keeps f (@raise A e).
Proof. intros s. reflexivity. Qed.

Lemma keeps_lift {A T} (f : State -> T) (r : Result A) : keeps f (lift r).
Proof. intros s. reflexivity. Qed.

Lemma keeps_bind {A B T} (f : State -> T) (c : M A) (k : A -> M B) :
  keeps f c -> (forall a, keeps f (k a)) -> keeps f (bind c k).
Proof.
  intros Hc Hk s. unfold bind. specialize (Hc s).
  destruct (c s) as [[a | e] s1]; cbn [snd] in *; [| exact Hc].
  now rewrite Hk.
Qed.

Lemma keeps_draw {A T} (f : State -> T) (source : nat -> A) :
  progress_blind f -> keeps f (draw source).
Proof. intros B s. apply B. Qed.

Lemma keeps_request_json {T} (f : State -> T) r : progress_blind f -> keeps f (request_json r).
Proof.
  intros B s. unfold request_json. destruct (body r); apply B.
Qed.

Lemma keeps_resolver {T} (f : State -> T) context deployment_name :
  (forall c n s, f (resolved_state c n s) = f s) ->
  keeps f (get_model_name_from_deployment_name context deployment_name).
Proof. intros R s. rewrite resolver_run. apply R. Qed.

Section Frames.

Context `{Externals}.

Lemma keeps_num_tokens {T} (f : State -> T) v model_name :
  keeps f (num_tokens_from_string v model_name).
Proof. destruct v; first [apply keeps_ret | apply keeps_raise]. Qed.

Lemma keeps_lorem {T} (f : State -> T) count :
  progress_blind f -> keeps f (lorem_get_word count).
Proof.
  intros B. unfold lorem_get_word. destruct (count <? 0); [apply keeps_raise |].
  apply keeps_bind; [| intros; apply keeps_ret]. intros s. apply B.
Qed.

Lemma keeps_generate_embedding {T} (f : State -> T) index :
  progress_blind f -> keeps f (_generate_embedding index).
Proof. intros B s. rewrite generate_embedding_run. apply B. Qed.

Lemma keeps_embedding_loop {T} (f : State -> T) model_name items :
  progress_blind f ->
  forall tokens index embeddings,
    keeps f (embedding_loop model_name items tokens index embeddings).
Proof.
  intros B. induction items as [| i rest IH]; intros tokens index embeddings;
    cbn [embedding_loop]; [apply keeps_ret |].
  apply keeps_bind; [apply keeps_num_tokens |]. intros n.
  apply keeps_bind; [now apply keeps_generate_embedding |]. intros e. apply IH.
Qed.

End Frames.

(** Solves [keeps f c] for a computation built from the actions above,
    given that [f] is blind to progress ([B]); [leaf] is tried on the runs
    of the resolver and on the writes to [context.values]. *)
Ltac frame B leaf :=
  repeat
    lazymatch goal with
    | |- keeps _ (ret _) => apply keeps_ret
    | |- keeps _ (raise _) => apply keeps_raise
    | |- keeps _ (lift _) => apply keeps_lift
    | |- keeps _ (bind _ _) => apply keeps_bind; [| intros ]
    | |- keeps _ (num_tokens_from_string _ _) => apply keeps_num_tokens
    | |- keeps _ (draw _) => apply keeps_draw; exact B
    | |- keeps _ (request_json _) => apply keeps_request_json; exact B
    | |- keeps _ (lorem_get_word _) => apply keeps_lorem; exact B
    | |- keeps _ (_generate_embedding _) => apply keeps_generate_embedding; exact B
    | |- keeps _ (embedding_loop _ _ _ _ _) => apply keeps_embedding_loop; exact B
    | |- keeps _ (match ?x with _ => _ end) => destruct x
    | |- keeps _ _ => leaf
    end.

Lemma log_resolved_state c deployment_name s s1 :
  log s1 = log s ->
  log (resolved_state c deployment_name s1) = log (resolved_state c deployment_name s).
Proof.
  unfold log, resolved_state. intros [= Em Ew].
  destruct (registry_lookup c deployment_name); cbn; [now rewrite Em, Ew |].
  rewrite Em.
  destruct (decide (deployment_name ∈ missing_deployment_names s)); cbn;
    now rewrite ?Em, Ew.
Qed.

Lemma log_blind : progress_blind log.
Proof. intros s b d. reflexivity. Qed.

Lemma values_blind : progress_blind values.
Proof. intros s b d. reflexivity. Qed.

Lemma lookup_blind (k : string) : progress_blind (fun s => values s !! k).
Proof. intros s b d. reflexivity. Qed.

Lemma keeps_set_value_log key v : keeps log (set_value key v).
Proof. intros s. reflexivity. Qed.

Lemma keeps_set_value_other (k key : string) v :
  key <> k -> keeps (fun s => values s !! k) (set_value key v).
Proof. intros N s. cbn. now apply lookup_insert_ne. Qed.

Lemma once_keeps {A} c (m : M A) : keeps log m -> once c m.
Proof. intros K s. left. apply K. Qed.

Lemma once_resolver context deployment_name :
  once (config context) (get_model_name_from_deployment_name context deployment_name).
Proof. intros s. right. exists deployment_name. now rewrite resolver_run. Qed.

Lemma once_bind_l {A B} c (m : M A) (k : A -> M B) :
  keeps log m -> (forall a, once c (k a)) -> once c (bind m k).
Proof.
  intros Km Ok s. unfold bind. specialize (Km s).
  destruct (m s) as [[a | e] s1]; cbn [snd] in *; [| now left].
  destruct (Ok a s1) as [E | (n & E)]; [left | right; exists n]; rewrite E;
    [exact Km | now apply log_resolved_state].
Qed.

Lemma once_bind_r {A B} c (m : M A) (k : A -> M B) :
  once c m -> (forall a, keeps log (k a)) -> once c (bind m k).
Proof.
  intros Om Kk s. unfold bind. specialize (Om s).
  destruct (m s) as [[a | e] s1]; cbn [snd] in *; [| exact Om].
  destruct Om as [E | (n & E)]; [left | right; exists n]; now rewrite Kk.
Qed.

Lemma fails_clean_bind {A B} (m : M A) (k : A -> M B) :
  keeps values m -> (forall a, fails_clean (k a)) -> fails_clean (bind m k).
Proof.
  intros K F s e s'. unfold bind. specialize (K s).
  destruct (m s) as [[a | e1] s1]; cbn [snd] in K.
  - intros E. rewrite <- K. exact (F a s1 e s' E).
  - intros [= _ <-]. exact K.
Qed.


Section GeneratorFrames.

Context `{Externals}.

Lemma embedding_once context : once (config context) (azure_openai_embedding context).
Proof.
  unfold azure_openai_embedding.
  destruct (is_route_match _ _ _) as [[|] path_params]; cbn [negb];
    [| apply once_keeps, keeps_ret].
  apply once_bind_l; [apply keeps_lift | intros deployment_name].
  apply once_bind_l; [apply keeps_request_json, log_blind | intros request_body].
  apply once_bind_r; [apply once_resolver | intros model_name].
  frame log_blind ltac:(apply keeps_set_value_log).
Qed.

Lemma completion_once context : once (config context) (azure_openai_completion context).
Proof.
  unfold azure_openai_completion.
  destruct (is_route_match _ _ _) as [[|] path_params]; cbn [negb];
    [| apply once_keeps, keeps_ret].
  apply once_bind_l; [apply keeps_lift | intros deployment_name].
  apply once_bind_r; [apply once_resolver | intros model_name].
  frame log_blind ltac:(apply keeps_set_value_log).
Qed.

Lemma chat_once context : once (config context) (azure_openai_chat_completion context).
Proof.
  unfold azure_openai_chat_completion.
  destruct (is_route_match _ _ _) as [[|] path_params]; cbn [negb];
    [| apply once_keeps, keeps_ret].
  apply once_bind_l; [apply keeps_request_json, log_blind | intros request_body].
  apply once_bind_l; [apply keeps_lift | intros deployment_name].
  apply once_bind_r; [apply once_resolver | intros model_name].
  frame log_blind ltac:(apply keeps_set_value_log).
Qed.

End GeneratorFrames.

(** ** Embeddings: the resolver runs whenever the body parses *)

Section Resolved.

Context `{Externals}.

(** Once the body of a matching embeddings request has parsed, the log is
    what the resolver leaves, whatever happens next. *)
Lemma embedding_log context s path_params deployment_name v :
  is_route_match (request context)
    "/openai/deployments/{deployment}/embeddings" ["POST"%string] = (true, path_params) ->
  path_params !! "deployment" = Some deployment_name ->
  body (request context) = Some v ->
  log (snd (azure_openai_embedding context s)) =
  log (resolved_state (config context) deployment_name (body_read s)).
Proof.
  intros Hm Hp Hb. unfold azure_openai_embedding. rewrite Hm.
  cbv beta iota. cbn [negb]. cbv beta iota.
  step (lift_run _ _ s (param_run _ _ _ Hp)).
  step (request_json_run _ _ s Hb).
  step (resolver_run context deployment_name (body_read s)).
  match goal with
  | |- log (snd (?c ?st)) = _ =>
      assert (K : keeps log c) by frame log_blind ltac:(apply keeps_set_value_log);
      apply K
  end.
Qed.

(** C9, amended: for every embeddings request that matches the route and
    whose body parses as JSON, the generator does not pass the request over
    and the resolver has run, whatever the outcome -- a response or an
    exception raised later, for a missing [input] for instance --: if the
    deployment name is not registered, it is in [missing_deployment_names]
    afterwards, with the one warning added unless the name was recorded
    already; and whenever a response is returned, the [model] of its body is
    the literal ["ada"], whatever the deployment resolves to. *)
Theorem embedding_model_ada_resolver_runs context s path_params deployment_name v
    result s' :
  is_route_match (request context)
    "/openai/deployments/{deployment}/embeddings" ["POST"%string] = (true, path_params) ->
  path_params !! "deployment" = Some deployment_name ->
  body (request context) = Some v ->
  azure_openai_embedding context s = (result, s') ->
  (forall r, result = Ok (Some r) ->
     exists response_data,
       r = Response 200 (json_dumps response_data)
             [("Content-Type", "application/json")%string] /\
       at_path [Key "model"] response_data = Some (JStr "ada")) /\
  result <> Ok None /\
  (registry_lookup (config context) deployment_name = None ->
   missing_deployment_names s' = {[deployment_name]} ∪ missing_deployment_names s /\
   (deployment_name ∉ missing_deployment_names s ->
    warnings s' = warnings s ++ [missing_warning deployment_name]) /\
   (deployment_name ∈ missing_deployment_names s -> warnings s' = warnings s)).
Proof.
  intros Hm Hp Hb E. split; [| split].
  - intros r ->.
    destruct (embedding_inv _ _ _ _ E)
      as (path_params' & deployment_name' & fields & data & T & n & _ & _ & _ & -> & _).
    eexists. split; reflexivity.
  - intros ->. revert E. unfold azure_openai_embedding. rewrite Hm.
    cbv beta iota. cbn [negb]. cbv beta iota.
    step (lift_run _ _ s (param_run _ _ _ Hp)).
    step (request_json_run _ _ s Hb).
    step (resolver_run context deployment_name (body_read s)).
    intros E.
    unfold bind at 1 in E.
    destruct (lift (getitem v "input") _) as [[request_input | e] s1]; [| discriminate E].
    unfold bind at 1 in E.
    match type of E with
    | match ?c with _ => _ end = _ => destruct c as [[[tokens embeddings] | e] s2]
    end; [| discriminate E].
    unfold bind, set_value, ret in E. discriminate E.
  - intros N. pose proof (embedding_log _ s _ _ _ Hm Hp Hb) as L.
    rewrite E in L. cbn [snd] in L. unfold log in L. injection L as -> ->.
    rewrite (resolved_state_missing _ _ _ N), (resolved_state_warnings _ _ _ N).
    cbn [body_read missing_deployment_names warnings].
    destruct (decide (deployment_name ∈ missing_deployment_names s)) as [I | I].
    + split; [reflexivity |]. split; [intros J; now destruct J | reflexivity].
    + split; [reflexivity |]. split; [reflexivity | intros J; now destruct I].
Qed.

End Resolved.

(** ** What every run leaves alone *)

Lemma once_logged {A} c (m : M A) s : once c m -> logged_at_most_once s (snd (m s)).
Proof.
  intros O. destruct (O s) as [E | (n & E)].
  - left. now injection E.
  - unfold resolved_state in E. destruct (registry_lookup c n).
    + left. now injection E.
    + destruct (decide (n ∈ missing_deployment_names s)) as [I | N].
      * left. now injection E.
      * right. exists n. injection E as Em Ew. auto.
Qed.

Lemma logged_warned s s' : logged_at_most_once s s' -> warned s -> warned s'.
Proof.
  unfold warned. intros [[Em Ew] | (n & N & Em & Ew)] W.
  - now rewrite Em, Ew.
  - rewrite Em, Ew, (elements_union_singleton _ _ N). cbn [map].
    rewrite <- W. symmetry. apply Permutation_cons_append.
Qed.

Section GeneratorTheorems.

Context `{Externals}.

(** X1: each generator, whatever the request and whatever the outcome --
    a response, no match or an exception --, leaves
    [missing_deployment_names] and the log as they were, or has recorded one
    name that was not recorded before and logged the one warning for it. *)
Theorem generators_log_at_most_once context s :
  logged_at_most_once s (snd (azure_openai_embedding context s)) /\
  logged_at_most_once s (snd (azure_openai_completion context s)) /\
  logged_at_most_once s (snd (azure_openai_chat_completion context s)).
Proof.
  split; [| split].
  - apply (once_logged (config context)), embedding_once.
  - apply (once_logged (config context)), completion_once.
  - apply (once_logged (config context)), chat_once.
Qed.

(** X2: a log that holds exactly one warning for each name in
    [missing_deployment_names] still does after any generator has run on
    any request, whatever the outcome. *)
Theorem generators_keep_one_warning_per_name context s :
  warned s ->
  warned (snd (azure_openai_embedding context s)) /\
  warned (snd (azure_openai_completion context s)) /\
  warned (snd (azure_openai_chat_completion context s)).
Proof.
  intros W. split; [| split]; refine (logged_warned s _ _ W).
  - apply (once_logged (config context)), embedding_once.
  - apply (once_logged (config context)), completion_once.
  - apply (once_logged (config context)), chat_once.
Qed.

(** Solves [fails_clean c] for a generator: every action before the
    writes keeps [context.values], and the writes do not raise. *)
Ltac clean :=
  repeat
    lazymatch goal with
    | |- fails_clean (ret _) => intros ? ? ? [=]
    | |- fails_clean (bind (set_value _ _) _) =>
        let E := fresh "E" in
        intros ? ? ? E; unfold bind, set_value, ret in E; discriminate E
    | |- fails_clean (bind _ _) =>
        apply fails_clean_bind;
        [ frame values_blind ltac:(apply keeps_resolver; exact resolved_state_values)
        | intros ]
    | |- fails_clean (match ?x with _ => _ end) => destruct x
    end.

(** X3: a generator that raises has written nothing to [context.values]:
    the values are published only after everything that can fail. *)
Theorem failure_publishes_nothing context s e s' :
  (azure_openai_embedding context s = (Raise e, s') -> values s' = values s) /\
  (azure_openai_completion context s = (Raise e, s') -> values s' = values s) /\
  (azure_openai_chat_completion context s = (Raise e, s') -> values s' = values s).
Proof.
  split; [| split].
  - assert (F : fails_clean (azure_openai_embedding context))
      by (unfold azure_openai_embedding; clean).
    apply F.
  - assert (F : fails_clean (azure_openai_completion context))
      by (unfold azure_openai_completion; clean).
    apply F.
  - assert (F : fails_clean (azure_openai_chat_completion context))
      by (unfold azure_openai_chat_completion; clean).
    apply F.
Qed.

(** X4: the generators write to [context.values] under the five keys of
    [aoai_simulated_api.constants] only: the value under any other key is
    after a run, whatever its outcome, what it was before. *)
Theorem generators_write_their_keys_only context s (k : string) :
  k ∉ [SIMULATOR_KEY_LIMITER; SIMULATOR_KEY_OPERATION_NAME;
       SIMULATOR_KEY_DEPLOYMENT_NAME; SIMULATOR_KEY_OPENAI_COMPLETION_TOKENS;
       SIMULATOR_KEY_OPENAI_TOTAL_TOKENS] ->
  values (snd (azure_openai_embedding context s)) !! k = values s !! k /\
  values (snd (azure_openai_completion context s)) !! k = values s !! k /\
  values (snd (azure_openai_chat_completion context s)) !! k = values s !! k.
Proof.
  intros N. rewrite !not_elem_of_cons in N.
  destruct N as (N1 & N2 & N3 & N4 & N5 & _).
  assert (R : forall c n s, (fun s => values s !! k) (resolved_state c n s)
                            = (fun s => values s !! k) s)
    by (intros; cbv beta; now rewrite resolved_state_values).
  split; [| split].
  - assert (K : keeps (fun s => values s !! k) (azure_openai_embedding context)).
    { unfold azure_openai_embedding.
      frame (lookup_blind k)
        ltac:(first [ apply keeps_resolver; exact R
                    | apply keeps_set_value_other; congruence ]). }
    apply K.
  - assert (K : keeps (fun s => values s !! k) (azure_openai_completion context)).
    { unfold azure_openai_completion.
      frame (lookup_blind k)
        ltac:(first [ apply keeps_resolver; exact R
                    | apply keeps_set_value_other; congruence ]). }
    apply K.
  - assert (K : keeps (fun s => values s !! k) (azure_openai_chat_completion context)).
    { unfold azure_openai_chat_completion.
      frame (lookup_blind k)
        ltac:(first [ apply keeps_resolver; exact R
                    | apply keeps_set_value_other; congruence ]). }
    apply K.
Qed.

End GeneratorTheorems.

(** ** Requests that fail *)

Lemma request_json_fail r s :
  body r = None -> request_json r s = (Raise (body_error r), body_read s).
Proof. intros E. unfold request_json. now rewrite E. Qed.

Lemma getitem_missing fields key :
  assoc key fields = None -> getitem (JObj fields) key = Raise (KeyError key).
Proof. intros E. unfold getitem. now rewrite E. Qed.

Lemma getitem_not_object v key :
  (forall fields, v <> JObj fields) -> getitem v key = Raise TypeError.
Proof. intros N. destruct v; try reflexivity. now destruct (N fields). Qed.

Lemma tokens_to_words_not_numeric v :
  numeric v = false -> tokens_to_words v = Raise TypeError.
Proof. destruct v; try discriminate; intros _; reflexivity. Qed.

Section Failures.

Context `{Externals}.

Lemma embedding_getitem_fail context s path_params deployment_name v e :
  is_route_match (request context)
    "/openai/deployments/{deployment}/embeddings" ["POST"%string] = (true, path_params) ->
  path_params !! "deployment" = Some deployment_name ->
  body (request context) = Some v ->
  getitem v "input" = Raise e ->
  azure_openai_embedding context s =
  (Raise e, resolved_state (config context) deployment_name (body_read s)).
Proof.
  intros Hm Hp Hb Hi. unfold azure_openai_embedding. rewrite Hm.
  cbv beta iota. cbn [negb]. cbv beta iota.
  step (lift_run _ _ s (param_run _ _ _ Hp)).
  step (request_json_run _ _ s Hb).
  step (resolver_run context deployment_name (body_read s)).
  unfold bind, lift. now rewrite Hi.
Qed.

Lemma completion_getitem_fail context s path_params deployment_name v e :
  is_route_match (request context)
    "/openai/deployments/{deployment}/completions" ["POST"%string] = (true, path_params) ->
  path_params !! "deployment" = Some deployment_name ->
  body (request context) = Some v ->
  getitem v "prompt" = Raise e ->
  azure_openai_completion context s =
  (Raise e, body_read (resolved_state (config context) deployment_name s)).
Proof.
  intros Hm Hp Hb Hi. unfold azure_openai_completion. rewrite Hm.
  cbv beta iota. cbn [negb]. cbv beta iota.
  step (lift_run _ _ s (param_run _ _ _ Hp)).
  step (resolver_run context deployment_name s).
  step (request_json_run _ _ (resolved_state (config context) deployment_name s) Hb).
  unfold bind, lift. now rewrite Hi.
Qed.

Lemma chat_getitem_fail context s path_params deployment_name v e :
  is_route_match (request context)
    "/openai/deployments/{deployment}/chat/completions" ["POST"%string]
    = (true, path_params) ->
  path_params !! "deployment" = Some deployment_name ->
  body (request context) = Some v ->
  getitem v "messages" = Raise e ->
  azure_openai_chat_completion context s =
  (Raise e, resolved_state (config context) deployment_name (body_read s)).
Proof.
  intros Hm Hp Hb Hi. unfold azure_openai_chat_completion. rewrite Hm.
  cbv beta iota. cbn [negb]. cbv beta iota.
  step (request_json_run _ _ s Hb).
  step (lift_run _ _ (body_read s) (param_run _ _ _ Hp)).
  step (resolver_run context deployment_name (body_read s)).
  unfold bind, lift. now rewrite Hi.
Qed.

(** X5: a request whose body [await request.json()] cannot parse makes
    each generator raise the exception the parse raises, whatever its kind
    -- [JSONDecodeError], [UnicodeDecodeError], [RecursionError] --, once
    the body has been read.  The completions generator resolves the
    deployment before it reads the body, so it has recorded -- and warned
    about -- an unregistered deployment by then; the embeddings and chat
    generators read the body first and leave [missing_deployment_names] and
    the log untouched. *)
Theorem unparsable_body_raises context s path_params deployment_name :
  body (request context) = None ->
  path_params !! "deployment" = Some deployment_name ->
  (is_route_match (request context)
     "/openai/deployments/{deployment}/embeddings" ["POST"%string] = (true, path_params) ->
   azure_openai_embedding context s =
     (Raise (body_error (request context)), body_read s)) /\
  (is_route_match (request context)
     "/openai/deployments/{deployment}/completions" ["POST"%string] = (true, path_params) ->
   azure_openai_completion context s =
     (Raise (body_error (request context)),
      body_read (resolved_state (config context) deployment_name s))) /\
  (is_route_match (request context)
     "/openai/deployments/{deployment}/chat/completions" ["POST"%string]
     = (true, path_params) ->
   azure_openai_chat_completion context s =
     (Raise (body_error (request context)), body_read s)).
Proof.
  intros Hb Hp. split; [| split]; intros Hm.
  - unfold azure_openai_embedding. rewrite Hm.
    cbv beta iota. cbn [negb]. cbv beta iota.
    step (lift_run _ _ s (param_run _ _ _ Hp)).
    unfold bind. now rewrite (request_json_fail _ s Hb).
  - unfold azure_openai_completion. rewrite Hm.
    cbv beta iota. cbn [negb]. cbv beta iota.
    step (lift_run _ _ s (param_run _ _ _ Hp)).
    step (resolver_run context deployment_name s).
    unfold bind. now rewrite (request_json_fail _ _ Hb).
  - unfold azure_openai_chat_completion. rewrite Hm.
    cbv beta iota. cbn [negb]. cbv beta iota.
    unfold bind. now rewrite (request_json_fail _ s Hb).
Qed.

(** X6: a matching request whose JSON object lacks the field the
    generator reads -- [input], [prompt], [messages] -- makes it raise
    [KeyError] for that field.  By then the body has been read once and the
    resolver has run; nothing has been drawn from the outside sources and
    nothing written to [context.values]. *)
Theorem required_field_missing context s path_params deployment_name fields :
  body (request context) = Some (JObj fields) ->
  path_params !! "deployment" = Some deployment_name ->
  (is_route_match (request context)
     "/openai/deployments/{deployment}/embeddings" ["POST"%string] = (true, path_params) ->
   assoc "input" fields = None ->
   azure_openai_embedding context s =
     (Raise (KeyError "input"),
      resolved_state (config context) deployment_name (body_read s))) /\
  (is_route_match (request context)
     "/openai/deployments/{deployment}/completions" ["POST"%string] = (true, path_params) ->
   assoc "prompt" fields = None ->
   azure_openai_completion context s =
     (Raise (KeyError "prompt"),
      body_read (resolved_state (config context) deployment_name s))) /\
  (is_route_match (request context)
     "/openai/deployments/{deployment}/chat/completions" ["POST"%string]
     = (true, path_params) ->
   assoc "messages" fields = None ->
   azure_openai_chat_completion context s =
     (Raise (KeyError "messages"),
      resolved_state (config context) deployment_name (body_read s))).
Proof.
  intros Hb Hp. split; [| split]; intros Hm Hi.
  - exact (embedding_getitem_fail _ s _ _ _ _ Hm Hp Hb (getitem_missing _ _ Hi)).
  - exact (completion_getitem_fail _ s _ _ _ _ Hm Hp Hb (getitem_missing _ _ Hi)).
  - exact (chat_getitem_fail _ s _ _ _ _ Hm Hp Hb (getitem_missing _ _ Hi)).
Qed.

(** X7: a matching request whose body is JSON but not an object -- a
    list, a string, a number, [null] -- makes each generator raise
    [TypeError] where it subscripts the body, after the body has been read
    and the resolver has run. *)
Theorem body_not_an_object context s path_params deployment_name v :
  body (request context) = Some v ->
  (forall fields, v <> JObj fields) ->
  path_params !! "deployment" = Some deployment_name ->
  (is_route_match (request context)
     "/openai/deployments/{deployment}/embeddings" ["POST"%string] = (true, path_params) ->
   azure_openai_embedding context s =
     (Raise TypeError, resolved_state (config context) deployment_name (body_read s))) /\
  (is_route_match (request context)
     "/openai/deployments/{deployment}/completions" ["POST"%string] = (true, path_params) ->
   azure_openai_completion context s =
     (Raise TypeError, body_read (resolved_state (config context) deployment_name s))) /\
  (is_route_match (request context)
     "/openai/deployments/{deployment}/chat/completions" ["POST"%string]
     = (true, path_params) ->
   azure_openai_chat_completion context s =
     (Raise TypeError, resolved_state (config context) deployment_name (body_read s))).
Proof.
  intros Hb N Hp. split; [| split]; intros Hm.
  - exact (embedding_getitem_fail _ s _ _ _ _ Hm Hp Hb (getitem_not_object _ _ N)).
  - exact (completion_getitem_fail _ s _ _ _ _ Hm Hp Hb (getitem_not_object _ _ N)).
  - exact (chat_getitem_fail _ s _ _ _ _ Hm Hp Hb (getitem_not_object _ _ N)).
Qed.

Lemma completion_budget_fail context s path_params deployment_name fields prompt e :
  is_route_match (request context)
    "/openai/deployments/{deployment}/completions" ["POST"%string] = (true, path_params) ->
  path_params !! "deployment" = Some deployment_name ->
  body (request context) = Some (JObj fields) ->
  assoc "prompt" fields = Some (JStr prompt) ->
  tokens_to_words (max_tokens_of fields) = Raise e ->
  azure_openai_completion context s =
  (Raise e, body_read (resolved_state (config context) deployment_name s)).
Proof.
  intros Hm Hp Hb Hi Hw. unfold azure_openai_completion. rewrite Hm.
  cbv beta iota. cbn [negb]. cbv beta iota.
  step (lift_run _ _ s (param_run _ _ _ Hp)).
  step (resolver_run context deployment_name s).
  set (s1 := resolved_state (config context) deployment_name s).
  step (request_json_run _ _ s1 Hb).
  step (lift_run _ _ (body_read s1) (getitem_run _ _ _ Hi)).
  cbn [num_tokens_from_string]. rewrite bind_ret.
  rewrite get_default_run, bind_lift_ok. fold (max_tokens_of fields).
  rewrite Hw. reflexivity.
Qed.

Lemma chat_budget_fail context s path_params deployment_name fields messages P e :
  is_route_match (request context)
    "/openai/deployments/{deployment}/chat/completions" ["POST"%string]
    = (true, path_params) ->
  path_params !! "deployment" = Some deployment_name ->
  body (request context) = Some (JObj fields) ->
  assoc "messages" fields = Some messages ->
  num_tokens_from_messages messages (resolved_model (config context) deployment_name) = Ok P ->
  tokens_to_words (max_tokens_of fields) = Raise e ->
  azure_openai_chat_completion context s =
  (Raise e, resolved_state (config context) deployment_name (body_read s)).
Proof.
  intros Hm Hp Hb Hi HP Hw. unfold azure_openai_chat_completion. rewrite Hm.
  cbv beta iota. cbn [negb]. cbv beta iota.
  step (request_json_run _ _ s Hb).
  step (lift_run _ _ (body_read s) (param_run _ _ _ Hp)).
  step (resolver_run context deployment_name (body_read s)).
  set (s1 := resolved_state (config context) deployment_name (body_read s)).
  step (lift_run _ _ s1 (getitem_run _ _ _ Hi)).
  rewrite HP, bind_lift_ok.
  rewrite get_default_run, bind_lift_ok. fold (max_tokens_of fields).
  rewrite Hw. reflexivity.
Qed.

(** X8: a [max_tokens] that is no number -- an explicit [null], which
    [get] returns in place of the default, a string, a list, an object --
    makes the completions and the chat-completions generators raise
    [TypeError] where they multiply it by [TOKEN_TO_WORD_FACTOR], before a
    word is drawn and before anything is published; and whenever
    [int(TOKEN_TO_WORD_FACTOR * max_tokens)] raises, for a number too -- a
    NaN, an infinity, an integer too large for a float --, the generators
    raise that same exception at that same point. *)
Theorem word_budget_failure context s path_params deployment_name fields :
  body (request context) = Some (JObj fields) ->
  path_params !! "deployment" = Some deployment_name ->
  let raises e :=
    (forall prompt,
       is_route_match (request context)
         "/openai/deployments/{deployment}/completions" ["POST"%string]
         = (true, path_params) ->
       assoc "prompt" fields = Some (JStr prompt) ->
       azure_openai_completion context s =
         (Raise e, body_read (resolved_state (config context) deployment_name s))) /\
    (forall messages P,
       is_route_match (request context)
         "/openai/deployments/{deployment}/chat/completions" ["POST"%string]
         = (true, path_params) ->
       assoc "messages" fields = Some messages ->
       num_tokens_from_messages messages (resolved_model (config context) deployment_name)
         = Ok P ->
       azure_openai_chat_completion context s =
         (Raise e, resolved_state (config context) deployment_name (body_read s))) in
  (numeric (max_tokens_of fields) = false -> raises TypeError) /\
  (forall e, tokens_to_words (max_tokens_of fields) = Raise e -> raises e).
Proof.
  intros Hb Hp raises.
  assert (R : forall e, tokens_to_words (max_tokens_of fields) = Raise e -> raises e).
  { intros e Hw. split.
    - intros prompt Hm Hi. exact (completion_budget_fail _ s _ _ _ _ _ Hm Hp Hb Hi Hw).
    - intros messages P Hm Hi HP.
      exact (chat_budget_fail _ s _ _ _ _ _ _ Hm Hp Hb Hi HP Hw). }
  split; [| exact R].
  intros Hn. apply R. now apply tokens_to_words_not_numeric.
Qed.

(** X9: a chat completion that is handled to its end is answered by a
    stream exactly when the body's [stream] is truthy in Python's sense:
    [true], but also a non-zero number or a non-empty string such as
    ["false"]; an absent [stream], [false], [null], [0] and the empty string
    give the plain JSON response. *)
Theorem chat_streams_iff_truthy context s r s' :
  azure_openai_chat_completion context s = (Ok (Some r), s') ->
  exists fields,
    body (request context) = Some (JObj fields) /\
    ((exists g, r = StreamingResponse g) <-> truthy (stream_of fields) = true).
Proof.
  intros E.
  destruct (chat_inv _ _ _ _ E)
    as (path_params & deployment_name & fields & messages & P & w &
        Hm & Hp & Hb & Hi & HP & Hw & Lw).
  exists fields. split; [exact Hb |].
  destruct (truthy (stream_of fields)) eqn:Hs.
  - rewrite (chat_run_stream _ s _ _ _ _ _ _ Hm Hp Hb Hi HP Hw Lw Hs) in E.
    injection E as <- _. split; [reflexivity | eauto].
  - rewrite (chat_run_plain _ s _ _ _ _ _ _ Hm Hp Hb Hi HP Hw Lw Hs) in E.
    injection E as <- _. split; [intros (g & [=]) | discriminate].
Qed.

End Failures.

(** ** Strings, continued *)






Section Stream.

Context `{Externals}.


Lemma stream_chunks_words model_name ws : forall space d,
  Forall2 (fun (c : json) (word : string) =>
             chunk_frame model_name c /\
             at_path [Key "choices"; Index 0; Key "message"; Key "content"] c
               = Some (JStr word))
    (stream_chunks model_name space d ws) ws.
Proof.
  induction ws as [| word rest IH]; intros space d; cbn [stream_chunks];
    constructor; [| apply IH].
  split; [| reflexivity]. unfold chunk_frame.
  split; [eexists; reflexivity |]. repeat split.
Qed.


(** X11: every chunk of a stream carries the chunk object type, an id
    that starts with ["chatcmpl-"], the model under the key [model_name] --
    and no key [model] --, the four safe content-filter categories in its
    delta, a null [finish_reason], and a [message] of role ["assistant"]
    whose content is the piece of the text without the space that precedes
    it in the delta. *)
Theorem stream_chunk_fields model_name text s :
  exists chunks s',
    send_words {| closure_words := text; closure_model_name := model_name |} s =
      (Ok (sse_frames chunks ++ ["[DONE]"%string]), s') /\
    Forall2 (fun (c : json) (word : string) =>
               chunk_frame model_name c /\
               at_path [Key "choices"; Index 0; Key "message"; Key "content"] c
                 = Some (JStr word))
      chunks (split_space text).
Proof.
  eexists (stream_chunks model_name "" (draws s) (split_space text)), _.
  unfold send_words. cbn [closure_words closure_model_name].
  rewrite send_words_loop_run. split; [reflexivity | apply stream_chunks_words].
Qed.

End Stream.

(** ** Embeddings, continued: the vectors *)

Section Vectors.

Context `{Externals}.



Lemma embedding_loop_strings model_name items : forall tokens index embeddings s r s1,
  embedding_loop model_name items tokens index embeddings s = (Ok r, s1) ->
  exists inputs, items = map JStr inputs.
Proof.
  induction items as [| i rest IH]; intros tokens index embeddings s r s1 E.
  - now exists [].
  - cbn [embedding_loop] in E.
    apply bind_inv in E as (n & s2 & E2 & E).
    apply num_tokens_inv in E2 as (text & -> & -> & ->).
    apply bind_inv in E as (e & s3 & E3 & E).
    apply IH in E as (inputs & ->). now exists (text :: inputs).
Qed.

(** Every handled embeddings request, whatever the shape of its input:
    the response and the number of random numbers drawn. *)
Lemma embedding_inv_data context s r s' :
  azure_openai_embedding context s = (Ok (Some r), s') ->
  exists n T,
    r = Response 200
          (json_dumps (embeddings_body (embedding_objects 0 (draws s) n) T)) json_headers /\
    draws s' = (default_embedding_size * n + draws s)%nat.
Proof.
  unfold azure_openai_embedding.
  destruct (is_route_match _ _ _) as [[|] path_params] eqn:Hm;
    cbv beta iota; cbn [negb]; [| discriminate].
  intros E.
  apply bind_inv in E as (deployment_name & s1 & E1 & E).
  apply lift_inv in E1 as [Hp ->].
  apply bind_inv in E as (request_body & s2 & E2 & E).
  apply request_json_inv in E2 as [Hb ->].
  apply bind_inv in E as (model_name & s3 & E3 & E).
  rewrite resolver_run in E3. injection E3 as <- <-.
  set (st := resolved_state (config context) deployment_name (body_read s)) in *.
  assert (D : draws st = draws s)
    by (subst st; now rewrite resolved_state_draws, draws_body_read).
  apply bind_inv in E as (request_input & s4 & E4 & E).
  apply lift_inv in E4 as [E4 ->].
  apply bind_inv in E as ([T data] & s5 & E5 & E).
  assert (F : exists n, data = embedding_objects 0 (draws s) n /\
                        s5 = advance (default_embedding_size * n) st).
  { destruct request_input;
      try (apply bind_inv in E5 as (visited & s6 & E6 & E5);
           apply lift_inv in E6 as [E6 ->];
           destruct (embedding_loop_strings _ _ _ _ _ _ _ _ E5) as (inputs & ->);
           rewrite embedding_loop_run in E5; injection E5 as _ <- <-;
           exists (length inputs); now rewrite D).
    apply bind_inv in E5 as (tokens & s6 & E6 & E5).
    apply num_tokens_inv in E6 as (text & _ & _ & ->).
    apply bind_inv in E5 as (e & s7 & E7 & E5).
    rewrite generate_embedding_run in E7. injection E7 as <- <-.
    injection E5 as _ <- <-. exists 1%nat. rewrite D, Nat.mul_1_r. now split. }
  destruct F as (n & -> & ->).
  cbv iota in E.
  repeat (rewrite (bind_ok _ _ _ _ _ (set_value_run _ _ _)) in E; cbv beta in E).
  injection E as <- <-.
  exists n, T. split; [reflexivity |].
  change (draws (advance (default_embedding_size * n) st)
          = (default_embedding_size * n + draws s)%nat).
  now rewrite draws_advance, D.
Qed.


(** X13: an embeddings request whose input is a single string is answered
    exactly as the request whose input is the list of that one string: the
    same response -- one embedding, of index 0, and the token count of the
    string -- and the same state afterwards. *)
Theorem embedding_string_as_singleton context context' s path_params deployment_name
    fields fields' text :
  config context' = config context ->
  is_route_match (request context)
    "/openai/deployments/{deployment}/embeddings" ["POST"%string] = (true, path_params) ->
  is_route_match (request context')
    "/openai/deployments/{deployment}/embeddings" ["POST"%string] = (true, path_params) ->
  path_params !! "deployment" = Some deployment_name ->
  body (request context) = Some (JObj fields) ->
  body (request context') = Some (JObj fields') ->
  assoc "input" fields = Some (JStr text) ->
  assoc "input" fields' = Some (JArr [JStr text]) ->
  azure_openai_embedding context s = azure_openai_embedding context' s /\
  exists e s',
    azure_openai_embedding context s =
      (Ok (Some (Response 200
                   (json_dumps
                      (embeddings_body [e]
                         (count_text text (resolved_model (config context) deployment_name))))
                   json_headers)), s') /\
    field "index" e = Some (JInt 0).
Proof.
  intros Hc Hm Hm' Hp Hb Hb' Hi Hi'.
  rewrite (embedding_run_string _ s _ _ _ _ Hm Hp Hb Hi).
  rewrite (embedding_run_list _ s _ _ _ [text] Hm' Hp Hb' Hi').
  rewrite Hc. cbn [length embedding_objects total_count fold_right].
  rewrite Z.add_0_r, Nat.mul_1_r.
  split; [reflexivity |]. eexists _, _. split; reflexivity.
Qed.

End Vectors.

(** ** Usage and what is published *)

Section Usage.

Context `{Externals}.

(** X14: an embeddings request whose [input] is [null], a boolean or a
    number raises [TypeError] where the loop starts: the body has been read
    and the resolver has run, but no random number has been drawn and
    nothing is published. *)
Theorem embedding_input_not_iterable context s path_params deployment_name fields input :
  is_route_match (request context)
    "/openai/deployments/{deployment}/embeddings" ["POST"%string] = (true, path_params) ->
  path_params !! "deployment" = Some deployment_name ->
  body (request context) = Some (JObj fields) ->
  assoc "input" fields = Some input ->
  scalar input = true ->
  azure_openai_embedding context s =
    (Raise TypeError, resolved_state (config context) deployment_name (body_read s)).
Proof.
  intros Hm Hp Hb Hi Hs. unfold azure_openai_embedding. rewrite Hm.
  cbv beta iota. cbn [negb]. cbv beta iota.
  step (lift_run _ _ s (param_run _ _ _ Hp)).
  step (request_json_run _ _ s Hb).
  step (resolver_run context deployment_name (body_read s)).
  step (lift_run _ _ (resolved_state (config context) deployment_name (body_read s))
          (getitem_run _ _ _ Hi)).
  destruct input; try discriminate Hs; reflexivity.
Qed.

(** X15: in every completions response, [usage.prompt_tokens] is the
    tokenizer's count of the request's [prompt] and
    [usage.completion_tokens] its count of the generated [choices[0].text],
    both under the model the deployment resolves to. *)
Theorem completion_usage_counts context s r s' :
  azure_openai_completion context s = (Ok (Some r), s') ->
  exists response_body path_params deployment_name fields prompt text,
    r = Response 200 (json_dumps response_body) json_headers /\
    is_route_match (request context)
      "/openai/deployments/{deployment}/completions" ["POST"%string] = (true, path_params) /\
    path_params !! "deployment" = Some deployment_name /\
    body (request context) = Some (JObj fields) /\
    assoc "prompt" fields = Some (JStr prompt) /\
    at_path [Key "choices"; Index 0; Key "text"] response_body = Some (JStr text) /\
    at_path [Key "usage"; Key "prompt_tokens"] response_body
      = Some (JInt (count_text prompt (resolved_model (config context) deployment_name))) /\
    at_path [Key "usage"; Key "completion_tokens"] response_body
      = Some (JInt (count_text text (resolved_model (config context) deployment_name))).
Proof.
  intros E.
  destruct (completion_inv _ _ _ _ E)
    as (path_params & deployment_name & fields & prompt & w & Hm & Hp & Hb & Hi & Hw & Lw).
  rewrite (completion_run _ s _ _ _ _ _ Hm Hp Hb Hi Hw Lw) in E.
  injection E as <- _.
  eexists _, path_params, deployment_name, fields, prompt, _.
  split; [reflexivity |]. repeat (split; [eassumption |]).
  split; [reflexivity |]. split; reflexivity.
Qed.

(** X16: every chat-completions response that is not a stream has status
    200 and a JSON body whose id starts with ["chatcmpl-"], whose object
    type is ["chat.completion"], whose [model] is the one the deployment
    resolves to, whose one prompt filter has index 0 and whose message has
    the role ["assistant"]; [usage.prompt_tokens] is the count of the
    request's [messages] and [usage.completion_tokens] the tokenizer's count
    of the message content. *)
Theorem chat_response_fields context s status_code content headers s' :
  azure_openai_chat_completion context s
    = (Ok (Some (Response status_code content headers)), s') ->
  exists response_body path_params deployment_name fields messages text,
    status_code = 200 /\
    content = json_dumps response_body /\
    headers = [("Content-Type", "application/json")%string] /\
    is_route_match (request context)
      "/openai/deployments/{deployment}/chat/completions" ["POST"%string]
      = (true, path_params) /\
    path_params !! "deployment" = Some deployment_name /\
    body (request context) = Some (JObj fields) /\
    assoc "messages" fields = Some messages /\
    (exists id, at_path [Key "id"] response_body = Some (JStr ("chatcmpl-" +:+ id))) /\
    at_path [Key "object"] response_body = Some (JStr "chat.completion") /\
    at_path [Key "model"] response_body
      = Some (JStr (resolved_model (config context) deployment_name)) /\
    at_path [Key "prompt_filter_results"; Index 0; Key "prompt_index"] response_body
      = Some (JInt 0) /\
    at_path [Key "choices"; Index 0; Key "index"] response_body = Some (JInt 0) /\
    at_path [Key "choices"; Index 0; Key "message"; Key "role"] response_body
      = Some (JStr "assistant") /\
    at_path [Key "choices"; Index 0; Key "message"; Key "content"] response_body
      = Some (JStr text) /\
    (exists prompt_tokens,
       num_tokens_from_messages messages (resolved_model (config context) deployment_name)
         = Ok prompt_tokens /\
       at_path [Key "usage"; Key "prompt_tokens"] response_body
         = Some (JInt prompt_tokens)) /\
    at_path [Key "usage"; Key "completion_tokens"] response_body
      = Some (JInt (count_text text (resolved_model (config context) deployment_name))).
Proof.
  intros E.
  destruct (chat_inv _ _ _ _ E)
    as (path_params & deployment_name & fields & messages & P & w &
        Hm & Hp & Hb & Hi & HP & Hw & Lw).
  destruct (truthy (stream_of fields)) eqn:Hs.
  - rewrite (chat_run_stream _ s _ _ _ _ _ _ Hm Hp Hb Hi HP Hw Lw Hs) in E.
    discriminate E.
  - rewrite (chat_run_plain _ s _ _ _ _ _ _ Hm Hp Hb Hi HP Hw Lw Hs) in E.
    injection E as <- <- <- _.
    eexists _, path_params, deployment_name, fields, messages, _.
    split; [reflexivity |]. split; [reflexivity |]. split; [reflexivity |].
    repeat (split; [eassumption |]).
    split; [eexists; reflexivity |].
    do 6 (split; [reflexivity |]).
    split; [exists P; split; [exact HP | reflexivity] | reflexivity].
Qed.

End Usage.

Section PublishedCounts.

Context `{Externals}.

Hypothesis keys_distinct :
  NoDup [SIMULATOR_KEY_LIMITER; SIMULATOR_KEY_OPERATION_NAME;
         SIMULATOR_KEY_DEPLOYMENT_NAME; SIMULATOR_KEY_OPENAI_COMPLETION_TOKENS;
         SIMULATOR_KEY_OPENAI_TOTAL_TOKENS].

Ltac lookup_published :=
  apply published_lookup;
  [ first [ apply (embedding_keys_distinct keys_distinct)
          | apply (generation_keys_distinct keys_distinct) ]
  | unfold embedding_items, generation_items;
    repeat first [apply list_elem_of_here | apply list_elem_of_further] ].

(** X17: what a generator publishes agrees with what it answers: the
    deployment name written to [context.values] is the [deployment] path
    parameter, and the token counts written there are the [usage] counts of
    the response body -- the total for embeddings, the completion count and
    the total for completions and for chat completions that are not
    streamed. *)
Theorem published_matches_response context s r s' :
  (azure_openai_embedding context s = (Ok (Some r), s') ->
   exists response_data path_params deployment_name,
     r = Response 200 (json_dumps response_data) json_headers /\
     is_route_match (request context)
       "/openai/deployments/{deployment}/embeddings" ["POST"%string]
       = (true, path_params) /\
     path_params !! "deployment" = Some deployment_name /\
     values s' !! SIMULATOR_KEY_DEPLOYMENT_NAME = Some (JStr deployment_name) /\
     values s' !! SIMULATOR_KEY_OPENAI_TOTAL_TOKENS
       = at_path [Key "usage"; Key "total_tokens"] response_data) /\
  (azure_openai_completion context s = (Ok (Some r), s') ->
   exists response_body path_params deployment_name,
     r = Response 200 (json_dumps response_body) json_headers /\
     is_route_match (request context)
       "/openai/deployments/{deployment}/completions" ["POST"%string]
       = (true, path_params) /\
     path_params !! "deployment" = Some deployment_name /\
     values s' !! SIMULATOR_KEY_DEPLOYMENT_NAME = Some (JStr deployment_name) /\
     values s' !! SIMULATOR_KEY_OPENAI_COMPLETION_TOKENS
       = at_path [Key "usage"; Key "completion_tokens"] response_body /\
     values s' !! SIMULATOR_KEY_OPENAI_TOTAL_TOKENS
       = at_path [Key "usage"; Key "total_tokens"] response_body) /\
  (azure_openai_chat_completion context s = (Ok (Some r), s') ->
   (exists g, r = StreamingResponse g) \/
   exists response_body path_params deployment_name,
     r = Response 200 (json_dumps response_body) json_headers /\
     is_route_match (request context)
       "/openai/deployments/{deployment}/chat/completions" ["POST"%string]
       = (true, path_params) /\
     path_params !! "deployment" = Some deployment_name /\
     values s' !! SIMULATOR_KEY_DEPLOYMENT_NAME = Some (JStr deployment_name) /\
     values s' !! SIMULATOR_KEY_OPENAI_COMPLETION_TOKENS
       = at_path [Key "usage"; Key "completion_tokens"] response_body /\
     values s' !! SIMULATOR_KEY_OPENAI_TOTAL_TOKENS
       = at_path [Key "usage"; Key "total_tokens"] response_body).
Proof.
  split; [| split]; intros E.
  - destruct (embedding_inv _ _ _ _ E)
      as (path_params & deployment_name & fields & data & T & n & Hm & Hp & Hb & -> & ->).
    eexists _, path_params, deployment_name.
    split; [reflexivity |]. split; [exact Hm |]. split; [exact Hp |].
    split; [lookup_published |].
    change (at_path [Key "usage"; Key "total_tokens"] (embeddings_body data T))
      with (Some (JInt T)).
    lookup_published.
  - destruct (completion_inv _ _ _ _ E)
      as (path_params & deployment_name & fields & prompt & w & Hm & Hp & Hb & Hi & Hw & Lw).
    rewrite (completion_run _ s _ _ _ _ _ Hm Hp Hb Hi Hw Lw) in E.
    injection E as <- <-.
    eexists _, path_params, deployment_name.
    split; [reflexivity |]. split; [exact Hm |]. split; [exact Hp |].
    split; [lookup_published |].
    cbn [at_path field item completion_body assoc String.eqb Ascii.eqb Bool.eqb
           lookup list_lookup].
    split; lookup_published.
  - destruct (chat_inv _ _ _ _ E)
      as (path_params & deployment_name & fields & messages & P & w &
          Hm & Hp & Hb & Hi & HP & Hw & Lw).
    destruct (truthy (stream_of fields)) eqn:Hs.
    + rewrite (chat_run_stream _ s _ _ _ _ _ _ Hm Hp Hb Hi HP Hw Lw Hs) in E.
      injection E as <- _. left. eauto.
    + rewrite (chat_run_plain _ s _ _ _ _ _ _ Hm Hp Hb Hi HP Hw Lw Hs) in E.
      injection E as <- <-. right.
      eexists _, path_params, deployment_name.
      split; [reflexivity |]. split; [exact Hm |]. split; [exact Hp |].
      split; [lookup_published |].
      cbn [at_path field item chat_body assoc String.eqb Ascii.eqb Bool.eqb
             lookup list_lookup].
      split; lookup_published.
Qed.

End PublishedCounts.

(** ** The components of an embedding

    [(r - 0.5) * 4] in double precision, for [r] in the range of
    [random.random()]. *)

Lemma canonical_digits m e :
  canonical_mantissa prec emax m e = true ->
  -1074 <= e /\ Z.pos (digits2_pos m) <= 53 /\ (-1074 < e -> Z.pos (digits2_pos m) = 53).
Proof.
  unfold canonical_mantissa, fexp, SpecFloat.emin.
  change prec with 53. change emax with 1024. intros E%Z.eqb_eq. lia.
Qed.

(** What is left of [m * 2 ^ i] after [i] bits have been shifted out is
    [m], and nothing was lost. *)
Lemma shifted_exact m i mrs :
  0 <= i -> shifted (m * 2 ^ i) i mrs ->
  mrs = {| shr_m := m; shr_r := false; shr_s := false |}.
Proof.
  intros Li [Lm (T & E & R & S)]. destruct mrs as [sm r s]. cbn [shr_m shr_r shr_s] in *.
  assert (P : 0 < 2 ^ i) by (apply Z.pow_pos_nonneg; lia).
  assert (T0 : T = 0).
  { assert (ET : T = (2 * m - (2 * sm + Z.b2z r)) * 2 ^ i) by lia.
    destruct (Z.lt_trichotomy (2 * m - (2 * sm + Z.b2z r)) 0) as [N | [Z | G]].
    - assert ((2 * m - (2 * sm + Z.b2z r)) * 2 ^ i < 0) by (apply Z.mul_neg_pos; lia). lia.
    - rewrite Z in ET. lia.
    - assert (1 * 2 ^ i <= (2 * m - (2 * sm + Z.b2z r)) * 2 ^ i)
        by (apply Z.mul_le_mono_nonneg_r; lia).
      lia. }
  subst T. assert (2 * m = 2 * sm + Z.b2z r) by nia.
  assert (s = false) by (now apply S).
  destruct r; cbn [Z.b2z] in *; [lia |]. f_equal; [lia | assumption].
Qed.

(** Rounding a mantissa of 53 bits at most: nothing is lost. *)
Lemma binary_round_short s N e :
  Z.pos (digits2_pos N) <= 53 ->
  -1074 <= Z.pos (digits2_pos N) + e - 53 <= 971 ->
  exists mz,
    binary_round prec emax s N e = S754_finite s mz (Z.pos (digits2_pos N) + e - 53) /\
    Z.pos (digits2_pos mz) = 53.
Proof.
  intros D R. unfold binary_round. rewrite fexp_normal by lia.
  unfold shl_align.
  destruct (Z.pos (digits2_pos N) + e - 53 - e) as [| p | p] eqn:Es; [| lia |].
  - exists N. assert (D53 : Z.pos (digits2_pos N) = 53) by lia.
    replace (Z.pos (digits2_pos N) + e - 53) with e by lia.
    split; [apply binary_round_aux_exact; lia | exact D53].
  - exists (Pos.iter xO N p).
    assert (Dz : Z.pos (digits2_pos (Pos.iter xO N p)) = 53).
    { apply digits2_pos_unique. rewrite iter_xO.
      pose proof (digits2_pos_bounds N) as [L U].
      assert (Ep : Z.pos (digits2_pos N) + Z.pos p = 53) by lia.
      assert (E1 : 2 ^ (53 - 1) = 2 ^ (Z.pos (digits2_pos N) - 1) * 2 ^ Z.pos p)
        by (rewrite <- Z.pow_add_r by lia; f_equal; lia).
      assert (E2 : 2 ^ 53 = 2 ^ Z.pos (digits2_pos N) * 2 ^ Z.pos p)
        by (rewrite <- Z.pow_add_r by lia; f_equal; lia).
      rewrite E1, E2.
      assert (0 < 2 ^ Z.pos p) by (apply Z.pow_pos_nonneg; lia).
      split; [apply Z.mul_le_mono_nonneg_r | apply Z.mul_lt_mono_pos_r]; lia. }
    split; [apply binary_round_aux_exact; [exact Dz | lia] | exact Dz].
Qed.

(** Rounding a mantissa of more than 53 bits: the result has 53 bits, at
    the exponent the shift gives, or it is the next power of two. *)
Lemma binary_round_long s N e sh :
  Z.pos (digits2_pos N) = 53 + Z.pos sh ->
  -1074 <= e + Z.pos sh -> e + Z.pos sh < 971 ->
  exists m3 e3,
    binary_round prec emax s N e = S754_finite s m3 e3 /\
    Z.pos (digits2_pos m3) = 53 /\
    (e3 = e + Z.pos sh \/ (e3 = e + Z.pos sh + 1 /\ m3 = 4503599627370496%positive)).
Proof.
  intros D L U. unfold binary_round. rewrite D, fexp_normal by lia.
  unfold shl_align.
  replace (53 + Z.pos sh + e - 53 - e) with (Z.pos sh) by lia.
  unfold binary_round_aux.
  assert (F : shr_fexp prec emax (Z.pos N) e loc_Exact =
              (SpecFloat.iter_pos shr_1 sh {| shr_m := Z.pos N; shr_r := false; shr_s := false |},
               e + Z.pos sh)).
  { unfold shr_fexp. cbn [Zdigits2 shr_record_of_loc]. rewrite D, fexp_normal by lia.
    replace (53 + Z.pos sh + e - 53 - e) with (Z.pos sh) by lia. reflexivity. }
  rewrite F. clear F.
  set (mrs := SpecFloat.iter_pos shr_1 sh _).
  assert (S : shifted (Z.pos N) (Z.pos sh) mrs).
  { change (Z.pos sh) with (0 + Z.pos sh). apply shifted_iter; [lia |].
    apply shifted_start. lia. }
  destruct (round_nearest_even_bounds _ _ _ S) as [B R].
  set (m2 := round_nearest_even (shr_m mrs) (loc_of_shr_record mrs)) in *.
  assert (P : 0 < 2 ^ Z.pos sh) by (apply Z.pow_pos_nonneg; lia).
  assert (G : 2 ^ 52 <= m2 <= 2 ^ 53).
  { pose proof (digits2_pos_bounds N) as [LM UM]. rewrite D in LM, UM.
    replace (53 + Z.pos sh - 1) with (52 + Z.pos sh) in LM by lia.
    rewrite Z.pow_add_r in LM, UM by lia.
    destruct S as [Lm (T & E & RT & _)].
    assert (shr_m mrs * 2 ^ Z.pos sh <= Z.pos N < (shr_m mrs + 1) * 2 ^ Z.pos sh)
      by (destruct (shr_r mrs); cbn [Z.b2z] in E; lia).
    assert (2 ^ 52 < shr_m mrs + 1)
      by (apply (Z.mul_lt_mono_pos_r (2 ^ Z.pos sh)); lia).
    assert (shr_m mrs < 2 ^ 53)
      by (apply (Z.mul_lt_mono_pos_r (2 ^ Z.pos sh)); lia).
    lia. }
  destruct m2 as [| q | q] eqn:Em2; [cbn in G; lia | | cbn in G; lia].
  change (2 ^ 52) with 4503599627370496 in G.
  change (2 ^ 53) with 9007199254740992 in G.
  destruct (Pos.eq_dec q 9007199254740992%positive) as [-> | Ne].
  - exists 4503599627370496%positive, (e + Z.pos sh + 1).
    split; [| split; [reflexivity | right; split; reflexivity]].
    unfold shr_fexp. cbn [Zdigits2].
    change (Z.pos (digits2_pos 9007199254740992)) with 54.
    rewrite fexp_normal by lia.
    replace (54 + (e + Z.pos sh) - 53 - (e + Z.pos sh)) with 1 by lia.
    cbn [shr_record_of_loc shr SpecFloat.iter_pos shr_1 shr_m].
    change (emax - prec) with 971.
    destruct (Z.leb_spec (e + Z.pos sh + 1) 971); [reflexivity | lia].
  - exists q, (e + Z.pos sh).
    assert (Dq : Z.pos (digits2_pos q) = 53).
    { apply digits2_pos_unique. change (2 ^ (53 - 1)) with 4503599627370496.
      change (2 ^ 53) with 9007199254740992.
      assert (Z.pos q <> 9007199254740992) by congruence. lia. }
    split; [| split; [exact Dq | now left]].
    rewrite (shr_fexp_none _ _ _ Dq L). cbn [shr_record_of_loc shr_m].
    change (emax - prec) with 971.
    destruct (Z.leb_spec (e + Z.pos sh) 971); [reflexivity | lia].
Qed.

(** Multiplying a normal float by four adds two to its exponent. *)
Lemma times_four s m e :
  Z.pos (digits2_pos m) = 53 -> -1074 <= e <= 969 ->
  SF64mul (S754_finite s m e) (S754_finite false 4503599627370496 (-50)) =
  S754_finite s m (e + 2).
Proof.
  intros D R. unfold SF64mul, SFmul. rewrite Bool.xorb_false_r.
  unfold binary_round_aux.
  assert (Em : Z.pos (m * 4503599627370496) = Z.pos m * 2 ^ 52) by reflexivity.
  assert (Dm : Z.pos (digits2_pos (m * 4503599627370496)) = 105).
  { apply digits2_pos_unique. rewrite Em.
    pose proof (digits2_pos_bounds m) as [L U]. rewrite D in L, U.
    change (2 ^ (105 - 1)) with (2 ^ 52 * 2 ^ 52).
    change (2 ^ 105) with (2 ^ 53 * 2 ^ 52). change (53 - 1) with 52 in L.
    split; [apply Z.mul_le_mono_nonneg_r | apply Z.mul_lt_mono_pos_r]; lia. }
  assert (F : shr_fexp prec emax (Z.pos (m * 4503599627370496)) (e + -50) loc_Exact =
              ({| shr_m := Z.pos m; shr_r := false; shr_s := false |}, e + 2)).
  { unfold shr_fexp. cbn [Zdigits2 shr_record_of_loc]. rewrite Dm, fexp_normal by lia.
    replace (105 + (e + -50) - 53 - (e + -50)) with 52 by lia.
    unfold shr. f_equal; [| lia].
    apply (shifted_exact (Z.pos m) 52); [lia |].
    rewrite Em. change 52 with (0 + 52) at 2. apply shifted_iter; [lia |].
    apply shifted_start. lia. }
  rewrite F. cbn [shr_m loc_of_shr_record round_nearest_even].
  rewrite (shr_fexp_none _ _ _ D) by lia. cbn [shr_record_of_loc shr_m].
  change (emax - prec) with 971.
  destruct (Z.leb_spec (e + 2) 971); [reflexivity | lia].
Qed.

Lemma half_bits : Prim2SF 0.5%float = S754_finite false 4503599627370496 (-53).
Proof. vm_compute. reflexivity. Qed.

Lemma one_bits : Prim2SF 1%float = S754_finite false 4503599627370496 (-52).
Proof. vm_compute. reflexivity. Qed.

Lemma two_bits : Prim2SF 2%float = S754_finite false 4503599627370496 (-51).
Proof. vm_compute. reflexivity. Qed.

Lemma minus_two_bits : Prim2SF (-2)%float = S754_finite true 4503599627370496 (-51).
Proof. vm_compute. reflexivity. Qed.

Lemma four_bits : Prim2SF 4%float = S754_finite false 4503599627370496 (-50).
Proof. vm_compute. reflexivity. Qed.

Lemma zero_bits : Prim2SF 0%float = S754_zero false.
Proof. vm_compute. reflexivity. Qed.

(** A float in the range of [random.random()] is a zero or a positive
    float below the exponent of 1. *)
Lemma unit_interval_bits r :
  unit_interval r ->
  (exists s, Prim2SF r = S754_zero s) \/
  exists m e,
    Prim2SF r = S754_finite false m e /\ e <= -53 /\
    canonical_mantissa prec emax m e = true.
Proof.
  intros [L U]. rewrite leb_spec, zero_bits in L. rewrite ltb_spec, one_bits in U.
  pose proof (Prim2SF_valid r) as V.
  destruct (Prim2SF r) as [s | s | | s m e].
  - left. eauto.
  - destruct s; discriminate.
  - discriminate.
  - right. destruct s; [discriminate |].
    cbn [valid_binary] in V. unfold bounded in V.
    apply andb_prop in V as [C _].
    exists m, e. split; [reflexivity |]. split; [| exact C].
    unfold SFltb, SFcompare in U.
    destruct (e ?= -52) eqn:Ec; [| change (e < -52) in Ec; lia | discriminate U].
    apply Z.compare_eq in Ec. subst e. exfalso.
    apply canonical_digits in C as (_ & _ & N).
    specialize (N ltac:(lia)).
    pose proof (digits2_pos_bounds m) as [Lm _]. rewrite N in Lm.
    change (2 ^ (53 - 1)) with 4503599627370496 in Lm.
    rewrite Pos.compare_cont_spec in U. revert U.
    destruct (Pos.compare_spec m 4503599627370496) as [E | Lt | Gt];
      cbn [Pos.switch_Eq]; intros U; try discriminate U.
    apply Pos2Z.pos_lt_pos in Lt. lia.
Qed.

(** The three shapes of [r - 0.5] for [r] in the range of
    [random.random()]: zero, a positive float below [0.5], or a negative
    one down to [-0.5]. *)
Lemma sub_half_bits r :
  unit_interval r ->
  Prim2SF (r - 0.5)%float = S754_zero false \/
  (exists m e,
     Prim2SF (r - 0.5)%float = S754_finite false m e /\
     Z.pos (digits2_pos m) = 53 /\ -1074 <= e <= -54) \/
  (exists m e,
     Prim2SF (r - 0.5)%float = S754_finite true m e /\
     Z.pos (digits2_pos m) = 53 /\ -1074 <= e /\
     (e <= -54 \/ (e = -53 /\ m = 4503599627370496%positive))).
Proof.
  intros I. rewrite sub_spec, half_bits.
  destruct (unit_interval_bits r I) as [(s & ->) | (m & e & -> & Le & C)].
  { right. right. exists 4503599627370496%positive, (-53).
    split; [reflexivity |]. split; [reflexivity |]. split; [lia |]. right. now split. }
  apply canonical_digits in C as (Lo & Dm & Dn).
  pose proof (digits2_pos_bounds m) as [Lm Um].
  assert (Um' : Z.pos m < 2 ^ 53).
  { assert (2 ^ Z.pos (digits2_pos m) <= 2 ^ 53) by (apply Z.pow_le_mono_r; lia). lia. }
  change (2 ^ 53) with 9007199254740992 in Um'.
  unfold SF64sub, SFsub. cbn [cond_Zopp]. rewrite Z.min_l by lia.
  assert (A1 : shl_align m e e = (m, e)) by (unfold shl_align; now rewrite Z.sub_diag).
  rewrite A1. cbn [fst]. clear A1.
  destruct (Z.eq_dec e (-53)) as [-> | Ne].
  - (* r in [0.5, 1) *)
    change (shl_align 4503599627370496 (-53) (-53))
      with (4503599627370496%positive, -53). cbn [fst].
    rewrite (Dn ltac:(lia)) in Lm. change (2 ^ (53 - 1)) with 4503599627370496 in Lm.
    destruct (Z.pos m - 4503599627370496) as [| N | N] eqn:EM; [| | lia].
    + left. reflexivity.
    + right. left. cbn [binary_normalize].
      pose proof (digits2_pos_bounds N) as [LN UN].
      assert (DN : Z.pos (digits2_pos N) <= 52).
      { destruct (Z.le_gt_cases (Z.pos (digits2_pos N)) 52) as [| G]; [assumption |].
        assert (2 ^ 52 <= 2 ^ (Z.pos (digits2_pos N) - 1)) by (apply Z.pow_le_mono_r; lia).
        change (2 ^ 52) with 4503599627370496 in *. lia. }
      destruct (binary_round_short false N (-53)) as (mz & R & Dz); [lia | lia |].
      exists mz, (Z.pos (digits2_pos N) + -53 - 53).
      split; [exact R |]. split; [exact Dz | lia].
  - (* r below 0.5 *)
    right. right.
    assert (Ex : exists p, e = -53 - Z.pos p) by (exists (Z.to_pos (-53 - e)); lia).
    destruct Ex as (p & Ee).
    assert (A2 : shl_align 4503599627370496 (-53) e
                 = (Pos.iter xO 4503599627370496%positive p, e)).
    { unfold shl_align. replace (e - -53) with (Z.neg p) by lia. reflexivity. }
    rewrite A2. cbn [fst]. clear A2.
    pose proof (iter_xO 4503599627370496%positive p) as EY.
    assert (P2 : 2 <= 2 ^ Z.pos p).
    { change 2 with (2 ^ 1) at 1. apply Z.pow_le_mono_r; lia. }
    destruct (Z.pos m - Z.pos (Pos.iter xO 4503599627370496%positive p))
      as [| N | N] eqn:EM;
      [lia | lia |].
    cbn [binary_normalize].
    assert (EN : Z.pos N = 4503599627370496 * 2 ^ Z.pos p - Z.pos m) by lia.
    pose proof (digits2_pos_bounds N) as [LN UN].
    destruct (Pos.eq_dec p 1%positive) as [-> | Np].
    + (* the exponent just below that of 0.5: the difference is exact *)
      change (2 ^ 1) with 2 in EN.
      rewrite (Dn ltac:(lia)) in Lm. change (2 ^ (53 - 1)) with 4503599627370496 in Lm.
      assert (DN : Z.pos (digits2_pos N) <= 53).
      { destruct (Z.le_gt_cases (Z.pos (digits2_pos N)) 53) as [| G]; [assumption |].
        assert (2 ^ 53 <= 2 ^ (Z.pos (digits2_pos N) - 1)) by (apply Z.pow_le_mono_r; lia).
        change (2 ^ 53) with 9007199254740992 in *. lia. }
      destruct (binary_round_short true N e) as (mz & R & Dz); [lia | lia |].
      exists mz, (Z.pos (digits2_pos N) + e - 53).
      split; [exact R |]. split; [exact Dz |]. split; [lia |]. left. lia.
    + (* further down: the difference has more than 53 bits *)
      assert (Lp : 2 <= Z.pos p) by lia.
      assert (P4 : 4 <= 2 ^ Z.pos p).
      { change 4 with (2 ^ 2). apply Z.pow_le_mono_r; lia. }
      set (sh := Z.to_pos (Z.pos p - 1)).
      assert (Esh : Z.pos sh = Z.pos p - 1) by (subst sh; lia).
      assert (DN : Z.pos (digits2_pos N) = 53 + Z.pos sh).
      { apply digits2_pos_unique. rewrite Esh.
        replace (53 + (Z.pos p - 1) - 1) with (51 + Z.pos p) by lia.
        replace (53 + (Z.pos p - 1)) with (52 + Z.pos p) by lia.
        rewrite !Z.pow_add_r by lia.
        change (2 ^ 51) with 2251799813685248. change (2 ^ 52) with 4503599627370496.
        lia. }
      destruct (binary_round_long true N e sh DN) as (m3 & e3 & R & D3 & E3); [lia | lia |].
      exists m3, e3. split; [exact R |]. split; [exact D3 |].
      split; [lia |]. destruct E3 as [-> | [-> ->]]; [left; lia | right; split; [lia | reflexivity]].
Qed.

(** [(r - 0.5) * 4] lies in [-2.0 <= x < 2.0] for every [r] in the range
    of [random.random()]. *)
Lemma component_in_range r :
  unit_interval r -> in_range ((r - 0.5) * 4)%float.
Proof.
  intros I. unfold in_range.
  rewrite leb_spec, ltb_spec, mul_spec, minus_two_bits, two_bits, four_bits.
  destruct (sub_half_bits r I)
    as [-> | [(m & e & -> & D & R) | (m & e & -> & D & Lo & Hi)]].
  - split; reflexivity.
  - rewrite (times_four false m e D) by lia. split; [reflexivity |].
    unfold SFltb, SFcompare.
    destruct (Z.compare_spec (e + 2) (-51)) as [E | L | G]; [lia | reflexivity | lia].
  - rewrite (times_four true m e D) by lia. split; [| reflexivity].
    unfold SFleb, SFcompare.
    destruct (Z.compare_spec (-51) (e + 2)) as [E | L | G]; [| lia | reflexivity].
    destruct Hi as [Hi | [_ ->]]; [lia | reflexivity].
Qed.

Section Range.

Context `{Externals}.

Hypothesis random_in_unit_interval : forall k, unit_interval (random_random k).

Lemma embedding_object_ranged index d : ranged (embedding_object index d).
Proof.
  eexists. split; [reflexivity |].
  apply Forall_forall. intros x I. apply list_elem_of_fmap in I as (k & -> & _).
  eexists. split; [reflexivity |]. apply component_in_range, random_in_unit_interval.
Qed.

Lemma embedding_objects_ranged n : forall index d,
  Forall ranged (embedding_objects index d n).
Proof.
  induction n as [| n IH]; intros index d; cbn [embedding_objects]; constructor;
    [apply embedding_object_ranged | apply IH].
Qed.

(** X18: when [random.random()] keeps to its range, [0.0 <= r < 1.0],
    every component [(r - 0.5) * 4] of every vector of every embeddings
    response is a float [x] with [-2.0 <= x < 2.0], in double precision as
    the code computes it. *)
Theorem embedding_components_in_range context s r s' :
  azure_openai_embedding context s = (Ok (Some r), s') ->
  exists data T,
    r = Response 200 (json_dumps (embeddings_body data T)) json_headers /\
    Forall ranged data.
Proof.
  intros E. destruct (embedding_inv_data _ _ _ _ E) as (n & T & -> & _).
  exists (embedding_objects 0 (draws s) n), T.
  split; [reflexivity | apply embedding_objects_ranged].
Qed.

End Range.

(** * The statements on the reference collaborators *)

Import Reference.

(** C1, at its failing input: a chat completion with [stream] set to true,
    handled to its end on a fresh state, returns the stream and leaves
    [context.values] empty -- no limiter key, no operation name, no
    deployment name, no token count -- and running the stream to its end
    leaves it empty still. *)
Theorem streaming_chat_publishes_nothing :
  exists g s' yielded s'',
    azure_openai_chat_completion (chat_request 10 true) Reference.fresh
      = (Ok (Some (StreamingResponse g)), s') /\
    values s' = ∅ /\
    send_words g s' = (Ok yielded, s'') /\
    values s'' = ∅.
Proof.
  eexists _, _, _, _.
  split; [vm_compute; reflexivity |].
  split; [reflexivity |].
  split; [vm_compute; reflexivity |]. reflexivity.
Qed.

(** The resolver on an unregistered name, from a fresh state, and on a
    registered one. *)
Lemma resolver_default_warns_once_witness :
  (exists s1,
     get_model_name_from_deployment_name (chat_request 10 false) "dep-x" Reference.fresh
       = (Ok "gpt-3.5-turbo-0613"%string, s1) /\
     missing_deployment_names s1 = {["dep-x"%string]} ∪ ∅ /\
     warnings s1 = [missing_warning "dep-x"] /\
     get_model_name_from_deployment_name (chat_request 10 false) "dep-x" s1
       = (Ok "gpt-3.5-turbo-0613"%string, s1)) /\
  get_model_name_from_deployment_name registered_context "gpt4" Reference.fresh
    = (Ok "gpt-4"%string, Reference.fresh).
Proof.
  split.
  - destruct (resolver_default_warns_once (chat_request 10 false) "dep-x" Reference.fresh)
      as (_ & U & _).
    destruct (U eq_refl) as (s1 & R & I & W & _ & R2).
    exists s1. split; [exact R |]. split; [exact I |]. split; [| exact R2].
    apply W. apply not_elem_of_empty.
  - destruct (resolver_default_warns_once registered_context "gpt4" Reference.fresh)
      as (_ & _ & G).
    apply (G {| model := "gpt-4" |}). vm_compute. reflexivity.
Defined.

(** An embeddings request for the two inputs ["a"] and ["b"]. *)
Lemma embedding_list_response_witness :
  exists data s',
    azure_openai_embedding (embedding_request (JArr [JStr "a"; JStr "b"])) Reference.fresh =
      (Ok (Some (Response 200
                   (json_dumps
                      (JObj [("object", JStr "list");
                             ("data", JArr data);
                             ("model", JStr "ada");
                             ("usage", JObj [("prompt_tokens", JInt 2);
                                             ("total_tokens", JInt 2)])]))
                   [("Content-Type", "application/json")%string])), s') /\
    length data = 2%nat /\
    (exists e, data !! 0%nat = Some e /\ field "index" e = Some (JInt 0)) /\
    (exists e, data !! 1%nat = Some e /\ field "index" e = Some (JInt 1)).
Proof.
  destruct (embedding_list_response
              (embedding_request (JArr [JStr "a"; JStr "b"])) Reference.fresh
              {["deployment" := "dep-x"]} "dep-x"
              [("input", JArr [JStr "a"; JStr "b"])] ["a"; "b"]%string)
    as (data & s' & R & L & I & _);
    [vm_compute; reflexivity | vm_compute; reflexivity | reflexivity | reflexivity |].
  exists data, s'. split; [exact R |]. split; [exact L |].
  split; [apply (I 0%nat) | apply (I 1%nat)]; cbn; lia.
Defined.

(** The stream over the text ["lorem ipsum"]. *)
Lemma stream_one_chunk_per_word_witness :
  exists chunks,
    send_words {| closure_words := "lorem ipsum"; closure_model_name := "gpt-4" |}
      Reference.fresh
      = (Ok (sse_frames chunks ++ ["[DONE]"%string]), advance 4 Reference.fresh) /\
    length chunks = 2%nat /\
    (exists c, chunks !! 0%nat = Some c /\ delta_content c = Some (JStr "lorem")) /\
    (exists c, chunks !! 1%nat = Some c /\ delta_content c = Some (JStr " ipsum")).
Proof.
  destruct (stream_one_chunk_per_word "gpt-4" ["lorem"; "ipsum"]%string Reference.fresh)
    as (chunks & R & L & C & _).
  - discriminate.
  - repeat constructor; unfold spaceless; cbn; intuition discriminate.
  - exists chunks. split; [exact R |]. split; [exact L |].
    split; [apply (C 0%nat) | apply (C 1%nat)]; reflexivity.
Defined.

(** C4 as stated fails for a text of no words: the stream over the empty
    text emits one chunk, with the empty string as its delta content, before
    ["[DONE]"]; it cannot be read as emitting no chunk. *)
Lemma stream_of_no_words_emits_a_chunk :
  let g := {| closure_words := join_space []; closure_model_name := "gpt-4" |} in
  (exists c,
     send_words g Reference.fresh
       = (Ok (sse_frames [c] ++ ["[DONE]"%string]), advance 2 Reference.fresh) /\
     delta_content c = Some (JStr "")) /\
  ~ (exists chunks,
       fst (send_words g Reference.fresh) = Ok (sse_frames chunks ++ ["[DONE]"%string]) /\
       length chunks = length (@nil string)).
Proof.
  split.
  - eexists. split; reflexivity.
  - intros (chunks & R & L). destruct chunks; [| discriminate L].
    vm_compute in R. discriminate R.
Qed.

(** A completion of ten tokens at most for the prompt ["hello"]. *)
Lemma completion_response_witness :
  exists r s',
    azure_openai_completion
      (completion_request [("prompt", JStr "hello"); ("max_tokens", JInt 10)]) fresh
      = (Ok (Some r), s') /\
    exists response_body,
      r = Response 200 (json_dumps response_body)
            [("Content-Type", "application/json")%string] /\
      at_path [Key "object"] response_body = Some (JStr "text_completion") /\
      at_path [Key "choices"; Index 0; Key "finish_reason"] response_body
        = Some (JStr "length") /\
      at_path [Key "choices"; Index 0; Key "logprobs"] response_body = Some JNull.
Proof.
  eassert (E : azure_openai_completion _ fresh = _).
  { apply (completion_run
             (completion_request [("prompt", JStr "hello"); ("max_tokens", JInt 10)])
             fresh {["deployment" := "dep-x"]} "dep-x"
             [("prompt", JStr "hello"); ("max_tokens", JInt 10)] "hello" 7);
      [vm_compute | vm_compute | | | vm_compute | ]; (reflexivity || discriminate). }
  cbv zeta in E. eexists _, _. split; [exact E |].
  destruct (completion_response _ _ _ _ E)
    as (response_body & _ & _ & R & _ & _ & _ & F & L & _ & O & _).
  exists response_body. auto.
Defined.

(** A chat completion of ten tokens at most, not streamed. *)
Lemma chat_response_safe_witness :
  exists content s',
    azure_openai_chat_completion (chat_request 10 false) fresh
      = (Ok (Some (Response 200 content [("Content-Type", "application/json")%string])), s') /\
    exists response_body choice,
      content = json_dumps response_body /\
      at_path [Key "choices"] response_body = Some (JArr [choice]) /\
      at_path [Key "content_filter_results"; Key "hate"; Key "filtered"] choice
        = Some (JBool false) /\
      at_path [Key "finish_reason"] choice = Some (JStr "length").
Proof.
  eassert (E : azure_openai_chat_completion _ fresh = _).
  { apply (chat_run_plain (chat_request 10 false) fresh {["deployment" := "dep-x"]} "dep-x"
             [("messages", JArr [JObj [("role", JStr "user"); ("content", JStr "hi")]]);
              ("max_tokens", JInt 10); ("stream", JBool false)]
             (JArr [JObj [("role", JStr "user"); ("content", JStr "hi")]]) 8 7);
      [vm_compute | vm_compute | | | vm_compute | vm_compute | | ];
      (reflexivity || discriminate). }
  cbv zeta in E. eexists _, _. split; [exact E |].
  destruct (chat_response_safe _ _ _ _ _ _ E)
    as (response_body & prompt_filter & choice & _ & R & _ & _ & C & S & F & _).
  exists response_body, choice. split; [exact R |]. split; [exact C |].
  split; [| exact F]. cbn [at_path] in S |- *.
  destruct (field "content_filter_results" choice) as [four |]; [| discriminate S].
  injection S as ->. reflexivity.
Defined.

(** A [max_tokens] of 10 gives the seven words of [floor (0.72 * 10)]. *)
Lemma filler_words_floor_witness :
  exists response_body s',
    azure_openai_completion
      (completion_request [("prompt", JStr "hello"); ("max_tokens", JInt 10)]) fresh =
      (Ok (Some (Response 200 (json_dumps response_body)
                   [("Content-Type", "application/json")%string])), s') /\
    at_path [Key "choices"; Index 0; Key "text"] response_body
      = Some (JStr "lorem ipsum dolor sit amet lorem ipsum") /\
    floor_072 10 = 7.
Proof.
  destruct (filler_words_floor
              (completion_request [("prompt", JStr "hello"); ("max_tokens", JInt 10)])
              fresh {["deployment" := "dep-x"]} "dep-x"
              [("prompt", JStr "hello"); ("max_tokens", JInt 10)] 10)
    as (_ & _ & C & _);
    [reflexivity | vm_compute; reflexivity | reflexivity | split; [discriminate | reflexivity] |].
  destruct (C "hello"%string) as (response_body & s' & R & T);
    [vm_compute; reflexivity | reflexivity |].
  exists response_body, s'. split; [exact R |]. split; [exact T | reflexivity].
Defined.

(** C7 as stated fails for a negative [max_tokens]: [int] truncates
    towards zero, so for [-1] no word is generated and the completion text
    is empty, while [floor (0.72 * -1)] is [-1].  It fails for a very large
    one as well, where the product of doubles is no longer exact enough:
    for [2 ^ 51 + 20] the budget is one more than the floor. *)
Lemma negative_max_tokens_truncates :
  (tokens_to_words (JInt (-1)) = Ok 0 /\
   floor_072 (-1) = -1 /\
   exists id created s',
     azure_openai_completion
       (completion_request [("prompt", JStr "hello"); ("max_tokens", JInt (-1))]) fresh =
       (Ok (Some (Response 200
                    (json_dumps (completion_body id created "gpt-3.5-turbo-0613" "" 5 0))
                    [("Content-Type", "application/json")%string])), s') /\
     draws s' = 2%nat) /\
  (tokens_to_words (JInt 2251799813685268) = Ok 1621295865853393 /\
   floor_072 2251799813685268 = 1621295865853392).
Proof.
  split; [| split; vm_compute; reflexivity].
  split; [vm_compute; reflexivity |]. split; [reflexivity |].
  eexists _, _, _. split.
  - rewrite (completion_run
               (completion_request [("prompt", JStr "hello"); ("max_tokens", JInt (-1))])
               fresh {["deployment" := "dep-x"]} "dep-x"
               [("prompt", JStr "hello"); ("max_tokens", JInt (-1))] "hello" 0);
      [| vm_compute | vm_compute | | | vm_compute | ]; reflexivity.
  - reflexivity.
Qed.

(** A [GET] request matches none of the three routes. *)
Lemma route_mismatch_no_work_witness :
  let context :=
    {| request := {| method := "GET";
                     url_path := "/openai/deployments/dep-x/embeddings";
                     body := None;
                     body_error := JSONDecodeError |};
       config := no_deployments |} in
  azure_openai_embedding context fresh = (Ok None, fresh) /\
  azure_openai_completion context fresh = (Ok None, fresh) /\
  azure_openai_chat_completion context fresh = (Ok None, fresh).
Proof.
  cbv zeta.
  match goal with
  | |- azure_openai_embedding ?context _ = _ /\ _ =>
      destruct (route_mismatch_no_work context fresh) as (E & C & G)
  end.
  split; [apply E | split; [apply C | apply G]]; vm_compute; reflexivity.
Defined.

(** A streamed chat completion with a [max_tokens] of 1. *)
Lemma stream_zero_words_one_empty_chunk_witness :
  exists g s' c,
    azure_openai_chat_completion (chat_request 1 true) fresh
      = (Ok (Some (StreamingResponse g)), s') /\
    closure_words g = ""%string /\
    send_words g s' =
      (Ok [("data: " +:+ json_dumps c +:+ newline); newline; "[DONE]"%string],
       advance 2 s') /\
    delta_content c = Some (JStr "").
Proof.
  destruct stream_zero_words_one_empty_chunk as (_ & Z).
  apply (Z (chat_request 1 true) fresh {["deployment" := "dep-x"]} "dep-x"
           [("messages", JArr [JObj [("role", JStr "user"); ("content", JStr "hi")]]);
            ("max_tokens", JInt 1); ("stream", JBool true)]
           (JArr [JObj [("role", JStr "user"); ("content", JStr "hi")]]) 8);
    [vm_compute | vm_compute | | | vm_compute | vm_compute | ]; reflexivity.
Defined.

(** ** The further properties on the reference collaborators *)

(** The reference matcher on the three routes, for the deployment
    [dep-x]. *)
Lemma embeddings_route b x :
  is_route_match
    {| method := "POST"; url_path := "/openai/deployments/dep-x/embeddings"; body := b;
       body_error := x |}
    "/openai/deployments/{deployment}/embeddings" ["POST"%string]
  = (true, {["deployment" := "dep-x"]}).
Proof. vm_compute. reflexivity. Qed.

Lemma completions_route b x :
  is_route_match
    {| method := "POST"; url_path := "/openai/deployments/dep-x/completions"; body := b;
       body_error := x |}
    "/openai/deployments/{deployment}/completions" ["POST"%string]
  = (true, {["deployment" := "dep-x"]}).
Proof. vm_compute. reflexivity. Qed.

Lemma chat_route b x :
  is_route_match
    {| method := "POST"; url_path := "/openai/deployments/dep-x/chat/completions";
       body := b; body_error := x |}
    "/openai/deployments/{deployment}/chat/completions" ["POST"%string]
  = (true, {["deployment" := "dep-x"]}).
Proof. vm_compute. reflexivity. Qed.

Lemma dep_x_param :
  ({["deployment" := "dep-x"]} : gmap string string) !! "deployment"%string
  = Some "dep-x"%string.
Proof. vm_compute. reflexivity. Qed.

(** Embeddings requests for the unregistered deployment [dep-x], from a
    fresh state: one that is answered, and one that fails for want of an
    [input] after the resolver has run. *)
Lemma embedding_model_ada_resolver_runs_witness :
  (exists r s',
     azure_openai_embedding (embedding_request (JStr "hello")) fresh = (Ok (Some r), s') /\
     (exists response_data,
        r = Response 200 (json_dumps response_data)
              [("Content-Type", "application/json")%string] /\
        at_path [Key "model"] response_data = Some (JStr "ada")) /\
     missing_deployment_names s' = {["dep-x"%string]} ∪ ∅ /\
     warnings s' = [missing_warning "dep-x"]) /\
  (exists s',
     azure_openai_embedding (post "/openai/deployments/dep-x/embeddings" (JObj [])) fresh
       = (Raise (KeyError "input"), s') /\
     missing_deployment_names s' = {["dep-x"%string]} ∪ ∅ /\
     warnings s' = [missing_warning "dep-x"]).
Proof.
  split.
  - eassert (E : azure_openai_embedding _ fresh = _).
    { apply (embedding_run_string (embedding_request (JStr "hello")) fresh
               {["deployment" := "dep-x"]} "dep-x" [("input", JStr "hello")] "hello");
        [exact (embeddings_route _ _) | exact dep_x_param | reflexivity | reflexivity]. }
    cbv zeta in E. eexists _, _. split; [exact E |].
    destruct (embedding_model_ada_resolver_runs
                (embedding_request (JStr "hello")) fresh {["deployment" := "dep-x"]} "dep-x"
                (JObj [("input", JStr "hello")]) _ _
                (embeddings_route _ _) dep_x_param eq_refl E)
      as (A & _ & U).
    destruct (U eq_refl) as (I & W & _).
    split; [exact (A _ eq_refl) |].
    split; [exact I | apply W, not_elem_of_empty].
  - eassert (E : azure_openai_embedding _ fresh = _).
    { apply (embedding_getitem_fail
               (post "/openai/deployments/dep-x/embeddings" (JObj [])) fresh
               {["deployment" := "dep-x"]} "dep-x" (JObj []) (KeyError "input"));
        [exact (embeddings_route _ _) | exact dep_x_param | reflexivity | reflexivity]. }
    eexists. split; [exact E |].
    destruct (embedding_model_ada_resolver_runs
                (post "/openai/deployments/dep-x/embeddings" (JObj [])) fresh
                {["deployment" := "dep-x"]} "dep-x" (JObj []) _ _
                (embeddings_route _ _) dep_x_param eq_refl E)
      as (_ & _ & U).
    destruct (U eq_refl) as (I & W & _).
    split; [exact I | apply W, not_elem_of_empty].
Defined.

(** C9 as stated fails for a request whose body does not parse: the
    embeddings generator reads the body before it resolves the deployment,
    so the request for the unregistered deployment [dep-x] raises with the
    name not recorded and no warning logged. *)
Lemma embedding_unparsed_body_resolves_nothing :
  let context :=
    {| request := {| method := "POST";
                     url_path := "/openai/deployments/dep-x/embeddings";
                     body := None;
                     body_error := JSONDecodeError |};
       config := no_deployments |} in
  is_route_match (request context)
    "/openai/deployments/{deployment}/embeddings" ["POST"%string]
    = (true, {["deployment" := "dep-x"]}) /\
  registry_lookup (config context) "dep-x" = None /\
  exists e s',
    azure_openai_embedding context fresh = (Raise e, s') /\
    ("dep-x"%string ∉ missing_deployment_names s') /\
    warnings s' = [].
Proof.
  cbv zeta. split; [exact (embeddings_route _ _) |]. split; [reflexivity |].
  exists JSONDecodeError, (body_read fresh).
  split; [| split; [apply not_elem_of_empty | reflexivity]].
  unfold azure_openai_embedding. cbn [request].
  rewrite (embeddings_route None JSONDecodeError).
  cbv beta iota. cbn [negb]. cbv beta iota.
  step (lift_run _ _ fresh (param_run _ _ _ dep_x_param)).
  unfold bind. now rewrite request_json_fail.
Qed.

(** A completions request on a fresh state, whose log holds no warning
    and no name. *)
Lemma generators_keep_one_warning_per_name_witness :
  warned fresh /\
  warned (snd (azure_openai_completion
                 (completion_request [("prompt", JStr "hello"); ("max_tokens", JInt 10)])
                 fresh)).
Proof.
  assert (W : warned fresh) by (unfold warned; cbn; now rewrite elements_empty).
  split; [exact W |].
  exact (proj1 (proj2 (generators_keep_one_warning_per_name
                         (completion_request
                            [("prompt", JStr "hello"); ("max_tokens", JInt 10)])
                         fresh W))).
Defined.

(** A value some other component has put under the key ["trace_id"] is
    still there after a completion has been generated. *)
Lemma generators_write_their_keys_only_witness :
  let s :=
    {| missing_deployment_names := ∅;
       warnings := [];
       values := {["trace_id" := JStr "t-1"]};
       body_reads := 0;
       draws := 0 |} in
  values (snd (azure_openai_completion
                 (completion_request [("prompt", JStr "hello"); ("max_tokens", JInt 10)])
                 s)) !! "trace_id" = Some (JStr "t-1").
Proof.
  cbv zeta.
  match goal with
  | |- values (snd (azure_openai_completion ?context ?s)) !! ?k = _ =>
      destruct (generators_write_their_keys_only context s k) as (_ & C & _)
  end.
  - intros I.
    repeat (apply elem_of_cons in I as [I | I]; [discriminate I |]).
    now apply elem_of_nil in I.
  - rewrite C. reflexivity.
Defined.

(** A completions request without a [prompt], made when [context.values]
    holds a value already. *)
Lemma failure_publishes_nothing_witness :
  let s :=
    {| missing_deployment_names := ∅;
       warnings := [];
       values := {["trace_id" := JStr "t-1"]};
       body_reads := 0;
       draws := 0 |} in
  exists s',
    azure_openai_completion (completion_request [("max_tokens", JInt 10)]) s
      = (Raise (KeyError "prompt"), s') /\
    values s' = {["trace_id" := JStr "t-1"]}.
Proof.
  cbv zeta.
  eassert (E : azure_openai_completion (completion_request [("max_tokens", JInt 10)]) _ = _).
  { apply (completion_getitem_fail
             (completion_request [("max_tokens", JInt 10)]) _
             {["deployment" := "dep-x"]} "dep-x" (JObj [("max_tokens", JInt 10)])
             (KeyError "prompt"));
      [exact (completions_route _ _) | exact dep_x_param | reflexivity | reflexivity]. }
  eexists. split; [exact E |].
  exact (proj1 (proj2 (failure_publishes_nothing _ _ _ _)) E).
Defined.

(** Requests for the unregistered deployment [dep-x] whose body does not
    parse, one a body that is not UTF-8, one malformed JSON: the completions
    generator has recorded the name, the embeddings generator has not. *)
Lemma unparsable_body_raises_witness :
  let unparsable path e :=
    {| request := {| method := "POST"; url_path := path; body := None; body_error := e |};
       config := no_deployments |} in
  (exists s',
     azure_openai_completion
       (unparsable "/openai/deployments/dep-x/completions" UnicodeDecodeError) fresh
       = (Raise UnicodeDecodeError, s') /\
     missing_deployment_names s' = {["dep-x"%string]} ∪ ∅ /\
     warnings s' = [missing_warning "dep-x"]) /\
  (exists s',
     azure_openai_embedding
       (unparsable "/openai/deployments/dep-x/embeddings" JSONDecodeError) fresh
       = (Raise JSONDecodeError, s') /\
     missing_deployment_names s' = ∅ /\
     warnings s' = []).
Proof.
  cbv zeta. split.
  - destruct (unparsable_body_raises
                {| request := {| method := "POST";
                                 url_path := "/openai/deployments/dep-x/completions";
                                 body := None;
                                 body_error := UnicodeDecodeError |};
                   config := no_deployments |}
                fresh {["deployment" := "dep-x"]} "dep-x" eq_refl)
      as (_ & C & _); [exact dep_x_param |].
    eexists. split; [apply C; exact (completions_route _ _) |]. split; reflexivity.
  - destruct (unparsable_body_raises
                {| request := {| method := "POST";
                                 url_path := "/openai/deployments/dep-x/embeddings";
                                 body := None;
                                 body_error := JSONDecodeError |};
                   config := no_deployments |}
                fresh {["deployment" := "dep-x"]} "dep-x" eq_refl)
      as (E & _); [exact dep_x_param |].
    eexists. split; [apply E; exact (embeddings_route _ _) |]. split; reflexivity.
Defined.

(** A completions request without a [prompt]. *)
Lemma required_field_missing_witness :
  azure_openai_completion (completion_request [("max_tokens", JInt 10)]) fresh
    = (Raise (KeyError "prompt"), body_read (resolved_state no_deployments "dep-x" fresh)).
Proof.
  destruct (required_field_missing
              (completion_request [("max_tokens", JInt 10)]) fresh
              {["deployment" := "dep-x"]} "dep-x" [("max_tokens", JInt 10)] eq_refl)
    as (_ & C & _); [exact dep_x_param |].
  apply C; [exact (completions_route _ _) | reflexivity].
Defined.

(** A chat-completions request whose body is a JSON list. *)
Lemma body_not_an_object_witness :
  azure_openai_chat_completion
    (post "/openai/deployments/dep-x/chat/completions" (JArr [])) fresh
    = (Raise TypeError, resolved_state no_deployments "dep-x" (body_read fresh)).
Proof.
  destruct (body_not_an_object
              (post "/openai/deployments/dep-x/chat/completions" (JArr [])) fresh
              {["deployment" := "dep-x"]} "dep-x" (JArr []) eq_refl)
    as (_ & _ & G); [discriminate | exact dep_x_param |].
  apply G. exact (chat_route _ _).
Defined.

(** Completions requests with an explicit [null], and with the string
    ["10"], for [max_tokens]. *)
Lemma word_budget_failure_witness :
  azure_openai_completion
    (completion_request [("prompt", JStr "hello"); ("max_tokens", JNull)]) fresh
    = (Raise TypeError, body_read (resolved_state no_deployments "dep-x" fresh)) /\
  azure_openai_completion
    (completion_request [("prompt", JStr "hello"); ("max_tokens", JStr "10")]) fresh
    = (Raise TypeError, body_read (resolved_state no_deployments "dep-x" fresh)).
Proof.
  split.
  - destruct (word_budget_failure
                (completion_request [("prompt", JStr "hello"); ("max_tokens", JNull)]) fresh
                {["deployment" := "dep-x"]} "dep-x"
                [("prompt", JStr "hello"); ("max_tokens", JNull)] eq_refl dep_x_param)
      as (N & _).
    destruct (N eq_refl) as (C & _).
    apply (C "hello"%string); [exact (completions_route _ _) | reflexivity].
  - destruct (word_budget_failure
                (completion_request [("prompt", JStr "hello"); ("max_tokens", JStr "10")])
                fresh {["deployment" := "dep-x"]} "dep-x"
                [("prompt", JStr "hello"); ("max_tokens", JStr "10")] eq_refl dep_x_param)
      as (N & _).
    destruct (N eq_refl) as (C & _).
    apply (C "hello"%string); [exact (completions_route _ _) | reflexivity].
Defined.

(** A chat completion whose [stream] is the string ["false"] is
    streamed. *)
Lemma chat_streams_iff_truthy_witness :
  exists g s',
    azure_openai_chat_completion
      (post "/openai/deployments/dep-x/chat/completions"
         (JObj [("messages", JArr [JObj [("role", JStr "user"); ("content", JStr "hi")]]);
                ("max_tokens", JInt 3);
                ("stream", JStr "false")])) fresh
      = (Ok (Some (StreamingResponse g)), s').
Proof.
  eassert (E : azure_openai_chat_completion _ fresh = _).
  { apply (chat_run_stream
             (post "/openai/deployments/dep-x/chat/completions"
                (JObj [("messages",
                        JArr [JObj [("role", JStr "user"); ("content", JStr "hi")]]);
                       ("max_tokens", JInt 3);
                       ("stream", JStr "false")])) fresh
             {["deployment" := "dep-x"]} "dep-x"
             [("messages", JArr [JObj [("role", JStr "user"); ("content", JStr "hi")]]);
              ("max_tokens", JInt 3); ("stream", JStr "false")]
             (JArr [JObj [("role", JStr "user"); ("content", JStr "hi")]]) 8 2);
      [exact (chat_route _ _) | exact dep_x_param | | | vm_compute | vm_compute | | ];
      (reflexivity || discriminate). }
  destruct (chat_streams_iff_truthy _ _ _ _ E) as (fields & Hb & S).
  injection Hb as <-.
  destruct (proj2 S eq_refl) as (g & G).
  eexists g, _. rewrite <- G. exact E.
Defined.


(** The string ["hello"] and the list of that one string. *)
Lemma embedding_string_as_singleton_witness :
  azure_openai_embedding (embedding_request (JStr "hello")) fresh
    = azure_openai_embedding (embedding_request (JArr [JStr "hello"])) fresh.
Proof.
  apply (embedding_string_as_singleton
           (embedding_request (JStr "hello")) (embedding_request (JArr [JStr "hello"]))
           fresh {["deployment" := "dep-x"]} "dep-x"
           [("input", JStr "hello")] [("input", JArr [JStr "hello"])] "hello");
    [reflexivity | exact (embeddings_route _ _) | exact (embeddings_route _ _)
    | exact dep_x_param | reflexivity | reflexivity | reflexivity | reflexivity].
Defined.

(** An embeddings request whose input is the number 5. *)
Lemma embedding_input_not_iterable_witness :
  azure_openai_embedding (embedding_request (JInt 5)) fresh
    = (Raise TypeError, resolved_state no_deployments "dep-x" (body_read fresh)).
Proof.
  apply (embedding_input_not_iterable (embedding_request (JInt 5)) fresh
           {["deployment" := "dep-x"]} "dep-x" [("input", JInt 5)] (JInt 5));
    [exact (embeddings_route _ _) | exact dep_x_param | reflexivity | reflexivity
    | reflexivity].
Defined.

(** A completion of ten tokens at most for the prompt ["hello"], under
    the reference tokenizer of one token per character. *)
Lemma completion_usage_counts_witness :
  exists response_body s',
    azure_openai_completion
      (completion_request [("prompt", JStr "hello"); ("max_tokens", JInt 10)]) fresh
      = (Ok (Some (Response 200 (json_dumps response_body) json_headers)), s') /\
    at_path [Key "usage"; Key "prompt_tokens"] response_body = Some (JInt 5).
Proof.
  eassert (E : azure_openai_completion _ fresh = _).
  { apply (completion_run
             (completion_request [("prompt", JStr "hello"); ("max_tokens", JInt 10)])
             fresh {["deployment" := "dep-x"]} "dep-x"
             [("prompt", JStr "hello"); ("max_tokens", JInt 10)] "hello" 7);
      [exact (completions_route _ _) | exact dep_x_param | | | vm_compute | ];
      (reflexivity || discriminate). }
  cbv zeta in E.
  destruct (completion_usage_counts _ _ _ _ E)
    as (response_body & path_params & deployment_name & fields & prompt & text &
        R & _ & _ & Hb & Hi & _ & P & _).
  injection Hb as <-. injection Hi as <-.
  exists response_body. eexists. split; [rewrite <- R; exact E | exact P].
Defined.

(** A chat completion of ten tokens at most, not streamed. *)
Lemma chat_response_fields_witness :
  exists response_body s',
    azure_openai_chat_completion (chat_request 10 false) fresh
      = (Ok (Some (Response 200 (json_dumps response_body)
                     [("Content-Type", "application/json")%string])), s') /\
    at_path [Key "object"] response_body = Some (JStr "chat.completion") /\
    at_path [Key "model"] response_body = Some (JStr "gpt-3.5-turbo-0613") /\
    at_path [Key "usage"; Key "prompt_tokens"] response_body = Some (JInt 8).
Proof.
  eassert (E : azure_openai_chat_completion _ fresh = _).
  { apply (chat_run_plain (chat_request 10 false) fresh {["deployment" := "dep-x"]} "dep-x"
             [("messages", JArr [JObj [("role", JStr "user"); ("content", JStr "hi")]]);
              ("max_tokens", JInt 10); ("stream", JBool false)]
             (JArr [JObj [("role", JStr "user"); ("content", JStr "hi")]]) 8 7);
      [exact (chat_route _ _) | exact dep_x_param | | | vm_compute | vm_compute | | ];
      (reflexivity || discriminate). }
  cbv zeta in E.
  destruct (chat_response_fields _ _ _ _ _ _ E)
    as (response_body & path_params & deployment_name & fields & messages & text &
        _ & R & _ & Hm & Hp & Hb & Hi & _ & O & Mo & _ & _ & _ & _ & (P & HP & U) & _).
  pose proof (chat_route (body (request (chat_request 10 false))) JSONDecodeError) as Hm'.
  change (is_route_match (request (chat_request 10 false))
            "/openai/deployments/{deployment}/chat/completions" ["POST"%string]
          = (true, {["deployment" := "dep-x"]})) in Hm'.
  rewrite Hm' in Hm. injection Hm as <-. rewrite dep_x_param in Hp. injection Hp as <-.
  injection Hb as <-. injection Hi as <-. vm_compute in HP. injection HP as <-.
  exists response_body. eexists. split; [rewrite <- R; exact E |].
  split; [exact O |]. split; [exact Mo | exact U].
Defined.

(** A completion of ten tokens at most: the counts under the reference
    keys are those of the response. *)
Lemma published_matches_response_witness :
  exists response_body s',
    azure_openai_completion
      (completion_request [("prompt", JStr "hello"); ("max_tokens", JInt 10)]) fresh
      = (Ok (Some (Response 200 (json_dumps response_body) json_headers)), s') /\
    values s' !! "deployment_name"%string = Some (JStr "dep-x") /\
    values s' !! "openai_total_tokens"%string
      = at_path [Key "usage"; Key "total_tokens"] response_body.
Proof.
  eassert (E : azure_openai_completion _ fresh = _).
  { apply (completion_run
             (completion_request [("prompt", JStr "hello"); ("max_tokens", JInt 10)])
             fresh {["deployment" := "dep-x"]} "dep-x"
             [("prompt", JStr "hello"); ("max_tokens", JInt 10)] "hello" 7);
      [exact (completions_route _ _) | exact dep_x_param | | | vm_compute | ];
      (reflexivity || discriminate). }
  cbv zeta in E.
  assert (D : NoDup [SIMULATOR_KEY_LIMITER; SIMULATOR_KEY_OPERATION_NAME;
                     SIMULATOR_KEY_DEPLOYMENT_NAME; SIMULATOR_KEY_OPENAI_COMPLETION_TOKENS;
                     SIMULATOR_KEY_OPENAI_TOTAL_TOKENS]).
  { cbn. repeat (apply NoDup_cons; split;
      [intros I; repeat (apply elem_of_cons in I as [I | I]; [discriminate I |]);
       now apply elem_of_nil in I |]).
    apply NoDup_nil_2. }
  destruct (proj1 (proj2 (published_matches_response D _ _ _ _)) E)
    as (response_body & path_params & deployment_name & R & Hm & Hp & V & _ & T).
  pose proof (completions_route
                (body (request (completion_request
                                  [("prompt", JStr "hello"); ("max_tokens", JInt 10)])))
                JSONDecodeError)
    as Hm'.
  change (is_route_match
            (request (completion_request
                        [("prompt", JStr "hello"); ("max_tokens", JInt 10)]))
            "/openai/deployments/{deployment}/completions" ["POST"%string]
          = (true, {["deployment" := "dep-x"]})) in Hm'.
  rewrite Hm' in Hm. injection Hm as <-. rewrite dep_x_param in Hp. injection Hp as <-.
  exists response_body. eexists. split; [rewrite <- R; exact E |].
  split; [exact V | exact T].
Defined.

(** The reference random source yields the eighths from 0 to 7/8. *)
Lemma reference_random_unit k : unit_interval (random_random k).
Proof.
  cbn [random_random externals].
  pose proof (Nat.mod_upper_bound k 8 ltac:(lia)) as B.
  destruct (k mod 8)%nat as [| [| [| [| [| [| [| [| j]]]]]]]];
    try (split; vm_compute; reflexivity).
  lia.
Qed.

(** An embeddings request for the string ["hello"], on the reference
    random source. *)
Lemma embedding_components_in_range_witness :
  exists data T s',
    azure_openai_embedding (embedding_request (JStr "hello")) fresh
      = (Ok (Some (Response 200 (json_dumps (embeddings_body data T)) json_headers)), s') /\
    Forall ranged data.
Proof.
  eassert (E : azure_openai_embedding _ fresh = _).
  { apply (embedding_run_string (embedding_request (JStr "hello")) fresh
             {["deployment" := "dep-x"]} "dep-x" [("input", JStr "hello")] "hello");
      [exact (embeddings_route _ _) | exact dep_x_param | reflexivity | reflexivity]. }
  cbv zeta in E.
  destruct (embedding_components_in_range reference_random_unit _ _ _ _ E)
    as (data & T & R & F).
  exists data, T. eexists. split; [rewrite <- R; exact E | exact F].
Defined.
